(** * Month-grid calendar (src/components/calendar/Calendar.tsx)

    A shallow embedding of the [MonthView] component: the grid of day
    cells it builds from the reference date, the per-cell offer/order
    flags, the selection state and the handlers that act on it.

    The component relies on JavaScript's [Date] and on the [date-fns]
    library.  Both are external to the repository; they are modelled in
    two layers.

    The modules [ES] (the date arithmetic of the ECMAScript standard),
    [DateFns] (the library functions the component imports, written with
    the [Date] methods the library calls) and [Calendar] compute with
    local time values, integer counts of milliseconds: they are the
    calendar arithmetic itself, what the code computes in a time zone of
    constant offset, away from the ends of the range of time values and
    with one reading of the clock per render.

    The module [Host] has the [Date] objects of the engine: a UTC time
    value or NaN (the Invalid Date), the clipping of results to the range
    of time values, the time zone as the [LocalTZA] of the standard, and
    [new Date()] read anew for every cell.  Its functions apply the
    arithmetic of the first layer to the local time and convert back.
    The statements about all reference dates, zones and clocks are made
    there. *)

From Stdlib Require Import ZArith List String Ascii Bool Lia.
From Stdlib Require Import DecimalString DecimalN.
Import ListNotations.
Open Scope Z_scope.

(** ** ECMAScript date arithmetic *)

Module ES.

Definition Date := Z.

Definition msPerDay : Z := 86400000.

Definition Day (t : Date) : Z := t / msPerDay.

Definition TimeWithinDay (t : Date) : Z := t mod msPerDay.

Definition DaysInYear (y : Z) : Z :=
  if negb (y mod 4 =? 0) then 365
  else if negb (y mod 100 =? 0) then 366
  else if negb (y mod 400 =? 0) then 365
  else 366.

Definition DayFromYear (y : Z) : Z :=
  365 * (y - 1970) + (y - 1969) / 4 - (y - 1901) / 100 + (y - 1601) / 400.

(** The standard defines the year of a day as the largest [y] with
    [DayFromYear y <= d].  It is computed from an estimate that is off by
    at most one (a Gregorian cycle of 400 years has 146097 days). *)
Definition YearFromDay (d : Z) : Z :=
  let e := 1970 + (400 * d) / 146097 in
  if d <? DayFromYear e then e - 1
  else if DayFromYear (e + 1) <=? d then e + 1
  else e.

Definition YearFromTime (t : Date) : Z := YearFromDay (Day t).

(** 1 in a leap year, 0 otherwise. *)
Definition leapDay (y : Z) : Z := if DaysInYear y =? 366 then 1 else 0.

Definition InLeapYear (t : Date) : Z := leapDay (YearFromTime t).

Definition DayWithinYear (t : Date) : Z :=
  Day t - DayFromYear (YearFromTime t).

(** First day (within the year) of each month, January = 0. *)
Definition monthStartDay (leap m : Z) : Z :=
  match m with
  | 0 => 0
  | 1 => 31
  | 2 => 59 + leap
  | 3 => 90 + leap
  | 4 => 120 + leap
  | 5 => 151 + leap
  | 6 => 181 + leap
  | 7 => 212 + leap
  | 8 => 243 + leap
  | 9 => 273 + leap
  | 10 => 304 + leap
  | 11 => 334 + leap
  | _ => 365 + leap
  end.

Definition MonthFromTime (t : Date) : Z :=
  let d := DayWithinYear t in
  let l := InLeapYear t in
  if d <? 31 then 0
  else if d <? 59 + l then 1
  else if d <? 90 + l then 2
  else if d <? 120 + l then 3
  else if d <? 151 + l then 4
  else if d <? 181 + l then 5
  else if d <? 212 + l then 6
  else if d <? 243 + l then 7
  else if d <? 273 + l then 8
  else if d <? 304 + l then 9
  else if d <? 334 + l then 10
  else 11.

Definition DateFromTime (t : Date) : Z :=
  DayWithinYear t - monthStartDay (InLeapYear t) (MonthFromTime t) + 1.

Definition WeekDay (t : Date) : Z := (Day t + 4) mod 7.

Definition MakeTime (h m s ms : Z) : Z :=
  h * 3600000 + m * 60000 + s * 1000 + ms.

(** [MakeDay year month date]: the day number of the [date]-th day of
    the month, where [month] may lie outside 0..11 and [date] outside
    the month (both carry over). *)
Definition MakeDay (year month date : Z) : Z :=
  let ym := year + month / 12 in
  let mn := month mod 12 in
  DayFromYear ym + monthStartDay (leapDay ym) mn + date - 1.

Definition MakeDate (day time : Z) : Date := day * msPerDay + time.

(** *** Methods of [Date] (local time) *)

Definition getTime (t : Date) : Z := t.
Definition getFullYear (t : Date) : Z := YearFromTime t.
Definition getMonth (t : Date) : Z := MonthFromTime t.
Definition getDate (t : Date) : Z := DateFromTime t.
Definition getDay (t : Date) : Z := WeekDay t.

Definition setDate (t : Date) (dt : Z) : Date :=
  MakeDate (MakeDay (YearFromTime t) (MonthFromTime t) dt) (TimeWithinDay t).

Definition setMonth (t : Date) (m dt : Z) : Date :=
  MakeDate (MakeDay (YearFromTime t) m dt) (TimeWithinDay t).

Definition setFullYear (t : Date) (y m dt : Z) : Date :=
  MakeDate (MakeDay y m dt) (TimeWithinDay t).

Definition setHours (t : Date) (h m s ms : Z) : Date :=
  MakeDate (Day t) (MakeTime h m s ms).

(** Number of days of month [m] (0..11) of year [y]. *)
Definition DaysInMonth (y m : Z) : Z :=
  match m with
  | 1 => 28 + leapDay y
  | 3 | 5 | 8 | 10 => 30
  | _ => 31
  end.

End ES.

(** ** The date-fns functions the component imports

    [date-fns] is a dependency, not part of the repository.  Each
    function is written with the [Date] methods the library calls, on a
    copy of its argument. *)

Module DateFns.
Import ES.

Definition startOfDay (d : Date) : Date := setHours d 0 0 0 0.

Definition startOfMonth (d : Date) : Date :=
  setHours (setDate d 1) 0 0 0 0.

Definition endOfMonth (d : Date) : Date :=
  let month := getMonth d in
  setHours (setFullYear d (getFullYear d) (month + 1) 0) 23 59 59 999.

Definition startOfWeek (d : Date) (weekStartsOn : Z) : Date :=
  let day := getDay d in
  let diff := (if day <? weekStartsOn then 7 else 0) + day - weekStartsOn in
  setHours (setDate d (getDate d - diff)) 0 0 0 0.

Definition endOfWeek (d : Date) (weekStartsOn : Z) : Date :=
  let day := getDay d in
  let diff :=
    (if day <? weekStartsOn then -7 else 0) + 6 - (day - weekStartsOn) in
  setHours (setDate d (getDate d + diff)) 23 59 59 999.

Definition addDays (d : Date) (amount : Z) : Date :=
  if amount =? 0 then d else setDate d (getDate d + amount).

(** [addMonths] keeps the day of the month unless the target month is
    shorter, in which case it returns the last day of the target month. *)
Definition addMonths (d : Date) (amount : Z) : Date :=
  if amount =? 0 then d
  else
    let dayOfMonth := getDate d in
    let endOfDesiredMonth := setMonth d (getMonth d + amount + 1) 0 in
    let daysInMonth := getDate endOfDesiredMonth in
    if dayOfMonth >=? daysInMonth then endOfDesiredMonth
    else
      setFullYear d (getFullYear endOfDesiredMonth)
        (getMonth endOfDesiredMonth) dayOfMonth.

Definition subMonths (d : Date) (amount : Z) : Date := addMonths d (- amount).

Definition isSameDay (l r : Date) : bool :=
  getTime (startOfDay l) =? getTime (startOfDay r).

Definition isSameMonth (l r : Date) : bool :=
  (getFullYear l =? getFullYear r) && (getMonth l =? getMonth r).

(** *** Formatting *)

(** [String(n)] for a non-negative integer. *)
Definition toString (n : Z) : string :=
  NilZero.string_of_uint (N.to_uint (Z.to_N n)).

Fixpoint repeatChar (c : ascii) (n : nat) : string :=
  match n with
  | O => EmptyString
  | S k => String c (repeatChar c k)
  end.

Definition padStart (s : string) (targetLength : nat) (c : ascii) : string :=
  (repeatChar c (targetLength - String.length s) ++ s)%string.

Definition addLeadingZeros (number : Z) (targetLength : nat) : string :=
  let sign := if number <? 0 then "-"%string else EmptyString in
  (sign ++ padStart (toString (Z.abs number)) targetLength "0"%char)%string.

(** One token of a pattern: a run of [n] copies of the character [c].
    Only the numeric tokens the component uses are formatted ([y], [M],
    [d]); any other character stands for itself. *)
Definition formatToken (d : Date) (c : ascii) (n : nat) : string :=
  if Ascii.eqb c "y"%char then
    let signedYear := getFullYear d in
    let year := if signedYear >? 0 then signedYear else 1 - signedYear in
    addLeadingZeros (if Nat.eqb n 2 then year mod 100 else year) n
  else if Ascii.eqb c "M"%char then addLeadingZeros (getMonth d + 1) n
  else if Ascii.eqb c "d"%char then addLeadingZeros (getDate d) n
  else repeatChar c n.

Fixpoint formatRuns (d : Date) (c : ascii) (n : nat) (rest : string) : string :=
  match rest with
  | EmptyString => formatToken d c n
  | String c' rest' =>
      if Ascii.eqb c c' then formatRuns d c (S n) rest'
      else (formatToken d c n ++ formatRuns d c' 1 rest')%string
  end.

Definition format (d : Date) (formatStr : string) : string :=
  match formatStr with
  | EmptyString => EmptyString
  | String c rest => formatRuns d c 1 rest
  end.

End DateFns.

(** ** The component *)

Module Calendar.
Import ES DateFns.

Record MonthDay := mkMonthDay {
  day : string;
  date : string;
  today : bool;
  offer : bool;
  order : bool;
  isCurrentMonth : bool
}.

Definition DayFormat : string := "yyyy-MM-dd"%string.

(** [Array.prototype.includes] on an array of strings. *)
Definition includes (l : list string) (s : string) : bool :=
  existsb (String.eqb s) l.

(** [Array.prototype.find]. *)
Definition find {A} (l : list A) (p : A -> bool) : option A := List.find p l.

(** *** Building the grid (lines 78-98)

    [from], [offerDays] and [orderDays] are the props; [now] is the value
    of [new Date()] during the render, read once ([Host.buildDays] reads
    it for every cell). *)

Section Grid.

Variable from : Date.
Variable now : Date.
Variables offerDays orderDays : list string.

(** The object pushed for [day]. *)
Definition cellOf (d : Date) : MonthDay :=
  {| day := format d "dd"%string;
     date := format d DayFormat;
     today := isSameDay d now;
     offer := includes offerDays (format d DayFormat);
     order := includes orderDays (format d DayFormat);
     isCurrentMonth := isSameMonth d from |}.

(** The [while] loop; [None] when the fuel runs out before the loop
    condition fails. *)
Fixpoint daysLoop (fuel : nat) (d lastSunday : Date) (days : list MonthDay)
  : option (list MonthDay) :=
  match fuel with
  | O => None
  | S fuel' =>
      if (d <=? lastSunday) || isSameDay d lastSunday then
        daysLoop fuel' (addDays d 1) lastSunday (days ++ [cellOf d])
      else Some days
  end.

Definition monthStart : Date := startOfMonth from.
Definition monthEnd : Date := endOfMonth from.
Definition firstMonday : Date := startOfWeek monthStart 1.
Definition lastSunday : Date := endOfWeek monthEnd 1.

Definition daysWithFuel (fuel : nat) : option (list MonthDay) :=
  daysLoop fuel firstMonday lastSunday [].

End Grid.

(** A month with the days of the adjacent weeks spans at most 42 days,
    so the loop condition is evaluated at most 43 times. *)
Definition loopFuel : nat := 64.

Definition buildDays (from now : Date) (offerDays orderDays : list string)
  : option (list MonthDay) :=
  daysWithFuel from now offerDays orderDays loopFuel.

(** *** Rows of the grid (lines 100-103) *)

(** [Array.prototype.slice] for [0 <= a <= b]. *)
Definition slice {A} (l : list A) (a b : nat) : list A :=
  firstn (b - a) (skipn a l).

(** The [for] loop; [i] grows by 7, so it runs at most [length days]
    times. *)
Fixpoint weeksLoop (fuel i : nat) (days : list MonthDay)
    (weeks : list (list MonthDay)) : option (list (list MonthDay)) :=
  match fuel with
  | O => None
  | S fuel' =>
      if (i <? List.length days)%nat then
        weeksLoop fuel' (i + 7) days (weeks ++ [slice days i (i + 7)])
      else Some weeks
  end.

Definition buildWeeks (days : list MonthDay) : option (list (list MonthDay)) :=
  weeksLoop (S (List.length days)) 0 days [].

(** *** Component state

    The three [useState] cells of the component. *)

Inductive PopupType := success | error.

Record Popup := mkPopup {
  visible : bool;
  message : string;
  type : PopupType
}.

Record State := mkState {
  width : Z;
  selectedDate : option string;
  popup : Popup
}.

Definition initialState : State :=
  {| width := 0;
     selectedDate := None;
     popup := {| visible := false; message := EmptyString; type := success |} |}.

Definition setWidth (w : Z) (st : State) : State :=
  {| width := w; selectedDate := selectedDate st; popup := popup st |}.

Definition setSelectedDate (v : option string) (st : State) : State :=
  {| width := width st; selectedDate := v; popup := popup st |}.

Definition setPopup (p : Popup) (st : State) : State :=
  {| width := width st; selectedDate := selectedDate st; popup := p |}.

(** What a handler does besides updating the state. *)
Inductive Effect :=
| OnMonthChange (newMonth : Date)
| FetchPost (url : string) (bodyDate : string)
| ConsoleLog (text : string)
| ConsoleError (text : string).

(** The result of the single [fetch] of a submission: a response (its
    [ok] flag, its status and its JSON body, [None] when [response.json()]
    rejects) or a rejected promise. *)
Inductive FetchOutcome :=
| Responded (ok : bool) (status : Z) (json : option string)
| TransportError.

(** Whether a [string | null] is truthy. *)
Definition truthy (s : option string) : bool :=
  match s with
  | None => false
  | Some EmptyString => false
  | Some _ => true
  end.

(** [d.date === selectedDate]. *)
Definition strictEq (s : string) (v : option string) : bool :=
  match v with
  | Some s' => String.eqb s s'
  | None => false
  end.

(** *** Handlers (lines 108-177)

    A handler is a closure of one render: it reads the props and the
    state [st] of that render.  What it does is a state update, the
    composition of the setter calls it makes, to be applied to the state
    current when they run (for [handleOrder], after the [fetch] has
    settled), and a list of effects.  [onMonthChange] tells whether the
    optional callback was passed. *)

Definition Update := State -> State.

(** No setter is called. *)
Definition noUpdate : Update := fun s => s.

Definition handlePreviousMonth (from : Date) (onMonthChange : bool) (st : State)
  : Update * list Effect :=
  let previousMonth := subMonths from 1 in
  (noUpdate, if onMonthChange then [OnMonthChange previousMonth] else []).

Definition handleNextMonth (from : Date) (onMonthChange : bool) (st : State)
  : Update * list Effect :=
  let nextMonth := addMonths from 1 in
  (noUpdate, if onMonthChange then [OnMonthChange nextMonth] else []).

Definition handleDayPress (dayData : MonthDay) : Update :=
  if isCurrentMonth dayData then setSelectedDate (Some (date dayData))
  else noUpdate.

Definition showPopup (msg : string) (ty : PopupType) : Update :=
  setPopup {| visible := true; message := msg; type := ty |}.

(** [onRequestClose] of the modal and [onPress] of its OK button. *)
Definition closePopup : Update :=
  fun prev =>
    setPopup {| visible := false;
                message := message (popup prev);
                type := type (popup prev) |} prev.

Definition orderUrl : string := "https://example.com/order"%string.
Definition msgOrderPlaced : string :=
  "Zamówienie zostało złożone pomyślnie!"%string.
Definition msgOrderFailed : string :=
  "Wystąpił błąd podczas składania zamówienia"%string.
Definition msgConnection : string :=
  "Błąd połączenia. Sprawdź internet i spróbuj ponownie"%string.
Definition logOrderSent : string := "Zamówienie wysłane pomyślnie:"%string.
Definition logOrderFailed : string :=
  "Błąd podczas wysyłania zamówienia:"%string.
Definition logNetwork : string :=
  "Błąd sieci podczas wysyłania zamówienia:"%string.

(** [handleOrder]; [net] is what the [fetch] call resolves to, should it
    be made.  The [timestamp] field of the request body is left out. *)
Definition handleOrder (days : list MonthDay) (net : FetchOutcome) (st : State)
  : Update * list Effect :=
  if truthy (selectedDate st) then
    let selectedDay := find days (fun d => strictEq (date d) (selectedDate st)) in
    if match selectedDay with Some d => offer d | None => false end then
      let request :=
        FetchPost orderUrl
          (match selectedDate st with Some s => s | None => EmptyString end) in
      match net with
      | Responded true _ (Some _) =>
          (showPopup msgOrderPlaced success,
           [request; ConsoleLog logOrderSent])
      | Responded true _ None =>
          (showPopup msgConnection error,
           [request; ConsoleError logNetwork])
      | Responded false _ _ =>
          (showPopup msgOrderFailed error,
           [request; ConsoleError logOrderFailed])
      | TransportError =>
          (showPopup msgConnection error,
           [request; ConsoleError logNetwork])
      end
    else (noUpdate, [])
  else (noUpdate, []).

Record SelectedDayInfo := mkSelectedDayInfo {
  text : string;
  showButton : bool;
  isAvailable : bool
}.

Section SelectedDay.

(** [format(new Date(selectedDate), "d LLLL yyyy", { locale: pl })]: the
    Polish long form of a date key, left abstract. *)
Variable describeDate : string -> string.

Definition getSelectedDayInfo (days : list MonthDay) (st : State)
  : option SelectedDayInfo :=
  if negb (truthy (selectedDate st)) then None
  else
    let selectedDay := find days (fun d => strictEq (date d) (selectedDate st)) in
    let formattedDate :=
      describeDate
        (match selectedDate st with Some s => s | None => EmptyString end) in
    Some {| text := ("Wybrana data: " ++ formattedDate)%string;
            showButton := true;
            isAvailable :=
              match selectedDay with Some d => offer d | None => false end
              || false |}.

(** The order button is rendered and enabled (lines 268-280): the
    selected day is orderable. *)
Definition isOrderable (days : list MonthDay) (st : State) : bool :=
  match getSelectedDayInfo days st with
  | Some info => isAvailable info
  | None => false
  end.

End SelectedDay.

End Calendar.

(** ** Vocabulary of the statements *)

Module Vocabulary.
Import ES DateFns Calendar.

(** [n] consecutive dates starting with [first], one day apart. *)
Definition gridDates (first : Date) (n : nat) : list Date :=
  map (fun i => addDays first (Z.of_nat i)) (seq 0 n).

(** The dates of the month of [from], the 1st first. *)
Definition monthDates (from : Date) : list Date :=
  gridDates (startOfMonth from)
    (Z.to_nat (DaysInMonth (getFullYear from) (getMonth from))).

(** Months counted from year 0. *)
Definition monthIndex (d : Date) : Z := getFullYear d * 12 + getMonth d.

(** The local midnight of the calendar date [y]-[m]-[d], as a local
    time value; [y] is the astronomical year (0 is 1 BC). *)
Definition civil (y m d : Z) : Date := MakeDate (MakeDay y (m - 1) d) 0.

(** The year as [format] prints it (no year zero: 1 BC is year 1). *)
Definition printedYear (d : Date) : Z :=
  let signedYear := getFullYear d in
  if signedYear >? 0 then signedYear else 1 - signedYear.

(** Reading back a two-digit field. *)
Definition digitValue (c : ascii) : Z := Z.of_nat (nat_of_ascii c) - 48.

Definition readTwoDigits (s : string) : option Z :=
  match s with
  | String a (String b EmptyString) => Some (10 * digitValue a + digitValue b)
  | _ => None
  end.

(** The date keys of the grid of March 2024. *)
Definition march2024Keys : list string :=
  ["2024-02-26"; "2024-02-27"; "2024-02-28"; "2024-02-29"; "2024-03-01";
   "2024-03-02"; "2024-03-03";
   "2024-03-04"; "2024-03-05"; "2024-03-06"; "2024-03-07"; "2024-03-08";
   "2024-03-09"; "2024-03-10";
   "2024-03-11"; "2024-03-12"; "2024-03-13"; "2024-03-14"; "2024-03-15";
   "2024-03-16"; "2024-03-17";
   "2024-03-18"; "2024-03-19"; "2024-03-20"; "2024-03-21"; "2024-03-22";
   "2024-03-23"; "2024-03-24";
   "2024-03-25"; "2024-03-26"; "2024-03-27"; "2024-03-28"; "2024-03-29";
   "2024-03-30"; "2024-03-31"]%string.

Definition isFetch (e : Effect) : bool :=
  match e with
  | FetchPost _ _ => true
  | _ => false
  end.

Definition fetchCount (l : list Effect) : nat := List.length (filter isFetch l).

(** The popup of a submission that failed with [net]: an error with the
    "something went wrong" text for a response that is not ok, with the
    "check your connection" text otherwise. *)
Definition failurePopup (net : FetchOutcome) : Popup :=
  {| visible := true;
     message := match net with
                | Responded false _ _ => msgOrderFailed
                | _ => msgConnection
                end;
     type := error |}.

End Vocabulary.

(** ** Rendering (lines 181-321)

    The parts of the returned tree that are computed from the grid and
    the state: the merged style of a day cell, its label, the keys of the
    rows.  A style is a JavaScript object, a list of properties in
    insertion order; the [width / 7] of the wrapping views, a quotient of
    floating-point numbers, is left out. *)

Module Render.
Import ES DateFns Calendar.

(** A string or a decimal literal [mantissa / 10 ^ decimals]. *)
Inductive StyleValue :=
| Str (s : string)
| Num (mantissa : Z) (decimals : nat).

Definition Style := list (string * StyleValue).

(** [o[k] = v]: an existing property keeps its place. *)
Fixpoint setProp (k : string) (v : StyleValue) (o : Style) : Style :=
  match o with
  | [] => [(k, v)]
  | (k', v') :: o' =>
      if String.eqb k k' then (k', v) :: o' else (k', v') :: setProp k v o'
  end.

Fixpoint getProp (k : string) (o : Style) : option StyleValue :=
  match o with
  | [] => None
  | (k', v') :: o' => if String.eqb k k' then Some v' else getProp k o'
  end.

(** [{ ...src }] spread into the object under construction. *)
Definition spread (target src : Style) : Style :=
  fold_left (fun o kv => setProp (fst kv) (snd kv) o) src target.

(** [{ ...a, ...b, ... }]. *)
Definition spreadAll (parts : list Style) : Style := fold_left spread parts [].

Definition primary : string := "#0070ff"%string.
Definition textPrimary : string := "#000000"%string.
Definition textDisabled : string := "#cccccc"%string.
Definition textWhite : string := "#ffffff"%string.
Definition backgroundLight : string := "#f6f6f6"%string.
Definition backgroundLighter : string := "#f0f0f0"%string.
Definition borderLight : string := "#f6f6f6"%string.
Definition borderLighter : string := "#f0f0f0"%string.

Definition touchableBox : Style :=
  [("backgroundColor", Str backgroundLight); ("aspectRatio", Num 1 0);
   ("borderRadius", Num 4 0); ("borderWidth", Num 1 0);
   ("borderColor", Str borderLight); ("justifyContent", Str "center")]%string.

Definition noOfferDay : Style := [("opacity", Num 4 1)]%string.

Definition otherMonthDay : Style :=
  [("backgroundColor", Str backgroundLighter);
   ("borderColor", Str borderLighter); ("opacity", Num 4 1)]%string.

Definition todayBackground : Style :=
  [("borderWidth", Num 1 0); ("borderRadius", Num 4 0);
   ("borderColor", Str primary)]%string.

Definition selectedDay : Style :=
  [("backgroundColor", Str primary); ("borderColor", Str primary)]%string.

Definition dayText : Style :=
  [("textAlign", Str "center"); ("fontSize", Num 13 0);
   ("color", Str textPrimary)]%string.

Definition otherMonthText : Style := [("color", Str textDisabled)]%string.

(** The [style] of the [Pressable] of a day (lines 233-243). *)
Definition pressableStyle (d : MonthDay) (selectedDate : option string) : Style :=
  spreadAll
    [touchableBox;
     if offer d || negb (isCurrentMonth d) then [] else noOfferDay;
     if isCurrentMonth d then [] else otherMonthDay;
     if today d && isCurrentMonth d then todayBackground else [];
     if strictEq (date d) selectedDate && isCurrentMonth d then selectedDay
     else []].

(** The [style] of the label of a day (lines 249-254). *)
Definition dayTextStyle (d : MonthDay) (selectedDate : option string) : Style :=
  spreadAll
    [dayText;
     if today d then [("fontWeight", Str "bold"); ("color", Str primary)]%string
     else [];
     if isCurrentMonth d then [] else otherMonthText;
     if strictEq (date d) selectedDate
     then [("color", Str textWhite); ("fontWeight", Str "bold")]%string
     else []].

(** The label inside the box of a day (lines 247-258): its text and its
    style, [None] when nothing is rendered. *)
Definition dayLabel (d : MonthDay) (selectedDate : option string)
  : option (string * Style) :=
  if isCurrentMonth d then Some (day d, dayTextStyle d selectedDate) else None.

Definition weekDayNames : list string :=
  ["Pon"; "Wt"; "Śr"; "Czw"; "Pt"; "Sob"; "Nie"]%string.

(** Whether the box of a day is painted in the primary colour, the mark
    of the selected day. *)
Definition isHighlighted (d : MonthDay) (selectedDate : option string) : bool :=
  match getProp "backgroundColor" (pressableStyle d selectedDate) with
  | Some (Str s) => String.eqb s primary
  | _ => false
  end.

(** The React key of a row (line 221). *)
Definition rowKey (week : list MonthDay) (weekIndex : nat) : string :=
  ("week-" ++
   match week with
   | d :: _ =>
       match date d with
       | EmptyString => toString (Z.of_nat weekIndex)
       | k => k
       end
   | [] => toString (Z.of_nat weekIndex)
   end)%string.

(** The keys of the rows, in order. *)
Definition rowKeys (weeks : list (list MonthDay)) : list string :=
  map (fun iw => rowKey (snd iw) (fst iw))
    (combine (seq 0 (List.length weeks)) weeks).

End Render.

(** ** The component as a state machine

    Events are what the user and the network do to a mounted component.
    The parent owns the props, so every event comes with the props and
    the clock of the render it happens in.  A request that was sent and
    has not settled is kept with the closure of [handleOrder] that waits
    for it. *)

Module Machine.
Import ES DateFns Calendar.

Record WeekViewProps := mkProps {
  from : Date;
  offerDays : list string;
  orderDays : list string;
  onMonthChange : bool
}.

(** What runs when a [fetch] settles: the rest of [handleOrder]. *)
Definition Continuation := FetchOutcome -> Update * list Effect.

Record Config := mkConfig {
  state : State;
  pending : list Continuation
}.

Definition initialConfig : Config :=
  {| state := initialState; pending := [] |}.

Inductive Event :=
| Layout (w : Z)
| PressPrevious
| PressNext
| PressDay (i : nat)
| PressOrder
| PressOk
| Settle (i : nat) (net : FetchOutcome).

(** The grid of a render. *)
Definition renderDays (p : WeekViewProps) (now : Date) : list MonthDay :=
  match buildDays (from p) now (offerDays p) (orderDays p) with
  | Some days => days
  | None => []
  end.

Definition isFetchEffect (e : Effect) : bool :=
  match e with
  | FetchPost _ _ => true
  | _ => false
  end.

Fixpoint removeNth {A} (i : nat) (l : list A) : list A :=
  match l, i with
  | [], _ => []
  | _ :: l', O => l'
  | x :: l', S i' => x :: removeNth i' l'
  end.

Section Step.

Variable describeDate : string -> string.

(** One event.  [PressDay i] presses the [i]-th cell of the grid;
    [PressOrder] presses the order button, which is there when a date is
    selected and has [handleOrder] as its [onPress] when the date is
    available; the request is sent at once and what follows the [await]
    is kept until [Settle]; [PressOk] closes the popup when it is open. *)
Definition step (p : WeekViewProps) (now : Date) (e : Event) (c : Config)
  : Config * list Effect :=
  let st := state c in
  let days := renderDays p now in
  match e with
  | Layout w => ({| state := setWidth w st; pending := pending c |}, [])
  | PressPrevious =>
      let r := handlePreviousMonth (from p) (onMonthChange p) st in
      ({| state := fst r st; pending := pending c |}, snd r)
  | PressNext =>
      let r := handleNextMonth (from p) (onMonthChange p) st in
      ({| state := fst r st; pending := pending c |}, snd r)
  | PressDay i =>
      match nth_error days i with
      | Some d => ({| state := handleDayPress d st; pending := pending c |}, [])
      | None => (c, [])
      end
  | PressOrder =>
      match getSelectedDayInfo describeDate days st with
      | Some info =>
          if isAvailable info then
            let k : Continuation := fun net =>
              let r := handleOrder days net st in
              (fst r, filter (fun e => negb (isFetchEffect e)) (snd r)) in
            ({| state := st; pending := pending c ++ [k] |},
             filter isFetchEffect (snd (handleOrder days TransportError st)))
          else (c, [])
      | None => (c, [])
      end
  | PressOk =>
      if visible (popup st) then
        ({| state := closePopup st; pending := pending c |}, [])
      else (c, [])
  | Settle i net =>
      match nth_error (pending c) i with
      | Some k =>
          ({| state := fst (k net) st; pending := removeNth i (pending c) |},
           snd (k net))
      | None => (c, [])
      end
  end.

(** A sequence of events, each with the props and the clock of its
    render; every effect is recorded with the props of its event. *)
Fixpoint run (evs : list (WeekViewProps * Date * Event)) (c : Config)
  : Config * list (WeekViewProps * Effect) :=
  match evs with
  | [] => (c, [])
  | (p, now, e) :: evs' =>
      let r := step p now e c in
      let r' := run evs' (fst r) in
      (fst r', map (fun x => (p, x)) (snd r) ++ snd r')
  end.

End Step.

(** *** Vocabulary of the statements about runs *)

(** The popup a settled request leads to. *)
Definition outcomePopup (net : FetchOutcome) : Popup :=
  match net with
  | Responded true _ (Some _) =>
      {| visible := true; message := msgOrderPlaced; type := success |}
  | Responded false _ _ =>
      {| visible := true; message := msgOrderFailed; type := error |}
  | _ => {| visible := true; message := msgConnection; type := error |}
  end.

(** Nothing selected, or the key of a date. *)
Definition KeyOrNone (s : option string) : Prop :=
  s = None \/ exists d, s = Some (format d DayFormat).

(** The popup of the initial state, or one of the three popups of
    [handleOrder], open or closed. *)
Definition KnownPopup (q : Popup) : Prop :=
  q = popup initialState \/
  exists net, message q = message (outcomePopup net) /\
              type q = type (outcomePopup net).

(** A continuation of [handleOrder]: it shows the popup of the outcome
    and sends nothing. *)
Definition ShowsOutcome (k : Continuation) : Prop :=
  forall net,
    fst (k net) = setPopup (outcomePopup net) /\
    filter isFetchEffect (snd (k net)) = [].

Definition requests (trace : list (WeekViewProps * Effect)) : nat :=
  List.length (filter (fun pe => isFetchEffect (snd pe)) trace).

(** A request is for an offered date: it goes to the order endpoint and
    its date is a date key on the offer list of the render it was sent
    from. *)
Definition OfferedRequest (pe : WeekViewProps * Effect) : Prop :=
  match snd pe with
  | FetchPost url k =>
      url = orderUrl /\ In k (offerDays (fst pe)) /\
      exists d, k = format d DayFormat
  | _ => True
  end.

(** A configuration as the handlers leave it. *)
Definition Inv (c : Config) : Prop :=
  KeyOrNone (selectedDate (state c)) /\
  KnownPopup (popup (state c)) /\
  Forall ShowsOutcome (pending c).

(** What one event, taking [c] to [c'] with the effects [effs], keeps:
    the invariant; requests are for offered dates; a selection is not
    cleared; every new outstanding request was sent; the popup is as
    before, or was open and is closed, or shows the outcome of a request
    that was outstanding. *)
Definition StepKeeps (p : WeekViewProps) (c c' : Config) (effs : list Effect)
  : Prop :=
  Inv c' /\
  Forall OfferedRequest (map (fun x => (p, x)) effs) /\
  (selectedDate (state c) <> None -> selectedDate (state c') <> None) /\
  (List.length (pending c') <=
   List.length (pending c) + requests (map (fun x => (p, x)) effs))%nat /\
  (popup (state c') = popup (state c) \/
   (visible (popup (state c)) = true /\
    popup (state c') =
      {| visible := false; message := message (popup (state c));
         type := type (popup (state c)) |}) \/
   (pending c <> [] /\ exists net, popup (state c') = outcomePopup net)).

End Machine.

(** ** Reading a date key

    The inverse of [format d "yyyy-MM-dd"], for the statements about
    keys: the three numbers between the dashes. *)

Module KeyCodec.

(** A string of decimal digits as a number, [None] for anything else. *)
Definition decodeNat (s : string) : option Z :=
  match s with
  | EmptyString => None
  | _ => option_map (fun u => Z.of_N (N.of_uint u)) (NilEmpty.uint_of_string s)
  end.

(** The text before the first dash and the text after it. *)
Fixpoint splitDash (s : string) : option (string * string) :=
  match s with
  | EmptyString => None
  | String c rest =>
      if Ascii.eqb c "-"%char then Some (EmptyString, rest)
      else
        match splitDash rest with
        | Some (a, b) => Some (String c a, b)
        | None => None
        end
  end.

Definition parseDateKey (s : string) : option (Z * Z * Z) :=
  match splitDash s with
  | Some (y, rest) =>
      match splitDash rest with
      | Some (m, d) =>
          match decodeNat y, decodeNat m, decodeNat d with
          | Some y', Some m', Some d' => Some (y', m', d')
          | _, _, _ => None
          end
      | None => None
      end
  | None => None
  end.

End KeyCodec.

(** ** The text of the selected date (line 170)

    [format(new Date(selectedDate), "d LLLL yyyy", { locale: pl })].
    [new Date(s)] reads a date-only ISO string ([YYYY-MM-DD], ten
    characters) as midnight UTC of that date; [format] prints the fields
    of the local time.  [offset] is local time minus UTC, in
    milliseconds, and [monthName] the table of month names of the
    locale.  Only these strings are modelled: for any other string,
    whose reading the standard leaves to the engine, [newDate] is
    [None]. *)

Module SelectedText.
Import ES DateFns Calendar KeyCodec.

Definition newDate (offset : Z) (s : string) : option Date :=
  if Nat.eqb (String.length s) 10 then
    match parseDateKey s with
    | Some (y, m, d) =>
        if (1 <=? m) && (m <=? 12) && (1 <=? d) && (d <=? DaysInMonth y (m - 1))
        then Some (MakeDate (MakeDay y (m - 1) d) 0 + offset)
        else None
    | None => None
    end
  else None.

Definition formatLong (monthName : Z -> string) (t : Date) : string :=
  (addLeadingZeros (getDate t) 1 ++ " " ++ monthName (getMonth t) ++ " " ++
   addLeadingZeros
     (let signedYear := getFullYear t in
      if signedYear >? 0 then signedYear else 1 - signedYear) 4)%string.

Definition selectedText (offset : Z) (monthName : Z -> string) (s : string)
  : option string :=
  option_map (formatLong monthName) (newDate offset s).

End SelectedText.

(** ** Date objects of the engine

    The modules above compute with local time values.  A [Date] object
    holds a UTC time value, or NaN (the Invalid Date).  Its local-time
    methods convert with [LocalTime], compute as in [ES], convert back
    with [UTC] and clip the result to the range of time values
    ([TimeClip]); the conversions depend on the time zone of the engine,
    which the standard leaves to the implementation as [LocalTZA].  The
    [date-fns] functions are written again with these methods, and the
    loop of the component with them; [new Date()] is evaluated once for
    every cell, as on line 91. *)

Module Host.
Import ES Calendar.

(** The time value of a [Date] object; [None] is NaN. *)
Definition Date := option Z.

(** [LocalTZA(t, isUTC)]: the offset of local time at the UTC time
    value [t] when [isUTC], at the local time value [t] otherwise. *)
Definition Zone := Z -> bool -> Z.

Definition maxTime : Z := 8640000000000000.

Definition TimeClip (t : Z) : Date :=
  if Z.abs t <=? maxTime then Some t else None.

Section Zoned.

Variable zone : Zone.

Definition LocalTime (t : Z) : Z := t + zone t true.
Definition UTC (t : Z) : Z := t - zone t false.

(** *** Methods of [Date]

    The getters are those of a valid [Date], given by its time value: on
    an Invalid Date they return NaN, and a setter of an Invalid Date, or
    one called with NaN, leaves an Invalid Date.  ([setFullYear] alone
    revives an Invalid Date, when called with numbers; the functions
    below never do that.) *)

Definition getFullYear (t : Z) : Z := ES.getFullYear (LocalTime t).
Definition getMonth (t : Z) : Z := ES.getMonth (LocalTime t).
Definition getDate (t : Z) : Z := ES.getDate (LocalTime t).
Definition getDay (t : Z) : Z := ES.getDay (LocalTime t).

Definition setDate (t : Z) (dt : Z) : Date :=
  TimeClip (UTC (ES.setDate (LocalTime t) dt)).

Definition setMonth (t : Z) (m dt : Z) : Date :=
  TimeClip (UTC (ES.setMonth (LocalTime t) m dt)).

Definition setFullYear (t : Z) (y m dt : Z) : Date :=
  TimeClip (UTC (ES.setFullYear (LocalTime t) y m dt)).

Definition setHours (t : Z) (h m s ms : Z) : Date :=
  TimeClip (UTC (ES.setHours (LocalTime t) h m s ms)).

(** Calling a method of a [Date] that may be invalid. *)
Definition onValid (d : Date) (f : Z -> Date) : Date :=
  match d with
  | Some t => f t
  | None => None
  end.

(** *** The date-fns functions *)

Definition startOfDay (d : Date) : Date :=
  onValid d (fun t => setHours t 0 0 0 0).

Definition startOfMonth (d : Date) : Date :=
  onValid (onValid d (fun t => setDate t 1)) (fun t => setHours t 0 0 0 0).

Definition endOfMonth (d : Date) : Date :=
  onValid
    (onValid d (fun t =>
       let month := getMonth t in
       setFullYear t (getFullYear t) (month + 1) 0))
    (fun t => setHours t 23 59 59 999).

Definition startOfWeek (d : Date) (weekStartsOn : Z) : Date :=
  onValid
    (onValid d (fun t =>
       let day := getDay t in
       let diff := (if day <? weekStartsOn then 7 else 0) + day - weekStartsOn in
       setDate t (getDate t - diff)))
    (fun t => setHours t 0 0 0 0).

Definition endOfWeek (d : Date) (weekStartsOn : Z) : Date :=
  onValid
    (onValid d (fun t =>
       let day := getDay t in
       let diff :=
         (if day <? weekStartsOn then -7 else 0) + 6 - (day - weekStartsOn) in
       setDate t (getDate t + diff)))
    (fun t => setHours t 23 59 59 999).

Definition addDays (d : Date) (amount : Z) : Date :=
  if amount =? 0 then d
  else onValid d (fun t => setDate t (getDate t + amount)).

(** When [endOfDesiredMonth] is invalid its [getDate()] is NaN, the
    comparison is false and [setFullYear] is called with NaN. *)
Definition addMonths (d : Date) (amount : Z) : Date :=
  if amount =? 0 then d
  else
    onValid d (fun t =>
      let dayOfMonth := getDate t in
      match setMonth t (getMonth t + amount + 1) 0 with
      | Some endOfDesiredMonth =>
          let daysInMonth := getDate endOfDesiredMonth in
          if dayOfMonth >=? daysInMonth then Some endOfDesiredMonth
          else
            setFullYear t (getFullYear endOfDesiredMonth)
              (getMonth endOfDesiredMonth) dayOfMonth
      | None => None
      end).

Definition subMonths (d : Date) (amount : Z) : Date := addMonths d (- amount).

(** [+l === +r] on numbers: false when either is NaN. *)
Definition sameNumber (l r : option Z) : bool :=
  match l, r with
  | Some a, Some b => a =? b
  | _, _ => false
  end.

(** [l <= r] on [Date] objects: false when either is invalid. *)
Definition leDate (l r : Date) : bool :=
  match l, r with
  | Some a, Some b => a <=? b
  | _, _ => false
  end.

Definition isSameDay (l r : Date) : bool :=
  sameNumber (startOfDay l) (startOfDay r).

Definition isSameMonth (l r : Date) : bool :=
  sameNumber (option_map getFullYear l) (option_map getFullYear r) &&
  sameNumber (option_map getMonth l) (option_map getMonth r).

(** [format] throws a [RangeError] on an Invalid Date ([None]). *)
Definition format (d : Date) (formatStr : string) : option string :=
  option_map (fun t => DateFns.format (LocalTime t) formatStr) d.

(** *** Building the grid (lines 78-98)

    [clock i] is the time value of the [i]-th [new Date()] of the
    render. *)

Section Grid.

Variable from : Date.
Variable clock : nat -> Z.
Variables offerDays orderDays : list string.

(** The object pushed for [day] as the cell number [i]; [None] when
    [format] throws. *)
Definition cellOf (i : nat) (d : Date) : option MonthDay :=
  match format d "dd"%string, format d DayFormat with
  | Some dd, Some key =>
      Some {| day := dd;
              date := key;
              today := isSameDay d (Some (clock i));
              offer := includes offerDays key;
              order := includes orderDays key;
              isCurrentMonth := isSameMonth d from |}
  | _, _ => None
  end.

(** The [while] loop; [None] when [format] throws or the fuel runs
    out. *)
Fixpoint daysLoop (fuel : nat) (d lastSunday : Date) (days : list MonthDay)
  : option (list MonthDay) :=
  match fuel with
  | O => None
  | S fuel' =>
      if leDate d lastSunday || isSameDay d lastSunday then
        match cellOf (List.length days) d with
        | Some c => daysLoop fuel' (addDays d 1) lastSunday (days ++ [c])
        | None => None
        end
      else Some days
  end.

Definition monthStart : Date := startOfMonth from.
Definition monthEnd : Date := endOfMonth from.
Definition firstMonday : Date := startOfWeek monthStart 1.
Definition lastSunday : Date := endOfWeek monthEnd 1.

Definition buildDays : option (list MonthDay) :=
  daysLoop loopFuel firstMonday lastSunday [].

End Grid.

(** *** Month navigation (lines 108-116) *)

(** The call of the optional [onMonthChange]. *)
Inductive Emitted :=
| OnMonthChange (newMonth : Date).

Definition handlePreviousMonth (from : Date) (onMonthChange : bool) (st : State)
  : Update * list Emitted :=
  let previousMonth := subMonths from 1 in
  (noUpdate, if onMonthChange then [OnMonthChange previousMonth] else []).

Definition handleNextMonth (from : Date) (onMonthChange : bool) (st : State)
  : Update * list Emitted :=
  let nextMonth := addMonths from 1 in
  (noUpdate, if onMonthChange then [OnMonthChange nextMonth] else []).

End Zoned.

(** *** Time zones

    A zone is given by the offset before its first transition and by its
    transitions in order of time: the UTC time value of each and the
    offset from then on.  A local time that a transition skips or repeats
    is read with the offset before the transition, as the standard
    requires. *)

Fixpoint offsetAtUTC (o : Z) (transitions : list (Z * Z)) (t : Z) : Z :=
  match transitions with
  | [] => o
  | (at_, o') :: rest => if t <? at_ then o else offsetAtUTC o' rest t
  end.

Fixpoint offsetAtLocal (o : Z) (transitions : list (Z * Z)) (t : Z) : Z :=
  match transitions with
  | [] => o
  | (at_, o') :: rest =>
      if (t - o <? at_) || (t - o' <? at_) then o else offsetAtLocal o' rest t
  end.

Definition zoneOf (o : Z) (transitions : list (Z * Z)) : Zone :=
  fun t isUTC =>
    if isUTC then offsetAtUTC o transitions t else offsetAtLocal o transitions t.

Definition utc : Zone := zoneOf 0 [].

(** Pacific/Apia around the end of 2011: ten hours behind UTC until the
    end of 29 December, fourteen hours ahead from then on, so that the
    local 30 December 2011 does not exist. *)
Definition apia : Zone := zoneOf (-36000000) [(1325239200000, 50400000)].

(** America/New_York in 2024: five hours behind UTC, four hours from
    10 March 02:00 to 3 November 02:00 local time. *)
Definition newYork : Zone :=
  zoneOf (-18000000) [(1710054000000, -14400000); (1730613600000, -18000000)].

(** Pacific/Kiritimati around the end of 1994: ten hours behind UTC
    until the end of 30 December, fourteen hours ahead from then on, so
    that the local 31 December 1994 does not exist. *)
Definition kiritimati : Zone := zoneOf (-36000000) [(788868000000, 50400000)].

End Host.

(** ** Vocabulary of the statements about the engine's dates *)

Module HostVocabulary.
Import ES Calendar.

(** A zone with a regular calendar: offsets of at most a day; no local
    day is skipped, that is, a local time converted to UTC and back falls
    on the same local day; and the local day never goes back as time
    passes. *)
Record Regular (z : Host.Zone) : Prop := mkRegular {
  offset_bound : forall t b, Z.abs (z t b) <= msPerDay;
  day_kept : forall t, Day (Host.LocalTime z (Host.UTC z t)) = Day t;
  day_monotone : forall t1 t2,
    t1 <= t2 -> Day (Host.LocalTime z t1) <= Day (Host.LocalTime z t2)
}.

(** The time value [t] is at least [k] days inside the range of time
    values. *)
Definition InsideRange (t : Z) (k : Z) : Prop :=
  Z.abs t + k * msPerDay <= Host.maxTime.

(** Day numbers of the range of time values. *)
Definition maxDay : Z := 100000000.

(** A local time that exists in the zone: it is the local time of its
    UTC time. *)
Definition LocalExists (z : Host.Zone) (t : Z) : Prop :=
  Host.LocalTime z (Host.UTC z t) = t.

(** The cells of [n] consecutive dates starting with [first], the
    [i]-th compared with [nowAt i] for its [today] flag; all of them
    local time values. *)
Definition cellsAt (from : Z) (nowAt : nat -> Z) (offerDays orderDays : list string)
    (first : Z) (n : nat) : list MonthDay :=
  map (fun i => cellOf from (nowAt i) offerDays orderDays
                  (DateFns.addDays first (Z.of_nat i)))
    (seq 0 n).

(** A cell without its [today] flag. *)
Definition withoutToday (c : MonthDay) : MonthDay :=
  {| day := day c; date := date c; today := false; offer := offer c;
     order := order c; isCurrentMonth := isCurrentMonth c |}.

End HostVocabulary.

(** ** Properties of the date arithmetic *)

Module ESFacts.
Import ES.

Lemma DaysInYear_cases y : DaysInYear y = 365 \/ DaysInYear y = 366.
Proof.
  unfold DaysInYear.
  destruct (y mod 4 =? 0), (y mod 100 =? 0), (y mod 400 =? 0); simpl; auto.
Qed.

Lemma DayFromYear_succ y : DayFromYear (y + 1) = DayFromYear y + DaysInYear y.
Proof.
  unfold DayFromYear, DaysInYear.
  replace (y + 1 - 1969) with (y - 1968) by lia.
  replace (y + 1 - 1901) with (y - 1900) by lia.
  replace (y + 1 - 1601) with (y - 1600) by lia.
  destruct (Z.eqb_spec (y mod 4) 0), (Z.eqb_spec (y mod 100) 0),
    (Z.eqb_spec (y mod 400) 0); cbn [negb];
    Z.to_euclidean_division_equations; lia.
Qed.

Lemma DayFromYear_lt y : DayFromYear y < DayFromYear (y + 1).
Proof. rewrite DayFromYear_succ. destruct (DaysInYear_cases y); lia. Qed.

Lemma DayFromYear_mono y1 y2 : y1 <= y2 -> DayFromYear y1 <= DayFromYear y2.
Proof.
  intros H. unfold DayFromYear. Z.to_euclidean_division_equations. lia.
Qed.

Lemma YearFromDay_spec d :
  DayFromYear (YearFromDay d) <= d < DayFromYear (YearFromDay d + 1).
Proof.
  unfold YearFromDay.
  set (e := 1970 + 400 * d / 146097).
  assert (Hlo : DayFromYear (e - 1) <= d).
  { unfold DayFromYear, e. Z.to_euclidean_division_equations. lia. }
  assert (Hhi : d < DayFromYear (e + 2)).
  { unfold DayFromYear, e. Z.to_euclidean_division_equations. lia. }
  destruct (Z.ltb_spec d (DayFromYear e)).
  - replace (e - 1 + 1) with e by lia. lia.
  - destruct (Z.leb_spec (DayFromYear (e + 1)) d).
    + replace (e + 1 + 1) with (e + 2) by lia. lia.
    + lia.
Qed.

Lemma YearFromDay_unique d y :
  DayFromYear y <= d < DayFromYear (y + 1) -> YearFromDay d = y.
Proof.
  intros Hy. pose proof (YearFromDay_spec d) as Hs.
  destruct (Z.lt_trichotomy (YearFromDay d) y) as [Hlt | [Heq | Hgt]]; auto.
  - pose proof (DayFromYear_mono (YearFromDay d + 1) y ltac:(lia)). lia.
  - pose proof (DayFromYear_mono (y + 1) (YearFromDay d) ltac:(lia)). lia.
Qed.

Lemma Day_MakeDate dn tod :
  0 <= tod < msPerDay -> Day (MakeDate dn tod) = dn.
Proof.
  intros H. unfold Day, MakeDate, msPerDay in *.
  Z.to_euclidean_division_equations. lia.
Qed.

Lemma TimeWithinDay_MakeDate dn tod :
  0 <= tod < msPerDay -> TimeWithinDay (MakeDate dn tod) = tod.
Proof.
  intros H. unfold TimeWithinDay, MakeDate, msPerDay in *.
  Z.to_euclidean_division_equations. lia.
Qed.

Lemma TimeWithinDay_range t : 0 <= TimeWithinDay t < msPerDay.
Proof. unfold TimeWithinDay, msPerDay. apply Z.mod_pos_bound. lia. Qed.

Lemma MakeDate_Day t : MakeDate (Day t) (TimeWithinDay t) = t.
Proof.
  unfold MakeDate, Day, TimeWithinDay, msPerDay.
  Z.to_euclidean_division_equations. lia.
Qed.

Lemma DayWithinYear_range t :
  0 <= DayWithinYear t < DaysInYear (YearFromTime t).
Proof.
  unfold DayWithinYear, YearFromTime.
  pose proof (YearFromDay_spec (Day t)) as H.
  rewrite DayFromYear_succ in H. lia.
Qed.

Lemma leapDay_cases y :
  (leapDay y = 0 \/ leapDay y = 1) /\ DaysInYear y = 365 + leapDay y.
Proof.
  unfold leapDay. destruct (DaysInYear_cases y) as [H | H]; rewrite H; simpl; auto.
Qed.

Ltac month_cases d :=
  repeat match goal with
    | |- context [d <? ?k] => destruct (Z.ltb_spec d k)
    end.

Ltac each_month m :=
  let Hc := fresh "Hc" in
  assert (Hc : m = 0 \/ m = 1 \/ m = 2 \/ m = 3 \/ m = 4 \/ m = 5 \/ m = 6 \/
               m = 7 \/ m = 8 \/ m = 9 \/ m = 10 \/ m = 11) by lia;
  repeat (destruct Hc as [Hc | Hc]); subst m.

Lemma MonthFromTime_range t : 0 <= MonthFromTime t <= 11.
Proof.
  unfold MonthFromTime.
  set (d := DayWithinYear t). set (l := InLeapYear t).
  month_cases d; lia.
Qed.

Lemma MakeDay_small y m d :
  0 <= m <= 11 ->
  MakeDay y m d = DayFromYear y + monthStartDay (leapDay y) m + d - 1.
Proof.
  intros Hm. unfold MakeDay.
  rewrite (Z.div_small m 12), (Z.mod_small m 12), Z.add_0_r by lia.
  reflexivity.
Qed.

(** The fields of a date give back its day number. *)
Lemma MakeDay_fields t :
  MakeDay (YearFromTime t) (MonthFromTime t) (DateFromTime t) = Day t.
Proof.
  rewrite MakeDay_small by apply MonthFromTime_range.
  unfold DateFromTime, InLeapYear, DayWithinYear. lia.
Qed.

Lemma DateFromTime_range t :
  1 <= DateFromTime t <= DaysInMonth (YearFromTime t) (MonthFromTime t).
Proof.
  pose proof (DayWithinYear_range t) as Hd.
  destruct (leapDay_cases (YearFromTime t)) as [Hl Hy]. rewrite Hy in Hd.
  unfold DateFromTime, DaysInMonth, MonthFromTime, InLeapYear in *.
  set (d := DayWithinYear t) in *.
  set (l := leapDay (YearFromTime t)) in *.
  month_cases d; cbn [monthStartDay DaysInMonth]; lia.
Qed.

Lemma DaysInMonth_range y m : 0 <= m <= 11 -> 28 <= DaysInMonth y m <= 31.
Proof.
  intros Hm. unfold DaysInMonth.
  destruct (leapDay_cases y) as [Hl _].
  each_month m; cbn [monthStartDay DaysInMonth]; lia.
Qed.

(** Conversely a year, a month in 0..11 and a day of that month are the
    fields of the date they make. *)
Lemma fields_MakeDay y m d tod :
  0 <= m <= 11 -> 1 <= d <= DaysInMonth y m -> 0 <= tod < msPerDay ->
  YearFromTime (MakeDate (MakeDay y m d) tod) = y /\
  MonthFromTime (MakeDate (MakeDay y m d) tod) = m /\
  DateFromTime (MakeDate (MakeDay y m d) tod) = d.
Proof.
  intros Hm Hd Ht.
  set (t := MakeDate (MakeDay y m d) tod).
  assert (HD : Day t = DayFromYear y + monthStartDay (leapDay y) m + d - 1).
  { unfold t. rewrite Day_MakeDate, MakeDay_small by assumption. reflexivity. }
  clearbody t. clear Ht tod.
  destruct (leapDay_cases y) as [Hl Hy].
  assert (HY : YearFromTime t = y).
  { unfold YearFromTime. rewrite HD. apply YearFromDay_unique.
    rewrite DayFromYear_succ, Hy. clear HD.
    each_month m; cbn [monthStartDay DaysInMonth] in *; lia. }
  assert (HW : DayWithinYear t = monthStartDay (leapDay y) m + d - 1).
  { unfold DayWithinYear. rewrite HD, HY. lia. }
  assert (HM : MonthFromTime t = m).
  { unfold MonthFromTime, InLeapYear. rewrite HW, HY. clear HD HW HY.
    each_month m; cbn [monthStartDay DaysInMonth] in *;
      repeat match goal with
        | |- context [?a <? ?k] => destruct (Z.ltb_spec a k); try lia
        end. }
  repeat split; auto.
  unfold DateFromTime, InLeapYear. rewrite HM, HW, HY. lia.
Qed.

(** Known values: the epoch is a Thursday; 2024-03-01 is day 19783;
    1900 is not a leap year, 2000 and 2024 are. *)
Example known_dates :
  MakeDate (MakeDay 1970 0 1) 0 = 0 /\ WeekDay 0 = 4 /\
  MakeDay 2024 2 1 = 19783 /\
  YearFromTime (-1) = 1969 /\ MonthFromTime (-1) = 11 /\ DateFromTime (-1) = 31 /\
  DaysInYear 1900 = 365 /\ DaysInYear 2000 = 366 /\ DaysInYear 2024 = 366.
Proof. vm_compute. repeat split. Qed.

Lemma WeekDay_range t : 0 <= WeekDay t <= 6.
Proof. unfold WeekDay. pose proof (Z.mod_pos_bound (Day t + 4) 7). lia. Qed.

End ESFacts.

(** ** Day-level description of the date-fns functions *)

Module DateFnsFacts.
Import ES ESFacts DateFns.

Lemma MakeDay_shift y m d k : MakeDay y m (d + k) = MakeDay y m d + k.
Proof. unfold MakeDay. lia. Qed.

Lemma MakeDay_first y m d : MakeDay y m d = MakeDay y m 1 + (d - 1).
Proof. unfold MakeDay. lia. Qed.

Lemma setDate_eq t dt :
  setDate t dt = MakeDate (Day t + (dt - DateFromTime t)) (TimeWithinDay t).
Proof.
  unfold setDate. f_equal.
  replace dt with (DateFromTime t + (dt - DateFromTime t)) at 1 by lia.
  rewrite MakeDay_shift, MakeDay_fields. reflexivity.
Qed.

Lemma addDays_eq t n : addDays t n = t + n * msPerDay.
Proof.
  unfold addDays. destruct (Z.eqb_spec n 0) as [-> | Hn]; [lia |].
  unfold getDate. rewrite setDate_eq.
  pose proof (MakeDate_Day t) as H. unfold MakeDate, msPerDay in *. lia.
Qed.

Lemma Day_addDays t n : Day (addDays t n) = Day t + n.
Proof.
  rewrite addDays_eq. unfold Day, msPerDay.
  rewrite Z.div_add by lia. reflexivity.
Qed.

Lemma TimeWithinDay_addDays t n : TimeWithinDay (addDays t n) = TimeWithinDay t.
Proof.
  rewrite addDays_eq. unfold TimeWithinDay, msPerDay.
  rewrite Z.mod_add by lia. reflexivity.
Qed.

Lemma setHours_eq t h m s ms :
  0 <= MakeTime h m s ms < msPerDay ->
  Day (setHours t h m s ms) = Day t /\
  TimeWithinDay (setHours t h m s ms) = MakeTime h m s ms.
Proof.
  intros H. unfold setHours.
  rewrite Day_MakeDate, TimeWithinDay_MakeDate by assumption. auto.
Qed.

Lemma startOfDay_eq t : startOfDay t = MakeDate (Day t) 0.
Proof. reflexivity. Qed.

Lemma Day_setDate t dt : Day (setDate t dt) = Day t + (dt - DateFromTime t).
Proof. rewrite setDate_eq. apply Day_MakeDate, TimeWithinDay_range. Qed.

Lemma startOfMonth_eq t :
  startOfMonth t = MakeDate (MakeDay (YearFromTime t) (MonthFromTime t) 1) 0.
Proof.
  unfold startOfMonth, setHours. f_equal.
  unfold setDate. apply Day_MakeDate, TimeWithinDay_range.
Qed.

Lemma endOfMonth_eq t :
  endOfMonth t =
  MakeDate (MakeDay (YearFromTime t) (MonthFromTime t + 1) 0) 86399999.
Proof.
  unfold endOfMonth, setHours. f_equal.
  unfold setFullYear. apply Day_MakeDate, TimeWithinDay_range.
Qed.

(** The day before the first of the next month is the last day of the
    month. *)
Lemma MakeDay_last y m :
  0 <= m <= 11 -> MakeDay y (m + 1) 0 = MakeDay y m (DaysInMonth y m).
Proof.
  intros Hm. rewrite (MakeDay_small y m) by assumption.
  destruct (Z.eq_dec m 11) as [-> | Hne].
  - unfold MakeDay. change ((11 + 1) / 12) with 1. change ((11 + 1) mod 12) with 0.
    rewrite DayFromYear_succ.
    destruct (leapDay_cases y) as [_ ->].
    cbn [monthStartDay DaysInMonth]. lia.
  - rewrite MakeDay_small by lia.
    each_month m; try lia;
      match goal with
      | |- context [monthStartDay _ (?a + 1)] =>
          let v := eval compute in (a + 1) in change (a + 1) with v
      end; cbn [monthStartDay DaysInMonth]; lia.
Qed.

Lemma startOfWeek_monday t :
  exists diff, 0 <= diff <= 6 /\
    startOfWeek t 1 = MakeDate (Day t - diff) 0 /\
    (Day t - diff + 4) mod 7 = 1.
Proof.
  unfold startOfWeek, getDay, getDate, WeekDay.
  set (wd := (Day t + 4) mod 7).
  exists ((if wd <? 1 then 7 else 0) + wd - 1).
  assert (Hwd : 0 <= wd < 7) by (apply Z.mod_pos_bound; lia).
  split; [destruct (Z.ltb_spec wd 1); lia |].
  split.
  - unfold setHours. rewrite Day_setDate. f_equal. lia.
  - unfold wd in *. destruct (Z.ltb_spec ((Day t + 4) mod 7) 1);
      Z.to_euclidean_division_equations; lia.
Qed.

Lemma endOfWeek_sunday t :
  exists diff, 0 <= diff <= 6 /\
    endOfWeek t 1 = MakeDate (Day t + diff) 86399999 /\
    (Day t + diff + 4) mod 7 = 0.
Proof.
  unfold endOfWeek, getDay, getDate, WeekDay.
  set (wd := (Day t + 4) mod 7).
  exists ((if wd <? 1 then -7 else 0) + 6 - (wd - 1)).
  assert (Hwd : 0 <= wd < 7) by (apply Z.mod_pos_bound; lia).
  split; [destruct (Z.ltb_spec wd 1); lia |].
  split.
  - unfold setHours. rewrite Day_setDate. f_equal. lia.
  - unfold wd in *. destruct (Z.ltb_spec ((Day t + 4) mod 7) 1);
      Z.to_euclidean_division_equations; lia.
Qed.

End DateFnsFacts.

(** ** The grid *)

Module GridFacts.
Import ES ESFacts DateFns DateFnsFacts Calendar Vocabulary.

Lemma gridDates_length first n : List.length (gridDates first n) = n.
Proof. unfold gridDates. rewrite length_map, length_seq. reflexivity. Qed.

Lemma gridDates_S first n :
  gridDates first (S n) = first :: gridDates (addDays first 1) n.
Proof.
  unfold gridDates. cbn [seq map]. f_equal.
  rewrite <- seq_shift, map_map. apply map_ext. intros i.
  rewrite !addDays_eq. lia.
Qed.

Lemma loop_condition d last :
  TimeWithinDay d = 0 ->
  (d <=? last) || isSameDay d last = (Day d <=? Day last).
Proof.
  intros Hd.
  pose proof (MakeDate_Day d) as Ed. pose proof (MakeDate_Day last) as El.
  pose proof (TimeWithinDay_range last) as Hl.
  unfold isSameDay, getTime. rewrite !startOfDay_eq.
  unfold MakeDate, msPerDay in *.
  destruct (Z.leb_spec d last), (Z.leb_spec (Day d) (Day last)),
    (Z.eqb_spec (Day d * 86400000 + 0) (Day last * 86400000 + 0));
    cbn [orb]; try reflexivity; lia.
Qed.

Section Loop.

Variables from now : Date.
Variables offerDays orderDays : list string.

Let cell := cellOf from now offerDays orderDays.

(** With enough fuel the loop appends the cell of every date from [d]
    to the day of [last]. *)
Lemma daysLoop_spec n : forall fuel d last days,
  TimeWithinDay d = 0 ->
  Day last = Day d + Z.of_nat n - 1 ->
  (n < fuel)%nat ->
  daysLoop from now offerDays orderDays fuel d last days =
  Some (days ++ map cell (gridDates d n))%list.
Proof.
  induction n as [| n IH]; intros fuel d last days Hd Hl Hf;
    (destruct fuel as [| fuel]; [lia |]); cbn [daysLoop];
    rewrite (loop_condition d last Hd).
  - destruct (Z.leb_spec (Day d) (Day last)); [lia |].
    cbn. rewrite app_nil_r. reflexivity.
  - destruct (Z.leb_spec (Day d) (Day last)); [| lia].
    rewrite (IH fuel (addDays d 1) last).
    + rewrite gridDates_S. cbn [map]. rewrite <- app_assoc. reflexivity.
    + rewrite TimeWithinDay_addDays. assumption.
    + rewrite Day_addDays. lia.
    + lia.
Qed.

End Loop.

(** Day numbers of the corners of the grid. *)
Lemma grid_corners from :
  let y := getFullYear from in
  let m := getMonth from in
  exists lead trail,
    0 <= lead <= 6 /\ 0 <= trail <= 6 /\
    firstMonday from = MakeDate (MakeDay y m 1 - lead) 0 /\
    lastSunday from = MakeDate (MakeDay y m (DaysInMonth y m) + trail) 86399999 /\
    (MakeDay y m 1 - lead + 4) mod 7 = 1 /\
    (MakeDay y m (DaysInMonth y m) + trail + 4) mod 7 = 0.
Proof.
  intros y m.
  pose proof (MonthFromTime_range from) as Hm.
  destruct (startOfWeek_monday (monthStart from)) as (lead & Hlead & E1 & W1).
  destruct (endOfWeek_sunday (monthEnd from)) as (trail & Htrail & E2 & W2).
  assert (D1 : Day (monthStart from) = MakeDay y m 1).
  { unfold monthStart. rewrite startOfMonth_eq. apply Day_MakeDate.
    unfold msPerDay. lia. }
  assert (D2 : Day (monthEnd from) = MakeDay y m (DaysInMonth y m)).
  { unfold monthEnd. rewrite endOfMonth_eq, Day_MakeDate by (unfold msPerDay; lia).
    apply MakeDay_last. assumption. }
  exists lead, trail. unfold firstMonday, lastSunday.
  rewrite E1, E2, D1, D2 in *. auto 10.
Qed.

(** The grid is the list of the cells of consecutive dates, from the
    Monday on or before the 1st to the Sunday on or after the last day. *)
Lemma buildDays_eq from now offerDays orderDays :
  exists lead trail,
    0 <= lead <= 6 /\ 0 <= trail <= 6 /\
    let y := getFullYear from in
    let m := getMonth from in
    let n := DaysInMonth y m + lead + trail in
    n mod 7 = 0 /\
    Day (firstMonday from) = MakeDay y m 1 - lead /\
    TimeWithinDay (firstMonday from) = 0 /\
    buildDays from now offerDays orderDays =
    Some (map (cellOf from now offerDays orderDays)
            (gridDates (firstMonday from) (Z.to_nat n))).
Proof.
  destruct (grid_corners from) as (lead & trail & Hl & Ht & E1 & E2 & W1 & W2).
  exists lead, trail. split; [assumption |]. split; [assumption |].
  intros y m n. fold y m in E1, E2, W1, W2.
  pose proof (DaysInMonth_range y m (MonthFromTime_range from)) as Hdim.
  assert (Hn : n mod 7 = 0).
  { unfold n. rewrite (MakeDay_first y m (DaysInMonth y m)) in W2.
    clearbody n. clear E1 E2.
    generalize dependent (MakeDay y m 1). generalize dependent (DaysInMonth y m).
    intros. Z.to_euclidean_division_equations. lia. }
  assert (D1 : Day (firstMonday from) = MakeDay y m 1 - lead).
  { rewrite E1. apply Day_MakeDate. unfold msPerDay. lia. }
  assert (T1 : TimeWithinDay (firstMonday from) = 0).
  { rewrite E1. apply TimeWithinDay_MakeDate. unfold msPerDay. lia. }
  repeat split; try assumption.
  unfold buildDays, daysWithFuel.
  rewrite (daysLoop_spec from now offerDays orderDays (Z.to_nat n)).
  - reflexivity.
  - assumption.
  - rewrite D1, E2, Day_MakeDate by (unfold msPerDay; lia).
    rewrite (MakeDay_first y m (DaysInMonth y m)). unfold n. lia.
  - unfold loopFuel.
    assert (n <= 42) by (Z.to_euclidean_division_equations; lia). lia.
Qed.

(** Any fuel above 42 gives the grid that [buildDays] returns. *)
Lemma daysWithFuel_enough from now offerDays orderDays fuel :
  (42 < fuel)%nat ->
  daysWithFuel from now offerDays orderDays fuel =
  buildDays from now offerDays orderDays.
Proof.
  intros Hf.
  destruct (grid_corners from) as (lead & trail & Hl & Ht & E1 & E2 & W1 & W2).
  cbv zeta in *.
  set (y := getFullYear from) in *. set (m := getMonth from) in *.
  pose proof (DaysInMonth_range y m (MonthFromTime_range from)) as Hdim.
  set (n := DaysInMonth y m + lead + trail).
  assert (Hn : n <= 42).
  { unfold n. rewrite (MakeDay_first y m (DaysInMonth y m)) in W2.
    clear E1 E2. clearbody n.
    generalize dependent (MakeDay y m 1). generalize dependent (DaysInMonth y m).
    intros. Z.to_euclidean_division_equations. lia. }
  assert (D1 : Day (firstMonday from) = MakeDay y m 1 - lead).
  { rewrite E1. apply Day_MakeDate. unfold msPerDay. lia. }
  assert (T1 : TimeWithinDay (firstMonday from) = 0).
  { rewrite E1. apply TimeWithinDay_MakeDate. unfold msPerDay. lia. }
  assert (D2 : Day (lastSunday from)
               = Day (firstMonday from) + Z.of_nat (Z.to_nat n) - 1).
  { rewrite D1, E2, Day_MakeDate by (unfold msPerDay; lia).
    rewrite (MakeDay_first y m (DaysInMonth y m)). unfold n. lia. }
  unfold buildDays, daysWithFuel.
  rewrite !(daysLoop_spec from now offerDays orderDays (Z.to_nat n));
    try assumption; try reflexivity; unfold loopFuel; lia.
Qed.

End GridFacts.

(** ** Date keys *)

Module KeyFacts.
Import ES ESFacts DateFns DateFnsFacts Calendar Vocabulary GridFacts.

Lemma string_length_app (a b : string) :
  String.length (a ++ b) = (String.length a + String.length b)%nat.
Proof. induction a as [| c a IH]; cbn; [reflexivity | rewrite IH; reflexivity]. Qed.

Lemma string_app_inv_tail (a1 a2 b1 b2 : string) :
  (a1 ++ b1)%string = (a2 ++ b2)%string ->
  String.length b1 = String.length b2 ->
  a1 = a2 /\ b1 = b2.
Proof.
  revert a2. induction a1 as [| c a1 IH]; intros [| c2 a2] H L; cbn in H.
  - auto.
  - subst b1. cbn in L. rewrite string_length_app in L. lia.
  - subst b2. cbn in L. rewrite string_length_app in L. lia.
  - injection H as -> H. destruct (IH a2 H L) as [-> ->]. auto.
Qed.

Lemma string_app_nonempty (a b : string) c : (a ++ String c b)%string <> EmptyString.
Proof. destruct a; discriminate. Qed.

Lemma format_DayFormat d :
  format d DayFormat =
  (addLeadingZeros (printedYear d) 4 ++ "-" ++
   addLeadingZeros (getMonth d + 1) 2 ++ "-" ++
   addLeadingZeros (getDate d) 2)%string.
Proof. reflexivity. Qed.

Lemma format_dd d : format d "dd" = addLeadingZeros (getDate d) 2.
Proof. reflexivity. Qed.

Lemma dateKey_nonempty d : format d DayFormat <> EmptyString.
Proof. rewrite format_DayFormat. apply string_app_nonempty. Qed.

Lemma readTwoDigits_table :
  forallb (fun n => match readTwoDigits (addLeadingZeros n 2) with
                    | Some k => k =? n
                    | None => false
                    end)
    (map Z.of_nat (seq 0 100)) = true.
Proof. vm_compute. reflexivity. Qed.

Lemma readTwoDigits_pad n :
  0 <= n <= 99 -> readTwoDigits (addLeadingZeros n 2) = Some n.
Proof.
  intros Hn. pose proof readTwoDigits_table as T.
  rewrite forallb_forall in T. specialize (T n).
  assert (Hin : In n (map Z.of_nat (seq 0 100))).
  { rewrite <- (Z2Nat.id n) by lia. apply in_map, in_seq. lia. }
  specialize (T Hin).
  destruct (readTwoDigits (addLeadingZeros n 2)) as [k |]; [| discriminate].
  apply Z.eqb_eq in T. congruence.
Qed.

Lemma pad2_length n : 0 <= n <= 99 -> String.length (addLeadingZeros n 2) = 2%nat.
Proof.
  intros Hn. pose proof (readTwoDigits_pad n Hn) as R.
  destruct (addLeadingZeros n 2) as [| a [| b [| c s]]]; cbn in R; try discriminate.
  reflexivity.
Qed.

Lemma pad2_inj n1 n2 :
  0 <= n1 <= 99 -> 0 <= n2 <= 99 ->
  addLeadingZeros n1 2 = addLeadingZeros n2 2 -> n1 = n2.
Proof.
  intros H1 H2 E. pose proof (readTwoDigits_pad n1 H1) as R1.
  rewrite E, readTwoDigits_pad in R1 by assumption. congruence.
Qed.

(** Equal keys have equal month and day-of-month fields. *)
Lemma dateKey_fields d1 d2 :
  format d1 DayFormat = format d2 DayFormat ->
  getMonth d1 = getMonth d2 /\ getDate d1 = getDate d2.
Proof.
  rewrite !format_DayFormat. intros E.
  pose proof (MonthFromTime_range d1) as M1.
  pose proof (MonthFromTime_range d2) as M2.
  pose proof (DateFromTime_range d1) as D1.
  pose proof (DateFromTime_range d2) as D2.
  pose proof (DaysInMonth_range (YearFromTime d1) _ M1) as B1.
  pose proof (DaysInMonth_range (YearFromTime d2) _ M2) as B2.
  unfold getMonth, getDate in *.
  apply string_app_inv_tail in E.
  - destruct E as [_ E]. injection E as E.
    apply string_app_inv_tail in E.
    + destruct E as [Em Ed]. injection Ed as Ed.
      apply pad2_inj in Em; [| lia | lia]. apply pad2_inj in Ed; [| lia | lia].
      split; lia.
    + cbn [String.length]. rewrite !pad2_length by lia. reflexivity.
  - cbn [String.length append]. rewrite !string_length_app. cbn [String.length].
    rewrite !pad2_length by lia. reflexivity.
Qed.

(** Two dates with the same month and day-of-month are the same day or
    lie at least 364 days apart. *)
Lemma same_fields_far d1 d2 :
  MonthFromTime d1 = MonthFromTime d2 -> DateFromTime d1 = DateFromTime d2 ->
  Day d1 = Day d2 \/ 364 <= Z.abs (Day d1 - Day d2).
Proof.
  intros Em Ed.
  pose proof (MakeDay_fields d1) as F1. pose proof (MakeDay_fields d2) as F2.
  pose proof (MonthFromTime_range d2) as Hm.
  rewrite Em, Ed in F1. rewrite MakeDay_small in F1, F2 by assumption.
  set (y1 := YearFromTime d1) in *. set (y2 := YearFromTime d2) in *.
  set (m := MonthFromTime d2) in *. clearbody y1 y2 m. clear Em Ed.
  destruct (leapDay_cases y1) as [L1 Y1]. destruct (leapDay_cases y2) as [L2 Y2].
  assert (S1 : Z.abs (monthStartDay (leapDay y1) m - monthStartDay (leapDay y2) m) <= 1).
  { clear F1 F2. each_month m; cbn [monthStartDay]; lia. }
  destruct (Z.lt_trichotomy y1 y2) as [Hlt | [Heq | Hgt]].
  - right. pose proof (DayFromYear_mono (y1 + 1) y2 ltac:(lia)) as Hmono.
    rewrite DayFromYear_succ in Hmono. lia.
  - left. rewrite Heq in *. lia.
  - right. pose proof (DayFromYear_mono (y2 + 1) y1 ltac:(lia)) as Hmono.
    rewrite DayFromYear_succ in Hmono. lia.
Qed.

(** The cell of a date depends on the day only, not on the time of
    day. *)
Lemma fields_same_day d1 d2 :
  Day d1 = Day d2 ->
  getFullYear d1 = getFullYear d2 /\ getMonth d1 = getMonth d2 /\
  getDate d1 = getDate d2.
Proof.
  intros E.
  assert (EY : YearFromTime d1 = YearFromTime d2)
    by (unfold YearFromTime; rewrite E; reflexivity).
  assert (EW : DayWithinYear d1 = DayWithinYear d2)
    by (unfold DayWithinYear; rewrite E, EY; reflexivity).
  assert (EM : MonthFromTime d1 = MonthFromTime d2)
    by (unfold MonthFromTime, InLeapYear; rewrite EW, EY; reflexivity).
  unfold getFullYear, getMonth, getDate, DateFromTime, InLeapYear.
  rewrite EY, EW, EM. auto.
Qed.

Lemma format_same_day d1 d2 f : Day d1 = Day d2 -> format d1 f = format d2 f.
Proof.
  intros E. destruct (fields_same_day d1 d2 E) as (EY & EM & ED).
  assert (T : forall c n, formatToken d1 c n = formatToken d2 c n).
  { intros c n. unfold formatToken. rewrite EY, EM, ED. reflexivity. }
  destruct f as [| c f]; [reflexivity |]. cbn [format].
  generalize 1%nat. revert c.
  induction f as [| c' f IH]; intros c n; cbn [formatRuns].
  - apply T.
  - rewrite T, !IH. reflexivity.
Qed.

Lemma cellOf_same_day from now offerDays orderDays d1 d2 :
  Day d1 = Day d2 ->
  cellOf from now offerDays orderDays d1 = cellOf from now offerDays orderDays d2.
Proof.
  intros E. unfold cellOf.
  rewrite !(format_same_day d1 d2 _ E).
  destruct (fields_same_day d1 d2 E) as (EY & EM & ED).
  unfold isSameDay, isSameMonth. rewrite !startOfDay_eq, E, EY, EM. reflexivity.
Qed.

(** Within a grid (fewer than 364 days) the keys are pairwise distinct. *)
Lemma gridDates_keys_NoDup first n :
  (n <= 42)%nat ->
  NoDup (map (fun d => format d DayFormat) (gridDates first n)).
Proof.
  intros Hn. unfold gridDates. rewrite map_map.
  apply NoDup_map_NoDup_ForallPairs; [| apply seq_NoDup].
  intros i j Hi Hj E. apply in_seq in Hi, Hj.
  apply dateKey_fields in E. destruct E as [Em Ed].
  destruct (same_fields_far _ _ Em Ed) as [H | H];
    rewrite !Day_addDays in H; lia.
Qed.

End KeyFacts.

(** ** The reference month *)

Module MonthFacts.
Import ES ESFacts DateFns DateFnsFacts Calendar Vocabulary GridFacts KeyFacts.

(** A date lies in the month of [from] exactly when its day number lies
    between those of the first and of the last day of that month. *)
Lemma isSameMonth_days d from :
  let y := getFullYear from in
  let m := getMonth from in
  isSameMonth d from =
  (MakeDay y m 1 <=? Day d) && (Day d <=? MakeDay y m 1 + (DaysInMonth y m - 1)).
Proof.
  intros y m. pose proof (MonthFromTime_range from) as Hm. fold (getMonth from) m in Hm.
  pose proof (DaysInMonth_range y m Hm) as Hdim.
  unfold isSameMonth. fold y m.
  destruct (Z.leb_spec (MakeDay y m 1) (Day d)) as [H1 | H1];
    [destruct (Z.leb_spec (Day d) (MakeDay y m 1 + (DaysInMonth y m - 1))) as [H2 | H2] |];
    cbn [andb].
  - (* in range: the fields are those of the month *)
    set (k := Day d - MakeDay y m 1 + 1).
    destruct (fields_MakeDay y m k (TimeWithinDay d)) as (EY & EM & _);
      [assumption | unfold k; lia | apply TimeWithinDay_range |].
    assert (Ed : MakeDate (MakeDay y m k) (TimeWithinDay d) = d).
    { rewrite (MakeDay_first y m k). unfold k.
      replace (MakeDay y m 1 + (Day d - MakeDay y m 1 + 1 - 1)) with (Day d) by lia.
      apply MakeDate_Day. }
    rewrite Ed in EY, EM. unfold getFullYear, getMonth. rewrite EY, EM, !Z.eqb_refl.
    reflexivity.
  - (* after the month *)
    destruct (Z.eqb_spec (getFullYear d) y) as [EY | ?]; [| reflexivity].
    destruct (Z.eqb_spec (getMonth d) m) as [EM | ?]; [| reflexivity].
    exfalso. pose proof (MakeDay_fields d) as F. pose proof (DateFromTime_range d) as R.
    unfold getFullYear, getMonth in EY, EM. rewrite EY, EM in F, R.
    rewrite MakeDay_first in F. lia.
  - (* before the month *)
    destruct (Z.eqb_spec (getFullYear d) y) as [EY | ?]; [| reflexivity].
    destruct (Z.eqb_spec (getMonth d) m) as [EM | ?]; [| reflexivity].
    exfalso. pose proof (MakeDay_fields d) as F. pose proof (DateFromTime_range d) as R.
    unfold getFullYear, getMonth in EY, EM. rewrite EY, EM in F, R.
    rewrite MakeDay_first in F. lia.
Qed.

Lemma leb_MakeDate_l a d : (MakeDate a 0 <=? d) = (a <=? Day d).
Proof.
  pose proof (MakeDate_Day d) as E. pose proof (TimeWithinDay_range d) as R.
  unfold MakeDate, msPerDay in *.
  destruct (Z.leb_spec (a * 86400000 + 0) d), (Z.leb_spec a (Day d));
    try reflexivity; lia.
Qed.

Lemma leb_MakeDate_r b d : (d <=? MakeDate b 86399999) = (Day d <=? b).
Proof.
  pose proof (MakeDate_Day d) as E. pose proof (TimeWithinDay_range d) as R.
  unfold MakeDate, msPerDay in *.
  destruct (Z.leb_spec d (b * 86400000 + 86399999)), (Z.leb_spec (Day d) b);
    try reflexivity; lia.
Qed.

(** ... that is, when it lies between [startOfMonth from] and
    [endOfMonth from]. *)
Lemma isSameMonth_range d from :
  isSameMonth d from = (startOfMonth from <=? d) && (d <=? endOfMonth from).
Proof.
  rewrite isSameMonth_days, startOfMonth_eq, endOfMonth_eq.
  rewrite leb_MakeDate_l, leb_MakeDate_r.
  rewrite MakeDay_last by apply MonthFromTime_range.
  rewrite (MakeDay_first _ _ (DaysInMonth _ _)). reflexivity.
Qed.

Lemma gridDates_app first a b :
  gridDates first (a + b) =
  (gridDates first a ++ gridDates (addDays first (Z.of_nat a)) b)%list.
Proof.
  unfold gridDates. rewrite seq_app, map_app. f_equal.
  cbn [Nat.add].
  replace (seq a b) with (map (fun i => (a + i)%nat) (seq 0 b)).
  - rewrite map_map. apply map_ext. intros i. rewrite !addDays_eq. lia.
  - clear. revert a. induction b as [| b IH]; intros a; [reflexivity |].
    cbn [seq map]. rewrite Nat.add_0_r. f_equal.
    rewrite <- (IH (S a)), <- (seq_shift b 0), map_map.
    apply map_ext. intros i. lia.
Qed.

Lemma filter_none {A} (p : A -> bool) l :
  (forall x, In x l -> p x = false) -> filter p l = [].
Proof.
  induction l as [| x l IH]; intros H; [reflexivity |]. cbn.
  rewrite (H x) by (left; reflexivity). apply IH. intros; apply H; right; assumption.
Qed.

Lemma filter_all {A} (p : A -> bool) l :
  (forall x, In x l -> p x = true) -> filter p l = l.
Proof.
  induction l as [| x l IH]; intros H; [reflexivity |]. cbn.
  rewrite (H x) by (left; reflexivity). f_equal.
  apply IH. intros; apply H; right; assumption.
Qed.

Lemma in_gridDates d first n :
  In d (gridDates first n) ->
  exists i, (i < n)%nat /\ d = addDays first (Z.of_nat i).
Proof.
  unfold gridDates. rewrite in_map_iff. intros (i & E & Hi).
  apply in_seq in Hi. exists i. split; [lia | auto].
Qed.

(** In a list with pairwise distinct keys, a key selects one element. *)
Lemma filter_key_unique {A} (key : A -> string) (l : list A) x :
  NoDup (map key l) -> In x l ->
  filter (fun y => String.eqb (key y) (key x)) l = [x].
Proof.
  induction l as [| a l IH]; intros ND Hin; [contradiction |].
  cbn [map] in ND. inversion ND as [| ? ? Hnot ND']; subst.
  cbn [filter]. destruct Hin as [-> | Hin].
  - rewrite String.eqb_refl. f_equal. apply filter_none.
    intros y Hy. apply String.eqb_neq. intros E. apply Hnot.
    rewrite <- E. apply in_map. assumption.
  - destruct (String.eqb_spec (key a) (key x)) as [E | _].
    + exfalso. apply Hnot. rewrite E. apply in_map. assumption.
    + apply IH; assumption.
Qed.

End MonthFacts.

(** ** The grid builder: shape and month membership *)

Module GridClaims.
Import ES ESFacts DateFns DateFnsFacts Calendar Vocabulary GridFacts KeyFacts
  MonthFacts.

Lemma date_cellOf from now offerDays orderDays d :
  date (cellOf from now offerDays orderDays d) = format d DayFormat.
Proof. reflexivity. Qed.

Lemma firstMonday_addDays from k :
  Day (firstMonday from) = MakeDay (getFullYear from) (getMonth from) 1 - k ->
  TimeWithinDay (firstMonday from) = 0 ->
  addDays (firstMonday from) k = startOfMonth from.
Proof.
  intros D T. rewrite addDays_eq, startOfMonth_eq.
  change (getFullYear from) with (YearFromTime from) in D.
  change (getMonth from) with (MonthFromTime from) in D.
  revert D T.
  generalize (MakeDay (YearFromTime from) (MonthFromTime from) 1).
  generalize (firstMonday from). intros f a D T.
  pose proof (MakeDate_Day f) as E. rewrite D, T in E.
  unfold MakeDate, msPerDay in *. lia.
Qed.

(** The grid as three runs of consecutive dates: the days before the
    1st, the days of the month, the days after the last. *)
Lemma buildDays_parts from now offerDays orderDays :
  exists lead trail : nat,
    (lead <= 6)%nat /\ (trail <= 6)%nat /\
    ((lead + List.length (monthDates from) + trail) mod 7 = 0)%nat /\
    (28 <= List.length (monthDates from) <= 31)%nat /\
    addDays (firstMonday from) (Z.of_nat lead) = startOfMonth from /\
    TimeWithinDay (firstMonday from) = 0 /\
    (Day (firstMonday from) + 4) mod 7 = 1 /\
    buildDays from now offerDays orderDays =
    Some (map (cellOf from now offerDays orderDays)
            (gridDates (firstMonday from)
               (lead + List.length (monthDates from) + trail))).
Proof.
  destruct (buildDays_eq from now offerDays orderDays)
    as (lead & trail & Hl & Ht & Hn & D1 & T1 & HB).
  cbv zeta in *.
  pose proof (DaysInMonth_range (getFullYear from) (getMonth from)
                (MonthFromTime_range from)) as Hdim.
  destruct (grid_corners from) as (lead' & _ & Hl' & _ & E1' & _ & W1 & _).
  cbv zeta in *.
  assert (lead' = lead).
  { assert (D1' : Day (firstMonday from)
                  = MakeDay (getFullYear from) (getMonth from) 1 - lead').
    { rewrite E1'. apply Day_MakeDate. unfold msPerDay. lia. }
    lia. }
  subst lead'.
  exists (Z.to_nat lead), (Z.to_nat trail).
  unfold monthDates. rewrite gridDates_length.
  set (dim := DaysInMonth (getFullYear from) (getMonth from)) in *.
  assert (En : (Z.to_nat lead + Z.to_nat dim + Z.to_nat trail)%nat
               = Z.to_nat (dim + lead + trail)) by lia.
  repeat split; try lia.
  - rewrite En. apply Nat2Z.inj. rewrite Nat2Z.inj_mod, Z2Nat.id by lia.
    assumption.
  - rewrite Z2Nat.id by lia. apply firstMonday_addDays; assumption.
  - rewrite D1. assumption.
  - rewrite En. assumption.
Qed.

(** On local time values the loop ends and the grid it returns has a
    cell count that is a positive multiple of 7; its cells are the cells
    of consecutive dates, one day apart in increasing order, the first a
    Monday ([getDay] 1) and the last a Sunday ([getDay] 0); the date keys
    of the cells are pairwise distinct. *)
Lemma grid_weeks_local (from now : Date) (offerDays orderDays : list string) :
  exists days : list MonthDay,
    buildDays from now offerDays orderDays = Some days /\
    days <> [] /\
    (List.length days mod 7 = 0)%nat /\
    days = map (cellOf from now offerDays orderDays)
             (gridDates (firstMonday from) (List.length days)) /\
    getDay (firstMonday from) = 1 /\
    getDay (addDays (firstMonday from) (Z.of_nat (List.length days) - 1)) = 0 /\
    (forall i : Z,
        Day (addDays (firstMonday from) i) = Day (firstMonday from) + i) /\
    NoDup (map date days).
Proof.
  destruct (buildDays_parts from now offerDays orderDays)
    as (lead & trail & Hl & Ht & Hn & Hdim & _ & _ & W1 & HB).
  set (n := (lead + List.length (monthDates from) + trail)%nat) in *.
  exists (map (cellOf from now offerDays orderDays) (gridDates (firstMonday from) n)).
  rewrite length_map, gridDates_length.
  split; [assumption |].
  split.
  { intros E. apply (f_equal (@List.length _)) in E.
    rewrite length_map, gridDates_length in E. cbn in E. lia. }
  split; [assumption |].
  split; [reflexivity |].
  split; [exact W1 |].
  split.
  { unfold getDay, WeekDay. rewrite Day_addDays.
    apply (f_equal Z.of_nat) in Hn. rewrite Nat2Z.inj_mod in Hn.
    cbn [Z.of_nat] in Hn. Z.to_euclidean_division_equations. lia. }
  split; [intros i; apply Day_addDays |].
  rewrite map_map.
  rewrite (map_ext _ (fun d => format d DayFormat))
    by (intros; apply date_cellOf).
  apply gridDates_keys_NoDup. unfold n.
  assert ((lead + List.length (monthDates from) + trail) <> 49)%nat by lia.
  assert ((lead + List.length (monthDates from) + trail) <= 43)%nat by lia.
  apply Nat.Div0.div_exact in Hn. lia.
Qed.

Lemma monthDates_in_month from d :
  In d (monthDates from) -> isSameMonth d from = true.
Proof.
  intros Hin. apply in_gridDates in Hin. destruct Hin as (i & Hi & ->).
  rewrite isSameMonth_days, Day_addDays, startOfMonth_eq.
  rewrite Day_MakeDate by (unfold msPerDay; lia).
  pose proof (DaysInMonth_range (getFullYear from) (getMonth from)
                (MonthFromTime_range from)) as Hdim.
  unfold getFullYear, getMonth in *.
  apply andb_true_iff. split; apply Z.leb_le; lia.
Qed.

Lemma isCurrentMonth_cellOf from now offerDays orderDays d :
  isCurrentMonth (cellOf from now offerDays orderDays d) = isSameMonth d from.
Proof. reflexivity. Qed.

(** The cells flagged as in-month are the cells of the dates of the
    month. *)
Lemma filter_isCurrentMonth from now offerDays orderDays lead trail :
  (lead <= 6)%nat -> (trail <= 6)%nat ->
  addDays (firstMonday from) (Z.of_nat lead) = startOfMonth from ->
  filter isCurrentMonth
    (map (cellOf from now offerDays orderDays)
       (gridDates (firstMonday from)
          (lead + List.length (monthDates from) + trail))) =
  map (cellOf from now offerDays orderDays) (monthDates from).
Proof.
  intros Hl Ht E.
  pose proof (DaysInMonth_range (getFullYear from) (getMonth from)
                (MonthFromTime_range from)) as Hdim.
  assert (Hlen : List.length (monthDates from)
                 = Z.to_nat (DaysInMonth (getFullYear from) (getMonth from)))
    by (unfold monthDates; apply gridDates_length).
  assert (D0 : Day (startOfMonth from)
               = MakeDay (getFullYear from) (getMonth from) 1).
  { rewrite startOfMonth_eq. apply Day_MakeDate. unfold msPerDay. lia. }
  rewrite !gridDates_app, !map_app, !filter_app, E.
  rewrite (filter_none isCurrentMonth (map _ (gridDates (firstMonday from) lead))).
  2:{ intros c Hc. apply in_map_iff in Hc. destruct Hc as (d & <- & Hd).
      apply in_gridDates in Hd. destruct Hd as (i & Hi & ->).
      rewrite isCurrentMonth_cellOf, isSameMonth_days.
      apply andb_false_iff. left. apply Z.leb_gt.
      rewrite <- D0, <- E, !Day_addDays. lia. }
  rewrite (filter_none isCurrentMonth (map _ (gridDates (addDays _ _) trail))).
  2:{ intros c Hc. apply in_map_iff in Hc. destruct Hc as (d & <- & Hd).
      apply in_gridDates in Hd. destruct Hd as (i & Hi & ->).
      rewrite isCurrentMonth_cellOf, isSameMonth_days.
      apply andb_false_iff. right. apply Z.leb_gt.
      rewrite <- D0, <- E, !Day_addDays. lia. }
  rewrite app_nil_r. cbn [app].
  rewrite filter_all.
  - unfold monthDates. rewrite gridDates_length. reflexivity.
  - intros c Hc. apply in_map_iff in Hc. destruct Hc as (d & <- & Hd).
    rewrite isCurrentMonth_cellOf. apply monthDates_in_month.
    unfold monthDates in *. rewrite gridDates_length in Hd. exact Hd.
Qed.

(** In the grid, the key of a date of the reference month selects one
    cell, the cell of that date. *)
Lemma key_selects_cell from now offerDays orderDays d :
  isSameMonth d from = true ->
  exists days : list MonthDay,
    buildDays from now offerDays orderDays = Some days /\
    filter (fun c => String.eqb (date c) (format d DayFormat)) days =
      [cellOf from now offerDays orderDays d].
Proof.
  intros Hin.
  destruct (buildDays_parts from now offerDays orderDays)
    as (lead & trail & Hl & Ht & Hn & Hdim & E & T1 & _ & HB).
  set (n := (lead + List.length (monthDates from) + trail)%nat) in *.
  exists (map (cellOf from now offerDays orderDays)
            (gridDates (firstMonday from) n)).
  split; [assumption |].
  assert (Hlen : List.length (monthDates from)
                 = Z.to_nat (DaysInMonth (getFullYear from) (getMonth from)))
    by (unfold monthDates; apply gridDates_length).
  rewrite isSameMonth_days in Hin. apply andb_true_iff in Hin.
  destruct Hin as [H1 H2]. apply Z.leb_le in H1, H2.
  assert (D0 : Day (startOfMonth from)
               = MakeDay (getFullYear from) (getMonth from) 1).
  { rewrite startOfMonth_eq. apply Day_MakeDate. unfold msPerDay. lia. }
  set (i := (lead + Z.to_nat (Day d - Day (startOfMonth from)))%nat).
  assert (Ei : Day (addDays (firstMonday from) (Z.of_nat i)) = Day d).
  { rewrite Day_addDays. apply (f_equal Day) in E.
    rewrite Day_addDays in E. unfold i. lia. }
  rewrite <- (cellOf_same_day from now offerDays orderDays _ _ Ei).
  rewrite <- (format_same_day _ _ DayFormat Ei).
  rewrite <- (date_cellOf from now offerDays orderDays).
  apply (filter_key_unique date).
  - rewrite map_map.
    rewrite (map_ext _ (fun d => format d DayFormat))
      by (intros; apply date_cellOf).
    apply gridDates_keys_NoDup. unfold n.
    apply Nat.Div0.div_exact in Hn. lia.
  - apply in_map. unfold gridDates.
    apply (in_map (fun k => addDays (firstMonday from) (Z.of_nat k))).
    apply in_seq. unfold i, n. lia.
Qed.

(** On local time values every date [d] from the first through the
    last instant of the reference month has exactly one cell in the grid
    (one cell carries its key, and it is the cell of [d]), flagged as
    in-month; the cells flagged as in-month are the cells of the dates of
    the month, each once; and the cell of a date is flagged exactly when
    the date lies between [startOfMonth from] and [endOfMonth from]. *)
Lemma month_cells_local (from now : Date) (offerDays orderDays : list string)
    (d : Date) (Hd : startOfMonth from <= d <= endOfMonth from) :
  exists days : list MonthDay,
    buildDays from now offerDays orderDays = Some days /\
    filter (fun c => String.eqb (date c) (format d DayFormat)) days =
      [cellOf from now offerDays orderDays d] /\
    isCurrentMonth (cellOf from now offerDays orderDays d) = true /\
    filter isCurrentMonth days =
      map (cellOf from now offerDays orderDays) (monthDates from) /\
    Forall (fun d' => (startOfMonth from <=? d') && (d' <=? endOfMonth from) = true)
      (monthDates from) /\
    (forall d' : Date,
        isCurrentMonth (cellOf from now offerDays orderDays d') =
        (startOfMonth from <=? d') && (d' <=? endOfMonth from)).
Proof.
  assert (Hin : isSameMonth d from = true).
  { rewrite isSameMonth_range. apply andb_true_iff.
    split; apply Z.leb_le; lia. }
  destruct (key_selects_cell from now offerDays orderDays d Hin)
    as (days & HB & HF).
  exists days.
  split; [assumption |].
  split; [assumption |].
  split; [exact Hin |].
  split.
  { destruct (buildDays_parts from now offerDays orderDays)
      as (lead & trail & Hl & Ht & _ & _ & E & _ & _ & HB').
    rewrite HB' in HB. injection HB as <-.
    apply filter_isCurrentMonth; assumption. }
  split.
  { apply Forall_forall. intros d' Hd'.
    rewrite <- isSameMonth_range. apply monthDates_in_month. assumption. }
  intros d'. apply isSameMonth_range.
Qed.

Lemma civil_fields y m d :
  1 <= m <= 12 -> 1 <= d <= DaysInMonth y (m - 1) ->
  getFullYear (civil y m d) = y /\ getMonth (civil y m d) = m - 1 /\
  getDate (civil y m d) = d.
Proof.
  intros Hm Hd. apply fields_MakeDay; [lia | assumption | unfold msPerDay; lia].
Qed.

(** *** The grid depends on the month of the reference date only *)

Lemma cellOf_same_month from1 from2 now offerDays orderDays d :
  getFullYear from1 = getFullYear from2 -> getMonth from1 = getMonth from2 ->
  cellOf from1 now offerDays orderDays d = cellOf from2 now offerDays orderDays d.
Proof. intros Hy Hm. unfold cellOf, isSameMonth. rewrite Hy, Hm. reflexivity. Qed.

Lemma daysLoop_same_month from1 from2 now offerDays orderDays fuel :
  getFullYear from1 = getFullYear from2 -> getMonth from1 = getMonth from2 ->
  forall d last days,
    daysLoop from1 now offerDays orderDays fuel d last days =
    daysLoop from2 now offerDays orderDays fuel d last days.
Proof.
  intros Hy Hm. induction fuel as [| fuel IH]; intros d last days; cbn [daysLoop].
  - reflexivity.
  - rewrite IH, (cellOf_same_month from1 from2) by assumption. reflexivity.
Qed.

Lemma corners_same_month from1 from2 :
  getFullYear from1 = getFullYear from2 -> getMonth from1 = getMonth from2 ->
  firstMonday from1 = firstMonday from2 /\ lastSunday from1 = lastSunday from2.
Proof.
  intros Hy Hm. unfold firstMonday, lastSunday, monthStart, monthEnd.
  rewrite !startOfMonth_eq, !endOfMonth_eq.
  unfold getFullYear, getMonth in *. rewrite Hy, Hm. auto.
Qed.

Lemma buildDays_same_month from1 from2 now offerDays orderDays :
  getFullYear from1 = getFullYear from2 -> getMonth from1 = getMonth from2 ->
  buildDays from1 now offerDays orderDays = buildDays from2 now offerDays orderDays.
Proof.
  intros Hy Hm. unfold buildDays, daysWithFuel.
  destruct (corners_same_month from1 from2 Hy Hm) as [-> ->].
  apply daysLoop_same_month; assumption.
Qed.



(** *** The grid of March 2024 *)

(** C6: for a reference date on 2024-03-01 (a Friday) the grid has
    exactly 35 cells, the cells of the consecutive dates from 2024-02-26
    (a Monday) to 2024-03-31 (a Sunday). *)
Theorem C6_march_2024 (from now : Date) (offerDays orderDays : list string)
    (Hfrom : Day from = Day (civil 2024 3 1)) :
  getDay from = 5 /\
  exists days : list MonthDay,
    buildDays from now offerDays orderDays = Some days /\
    List.length days = 35%nat /\
    days = map (cellOf from now offerDays orderDays)
             (gridDates (civil 2024 2 26) 35) /\
    map date days = march2024Keys /\
    option_map date (nth_error days 0) = Some "2024-02-26"%string /\
    option_map date (nth_error days 34) = Some "2024-03-31"%string /\
    getDay (civil 2024 2 26) = 1 /\
    getDay (civil 2024 3 31) = 0.
Proof.
  split.
  { unfold getDay, WeekDay. rewrite Hfrom. reflexivity. }
  destruct (fields_same_day _ _ Hfrom) as (Hy & Hm & _).
  exists (map (cellOf from now offerDays orderDays) (gridDates (civil 2024 2 26) 35)).
  assert (K : map date (map (cellOf from now offerDays orderDays)
                          (gridDates (civil 2024 2 26) 35)) = march2024Keys).
  { rewrite map_map.
    rewrite (map_ext _ (fun d => format d DayFormat))
      by (intros; apply date_cellOf).
    vm_compute. reflexivity. }
  split.
  { rewrite (buildDays_same_month from (civil 2024 3 1)) by assumption.
    unfold buildDays, daysWithFuel.
    replace (firstMonday (civil 2024 3 1)) with (civil 2024 2 26)
      by (vm_compute; reflexivity).
    rewrite (daysLoop_spec _ _ _ _ 35).
    - cbn [app]. f_equal. apply map_ext. intros d.
      symmetry. apply cellOf_same_month; assumption.
    - vm_compute. reflexivity.
    - vm_compute. reflexivity.
    - unfold loopFuel. lia. }
  split; [rewrite length_map, gridDates_length; reflexivity |].
  split; [reflexivity |].
  split; [exact K |].
  split; [rewrite <- nth_error_map, K; reflexivity |].
  split; [rewrite <- nth_error_map, K; reflexivity |].
  split; vm_compute; reflexivity.
Qed.

(** C6, for noon of 2024-03-01. *)
Lemma C6_march_2024_witness :
  exists days : list MonthDay,
    buildDays (civil 2024 3 1 + 43200000) (civil 2026 11 2)
      ["2024-03-10"%string] [] = Some days /\
    List.length days = 35%nat /\ map date days = march2024Keys.
Proof.
  destruct (C6_march_2024 (civil 2024 3 1 + 43200000) (civil 2026 11 2)
              ["2024-03-10"%string] [])
    as (_ & days & HB & HL & _ & HK & _).
  - vm_compute. reflexivity.
  - exists days. auto.
Defined.

End GridClaims.

(** ** Rows of the grid *)

Module RowFacts.
Import ES DateFns Calendar Vocabulary.

Lemma weeksLoop_spec days : forall k fuel i weeks,
  (List.length days = i + 7 * k)%nat -> (k < fuel)%nat ->
  exists rows,
    weeksLoop fuel i days weeks = Some (weeks ++ rows)%list /\
    List.concat rows = skipn i days /\
    Forall (fun w => List.length w = 7%nat) rows /\
    List.length rows = k.
Proof.
  induction k as [| k IH]; intros fuel i weeks Hlen Hf;
    (destruct fuel as [| fuel]; [lia |]); cbn [weeksLoop].
  - destruct (Nat.ltb_spec i (List.length days)); [lia |].
    exists []. rewrite app_nil_r, skipn_all2 by lia. auto.
  - destruct (Nat.ltb_spec i (List.length days)); [| lia].
    destruct (IH fuel (i + 7)%nat (weeks ++ [slice days i (i + 7)])%list)
      as (rows & E & C & F & L); [lia | lia |].
    exists (slice days i (i + 7) :: rows).
    rewrite E, <- app_assoc. cbn [app List.concat List.length].
    split; [reflexivity |]. split; [| split].
    + rewrite C. unfold slice. replace (i + 7 - i)%nat with 7%nat by lia.
      rewrite Nat.add_comm, <- skipn_skipn. apply firstn_skipn.
    + constructor; [| assumption]. unfold slice.
      rewrite length_firstn, length_skipn. lia.
    + lia.
Qed.

(** The rows of a grid: every row has 7 cells and the rows, one after
    the other, are the grid. *)
Lemma buildWeeks_rows from now offerDays orderDays :
  exists days weeks,
    buildDays from now offerDays orderDays = Some days /\
    buildWeeks days = Some weeks /\
    List.concat weeks = days /\
    Forall (fun w => List.length w = 7%nat) weeks /\
    (7 * List.length weeks = List.length days)%nat.
Proof.
  destruct (GridClaims.buildDays_parts from now offerDays orderDays)
    as (lead & trail & _ & _ & Hn & _ & _ & _ & _ & HB).
  set (n := (lead + List.length (monthDates from) + trail)%nat) in *.
  set (days := map _ _) in HB. exists days.
  assert (Hlen : List.length days = n)
    by (unfold days; rewrite length_map; apply GridFacts.gridDates_length).
  apply Nat.Div0.div_exact in Hn.
  destruct (weeksLoop_spec days (n / 7) (S (List.length days)) 0 [])
    as (rows & E & C & F & L); [lia | lia |].
  exists rows. unfold buildWeeks. rewrite E. cbn [app skipn] in *.
  repeat split; try assumption. lia.
Qed.

End RowFacts.

(** ** Month navigation *)

Module NavigationFacts.
Import ES ESFacts DateFns DateFnsFacts Calendar Vocabulary.

Lemma MakeDay_norm y m dt : MakeDay y m dt = MakeDay (y + m / 12) (m mod 12) dt.
Proof.
  unfold MakeDay.
  rewrite (Z.div_small (m mod 12) 12), Z.mod_mod, Z.add_0_r
    by (try apply Z.mod_pos_bound; lia).
  reflexivity.
Qed.

(** Day 0 of month [m + 1] is the last day of month [m], for any month
    index. *)
Lemma MakeDay_last_any y m :
  MakeDay y (m + 1) 0 =
  MakeDay (y + m / 12) (m mod 12) (DaysInMonth (y + m / 12) (m mod 12)).
Proof.
  assert (Hm : 0 <= m mod 12 <= 11) by (pose proof (Z.mod_pos_bound m 12); lia).
  rewrite <- MakeDay_last by assumption.
  rewrite (MakeDay_norm y (m + 1)), (MakeDay_norm (y + m / 12) (m mod 12 + 1)).
  assert (E1 : (m + 1) / 12 = m / 12 + (m mod 12 + 1) / 12)
    by (Z.to_euclidean_division_equations; lia).
  assert (E2 : (m + 1) mod 12 = (m mod 12 + 1) mod 12)
    by (Z.to_euclidean_division_equations; lia).
  rewrite E1, E2, Z.add_assoc. reflexivity.
Qed.

(** [addMonths] moves the month index by [amount], keeps the time of
    day, and keeps the day of the month unless the target month is
    shorter. *)
Lemma addMonths_spec d amount :
  monthIndex (addMonths d amount) = monthIndex d + amount /\
  TimeWithinDay (addMonths d amount) = TimeWithinDay d /\
  getDate (addMonths d amount) =
    Z.min (getDate d)
      (DaysInMonth (getFullYear (addMonths d amount))
         (getMonth (addMonths d amount))).
Proof.
  pose proof (DateFromTime_range d) as HD.
  pose proof (TimeWithinDay_range d) as HT.
  unfold addMonths. destruct (Z.eqb_spec amount 0) as [-> | Ha].
  { unfold getDate, getFullYear, getMonth. repeat split; lia. }
  unfold getDate, getFullYear, getMonth, setMonth, setFullYear.
  set (idx := MonthFromTime d + amount).
  replace (MonthFromTime d + amount + 1) with (idx + 1) by (unfold idx; lia).
  rewrite MakeDay_last_any.
  set (y' := YearFromTime d + idx / 12).
  set (m' := idx mod 12).
  assert (Hm' : 0 <= m' <= 11)
    by (unfold m'; pose proof (Z.mod_pos_bound idx 12); lia).
  pose proof (DaysInMonth_range y' m' Hm') as Hdim.
  destruct (fields_MakeDay y' m' (DaysInMonth y' m') (TimeWithinDay d))
    as (EY & EM & ED); [assumption | lia | assumption |].
  rewrite EY, EM, ED.
  assert (Eidx : y' * 12 + m' = monthIndex d + amount).
  { unfold y', m', idx, monthIndex, getFullYear, getMonth.
    Z.to_euclidean_division_equations. lia. }
  destruct (Z.geb_spec (DateFromTime d) (DaysInMonth y' m')) as [Hge | Hlt].
  - unfold monthIndex, getFullYear, getMonth. rewrite EY, EM, ED.
    rewrite TimeWithinDay_MakeDate by assumption.
    repeat split; [exact Eidx | lia].
  - destruct (fields_MakeDay y' m' (DateFromTime d) (TimeWithinDay d))
      as (FY & FM & FD); [assumption | lia | assumption |].
    unfold monthIndex, getFullYear, getMonth. rewrite FY, FM, FD.
    rewrite TimeWithinDay_MakeDate by assumption.
    repeat split; [exact Eidx | lia].
Qed.

End NavigationFacts.

(** ** Flags, selection, navigation and submission *)

Module ComponentClaims.
Import ES ESFacts DateFns DateFnsFacts Calendar Vocabulary GridFacts KeyFacts
  MonthFacts GridClaims NavigationFacts.

Lemma includes_In l s : includes l s = true <-> In s l.
Proof.
  unfold includes. rewrite existsb_exists. split.
  - intros (x & Hx & E). apply String.eqb_eq in E. subst. assumption.
  - intros H. exists s. split; [assumption | apply String.eqb_refl].
Qed.

(** Every cell of the grid is the cell of some date. *)
Lemma buildDays_cells from now offerDays orderDays days :
  buildDays from now offerDays orderDays = Some days ->
  Forall (fun c => exists d, c = cellOf from now offerDays orderDays d) days.
Proof.
  destruct (buildDays_parts from now offerDays orderDays)
    as (lead & trail & _ & _ & _ & _ & _ & _ & _ & HB).
  rewrite HB. intros [= <-]. apply Forall_forall. intros c Hc.
  apply in_map_iff in Hc. destruct Hc as (d & <- & _). exists d. reflexivity.
Qed.

Lemma buildDays_total from now offerDays orderDays :
  exists days, buildDays from now offerDays orderDays = Some days.
Proof.
  destruct (buildDays_parts from now offerDays orderDays)
    as (lead & trail & _ & _ & _ & _ & _ & _ & _ & HB).
  eexists. exact HB.
Qed.

(** C3: in every grid, for every cell, [offer] is the membership of the
    cell's date key in [offerDays] and [order] its membership in
    [orderDays] (string equality); with [offerDays = ["2024-03-10"]] the
    cells with [offer] are those whose key is 2024-03-10, and in the grid
    of March 2024 that is the one cell of 2024-03-10. *)
Theorem C3_offer_order_flags (from now : Date) (offerDays orderDays : list string) :
  (exists days : list MonthDay,
      buildDays from now offerDays orderDays = Some days /\
      Forall (fun c =>
                offer c = includes offerDays (date c) /\
                order c = includes orderDays (date c) /\
                (offer c = true <-> In (date c) offerDays) /\
                (order c = true <-> In (date c) orderDays)) days) /\
  (exists days : list MonthDay,
      buildDays from now ["2024-03-10"%string] orderDays = Some days /\
      Forall (fun c => offer c = true <-> date c = "2024-03-10"%string) days) /\
  (exists days : list MonthDay,
      buildDays (civil 2024 3 1) now ["2024-03-10"%string] orderDays = Some days /\
      filter offer days =
        [cellOf (civil 2024 3 1) now ["2024-03-10"%string] orderDays
           (civil 2024 3 10)]).
Proof.
  split; [| split].
  - destruct (buildDays_total from now offerDays orderDays) as (days & HB).
    exists days. split; [assumption |].
    eapply Forall_impl; [| apply (buildDays_cells _ _ _ _ _ HB)].
    cbv beta. intros c (d & ->). cbn [offer order date cellOf].
    rewrite !includes_In. repeat split; auto.
  - destruct (buildDays_total from now ["2024-03-10"%string] orderDays)
      as (days & HB).
    exists days. split; [assumption |].
    eapply Forall_impl; [| apply (buildDays_cells _ _ _ _ _ HB)].
    cbv beta. intros c (d & ->). cbn [offer date cellOf].
    rewrite includes_In. cbn [In]. split.
    + intros [E | []]. symmetry. exact E.
    + intros E. left. symmetry. exact E.
  - destruct (key_selects_cell (civil 2024 3 1) now ["2024-03-10"%string]
                orderDays (civil 2024 3 10)) as (days & HB & HF).
    { vm_compute. reflexivity. }
    exists days. split; [assumption |]. rewrite <- HF.
    apply filter_ext_in. intros c Hc.
    pose proof (buildDays_cells _ _ _ _ _ HB) as HC.
    rewrite Forall_forall in HC. destruct (HC c Hc) as (d & ->).
    cbn [offer date cellOf includes existsb]. rewrite orb_false_r.
    replace (format (civil 2024 3 10) DayFormat) with "2024-03-10"%string
      by (vm_compute; reflexivity).
    reflexivity.
Qed.

(** *** Selection *)

(** C4: pressing a cell of the current month selects its date key,
    whatever the selection was, and changes nothing else; pressing a cell
    of another month leaves the state unchanged (no setter is called). *)
Theorem C4_select_in_month_only (st : State) (cell : MonthDay) :
  (isCurrentMonth cell = true ->
   selectedDate (handleDayPress cell st) = Some (date cell) /\
   width (handleDayPress cell st) = width st /\
   popup (handleDayPress cell st) = popup st) /\
  (isCurrentMonth cell = false ->
   handleDayPress cell = noUpdate /\ handleDayPress cell st = st).
Proof.
  unfold handleDayPress. split; intros ->; cbn; auto.
Qed.

(** C4, pressing 2024-03-10 and then 2024-02-26 in the grid of March
    2024, starting with nothing selected. *)
Lemma C4_select_in_month_only_witness :
  let inMonth := cellOf (civil 2024 3 1) (civil 2024 3 1) [] [] (civil 2024 3 10) in
  let outside := cellOf (civil 2024 3 1) (civil 2024 3 1) [] [] (civil 2024 2 26) in
  selectedDate (handleDayPress inMonth initialState) = Some "2024-03-10"%string /\
  handleDayPress outside (handleDayPress inMonth initialState)
  = handleDayPress inMonth initialState.
Proof.
  intros inMonth outside. split.
  - destruct (C4_select_in_month_only initialState inMonth) as [H _].
    destruct H as [H _]; [vm_compute; reflexivity |].
    rewrite H. vm_compute. reflexivity.
  - destruct (C4_select_in_month_only (handleDayPress inMonth initialState) outside)
      as [_ H].
    apply H. vm_compute. reflexivity.
Defined.

Section Orderable.

Variable describeDate : string -> string.

(** The order button is enabled exactly when a non-empty key is selected
    and the first cell with that key has an offer. *)
Lemma isOrderable_find days st :
  isOrderable describeDate days st = true <->
  exists k c, selectedDate st = Some k /\ k <> EmptyString /\
    find days (fun d => String.eqb (date d) k) = Some c /\ offer c = true.
Proof.
  unfold isOrderable, getSelectedDayInfo.
  destruct (selectedDate st) as [k |] eqn:Es; cbn [truthy strictEq negb].
  - destruct k as [| a k]; cbn [negb].
    + split; [discriminate |]. intros (k & c & [= <-] & Hk & _). contradiction.
    + cbn [isAvailable]. rewrite orb_false_r.
      destruct (find days _) as [c |] eqn:Ef.
      * split.
        -- intros Ho. exists (String a k), c. repeat split; auto. discriminate.
        -- intros (k' & c' & [= <-] & _ & Ef' & Ho). rewrite Ef in Ef'.
           injection Ef' as ->. assumption.
      * split; [discriminate |].
        intros (k' & c' & [= <-] & _ & Ef' & _). rewrite Ef in Ef'. discriminate.
  - split; [discriminate |]. intros (k & c & E & _). discriminate.
Qed.

(** C5: for every grid and every selection state, the order button is
    enabled exactly when some key [k] is selected and the grid has a
    cell with key [k] and [offer = true]; it is disabled when nothing is
    selected, and when a cell of the grid has the selected key and
    [offer = false]. *)
Theorem C5_orderable_iff (from now : Date) (offerDays orderDays : list string)
    (st : State) :
  exists days : list MonthDay,
    buildDays from now offerDays orderDays = Some days /\
    (isOrderable describeDate days st = true <->
     exists k cell, selectedDate st = Some k /\
       In cell days /\ date cell = k /\ offer cell = true) /\
    (selectedDate st = None -> isOrderable describeDate days st = false) /\
    (forall k cell, selectedDate st = Some k ->
       In cell days -> date cell = k -> offer cell = false ->
       isOrderable describeDate days st = false).
Proof.
  destruct (buildDays_total from now offerDays orderDays) as (days & HB).
  pose proof (buildDays_cells _ _ _ _ _ HB) as HC. rewrite Forall_forall in HC.
  exists days. split; [assumption |].
  assert (Hiff : isOrderable describeDate days st = true <->
                 exists k cell, selectedDate st = Some k /\
                   In cell days /\ date cell = k /\ offer cell = true).
  { rewrite isOrderable_find. split.
    - intros (k & c & Es & _ & Ef & Ho). apply find_some in Ef.
      destruct Ef as [Hin Ek]. apply String.eqb_eq in Ek.
      exists k, c. auto.
    - intros (k & c & Es & Hin & Ek & Ho). exists k.
      destruct (List.find (fun d => String.eqb (date d) k) days) as [c' |] eqn:Ef.
      + exists c'. destruct (find_some _ _ Ef) as [Hin' Ek'].
        apply String.eqb_eq in Ek'.
        destruct (HC c Hin) as (d & ->). destruct (HC c' Hin') as (d' & Ec').
        cbn [date offer cellOf] in Ek, Ho.
        split; [assumption |]. split; [| split; [exact Ef |]].
        * rewrite <- Ek. apply dateKey_nonempty.
        * rewrite Ec' in Ek' |- *. cbn [date offer cellOf] in Ek' |- *.
          rewrite Ek', <- Ek. assumption.
      + exfalso. apply (find_none _ _ Ef) in Hin.
        rewrite Ek, String.eqb_refl in Hin. discriminate. }
  split; [exact Hiff |].
  split.
  - intros Es. unfold isOrderable, getSelectedDayInfo. rewrite Es. reflexivity.
  - intros k c Es Hin Ek Ho.
    destruct (isOrderable describeDate days st) eqn:E; [| reflexivity].
    destruct Hiff as [Hiff _].
    destruct (Hiff eq_refl) as (k' & c' & Es' & Hin' & Ek' & Ho').
    rewrite Es in Es'. injection Es' as <-.
    destruct (HC c Hin) as (d & ->). destruct (HC c' Hin') as (d' & ->).
    cbn [date offer cellOf] in *. congruence.
Qed.

End Orderable.

(** *** Submission *)

Lemma handleOrder_guard days net st :
  handleOrder days net st = (noUpdate, []) \/
  exists k c, selectedDate st = Some k /\ k <> EmptyString /\
    find days (fun d => String.eqb (date d) k) = Some c /\ offer c = true /\
    handleOrder days net st =
    match net with
    | Responded true _ (Some _) =>
        (showPopup msgOrderPlaced success,
         [FetchPost orderUrl k; ConsoleLog logOrderSent])
    | Responded false _ _ =>
        (showPopup msgOrderFailed error,
         [FetchPost orderUrl k; ConsoleError logOrderFailed])
    | _ =>
        (showPopup msgConnection error,
         [FetchPost orderUrl k; ConsoleError logNetwork])
    end.
Proof.
  unfold handleOrder.
  destruct (selectedDate st) as [k |] eqn:Es; cbn [truthy strictEq]; [| auto].
  destruct k as [| a k]; [auto |].
  destruct (find days _) as [c |] eqn:Ef; [| auto].
  destruct (offer c) eqn:Ho; [| auto].
  right. exists (String a k), c.
  split; [reflexivity |]. split; [discriminate |]. split; [exact Ef |].
  split; [exact Ho |].
  destruct net as [[|] status [json |] |]; reflexivity.
Qed.

(** C7: a submission that fails -- a response that is not ok, or a
    rejected [fetch] -- and that the guard of the handler lets through
    (a selected key whose cell has an offer) makes exactly one request,
    for the selected key, and writes one error log; its only state update
    shows the error popup, with the "something went wrong" text for a
    response that is not ok and the "check your connection" text for a
    rejected [fetch].  Applied to any state [s], the one current when the
    request settles, the update changes the popup only: the selected date
    and the width of [s] are kept; closing the popup afterwards hides it
    and changes nothing else.  When the guard stops the handler nothing
    happens.  In no case is a second request made. *)
Theorem C7_failed_submission (days : list MonthDay) (st : State)
    (net : FetchOutcome)
    (Hfail : net = TransportError \/
             exists status json, net = Responded false status json) :
  (forall k c,
      selectedDate st = Some k -> k <> EmptyString ->
      find days (fun d => String.eqb (date d) k) = Some c -> offer c = true ->
      (exists log,
          snd (handleOrder days net st) = [FetchPost orderUrl k; ConsoleError log]) /\
      fetchCount (snd (handleOrder days net st)) = 1%nat /\
      forall s : State,
        fst (handleOrder days net st) s = setPopup (failurePopup net) s /\
        popup (fst (handleOrder days net st) s) = failurePopup net /\
        visible (popup (fst (handleOrder days net st) s)) = true /\
        type (popup (fst (handleOrder days net st) s)) = error /\
        selectedDate (fst (handleOrder days net st) s) = selectedDate s /\
        width (fst (handleOrder days net st) s) = width s /\
        closePopup (fst (handleOrder days net st) s) =
          setPopup {| visible := false;
                      message := message (failurePopup net);
                      type := error |} s) /\
  (handleOrder days net st = (noUpdate, []) \/
   exists k c,
     selectedDate st = Some k /\ k <> EmptyString /\
     find days (fun d => String.eqb (date d) k) = Some c /\ offer c = true) /\
  (fetchCount (snd (handleOrder days net st)) <= 1)%nat /\
  (forall s : State,
      selectedDate (fst (handleOrder days net st) s) = selectedDate s /\
      width (fst (handleOrder days net st) s) = width s).
Proof.
  assert (P : forall k c,
             selectedDate st = Some k -> k <> EmptyString ->
             find days (fun d => String.eqb (date d) k) = Some c -> offer c = true ->
             handleOrder days net st =
             (showPopup (message (failurePopup net)) error,
              [FetchPost orderUrl k;
               ConsoleError match net with
                            | Responded false _ _ => logOrderFailed
                            | _ => logNetwork
                            end])).
  { intros k c Es Hk Ef Ho. unfold handleOrder. rewrite Es.
    destruct k as [| a k]; [contradiction |]. cbn [truthy strictEq].
    rewrite Ef, Ho.
    destruct Hfail as [-> | (status & json & ->)]; reflexivity. }
  split; [| split; [| split]].
  - intros k c Es Hk Ef Ho. rewrite (P k c Es Hk Ef Ho).
    cbn [fst snd]. split; [eexists; reflexivity |].
    split; [reflexivity |]. intros s.
    destruct Hfail as [-> | (status & json & ->)]; repeat split.
  - destruct (handleOrder_guard days net st) as [E | (k & c & Es & Hk & Ef & Ho & _)].
    + left. exact E.
    + right. exists k, c. auto.
  - destruct (handleOrder_guard days net st) as [E | (k & c & Es & Hk & Ef & Ho & _)].
    + rewrite E. cbn. lia.
    + rewrite (P k c Es Hk Ef Ho). cbn. lia.
  - intros s.
    destruct (handleOrder_guard days net st) as [E | (k & c & Es & Hk & Ef & Ho & _)].
    + rewrite E. split; reflexivity.
    + rewrite (P k c Es Hk Ef Ho). split; reflexivity.
Qed.

(** C7, for 2024-03-10, selected and offered: a response with status 500
    and a rejected [fetch]. *)
Lemma C7_failed_submission_witness :
  let days := map (cellOf (civil 2024 3 1) (civil 2024 3 1) ["2024-03-10"%string] [])
                (gridDates (civil 2024 2 26) 35) in
  let st := setSelectedDate (Some "2024-03-10"%string) initialState in
  popup (fst (handleOrder days (Responded false 500 None) st) st) =
    {| visible := true; message := msgOrderFailed; type := error |} /\
  popup (fst (handleOrder days TransportError st) st) =
    {| visible := true; message := msgConnection; type := error |} /\
  selectedDate (fst (handleOrder days TransportError st) st) =
    Some "2024-03-10"%string.
Proof.
  intros days st.
  assert (Ef : find days (fun d => String.eqb (date d) "2024-03-10") =
               Some (cellOf (civil 2024 3 1) (civil 2024 3 1)
                       ["2024-03-10"%string] [] (civil 2024 3 10)))
    by (vm_compute; reflexivity).
  destruct (C7_failed_submission days st (Responded false 500 None))
    as (G1 & _); [right; exists 500, None; reflexivity |].
  destruct (C7_failed_submission days st TransportError)
    as (G2 & _); [left; reflexivity |].
  destruct (G1 _ _ eq_refl ltac:(discriminate) Ef eq_refl) as (_ & _ & F1).
  destruct (G2 _ _ eq_refl ltac:(discriminate) Ef eq_refl) as (_ & _ & F2).
  destruct (F1 st) as (_ & P1 & _).
  destruct (F2 st) as (_ & P2 & _ & _ & S2 & _).
  split; [exact P1 |]. split; [exact P2 | exact S2].
Defined.

(** C10: the handler has its own guard: called with no date selected
    (or the empty key), with a selected key that no cell of the grid has,
    or with a selected key whose cell has [offer = false], it makes no
    request and calls no setter (no popup, no state change), whatever the
    network would answer. *)
Theorem C10_handler_guard (days : list MonthDay) (net : FetchOutcome) (st : State)
    (Hguard :
       selectedDate st = None \/
       selectedDate st = Some EmptyString \/
       (exists k, selectedDate st = Some k /\
          find days (fun d => String.eqb (date d) k) = None) \/
       (exists k cell, selectedDate st = Some k /\
          find days (fun d => String.eqb (date d) k) = Some cell /\
          offer cell = false)) :
  handleOrder days net st = (noUpdate, []) /\
  snd (handleOrder days net st) = [] /\
  (forall s : State, fst (handleOrder days net st) s = s).
Proof.
  assert (E : handleOrder days net st = (noUpdate, [])).
  { unfold handleOrder.
    destruct Hguard as [Es | [Es | [(k & Es & Ef) | (k & c & Es & Ef & Ho)]]];
      rewrite Es; cbn [truthy strictEq]; try reflexivity.
    - destruct k; [reflexivity |]. rewrite Ef. reflexivity.
    - destruct k; [reflexivity |]. rewrite Ef, Ho. reflexivity. }
  rewrite E. auto.
Qed.

(** C10, with 2024-03-11 selected in a grid where only 2024-03-10 has
    an offer, and with nothing selected. *)
Lemma C10_handler_guard_witness :
  let days := map (cellOf (civil 2024 3 1) (civil 2024 3 1) ["2024-03-10"%string] [])
                (gridDates (civil 2024 2 26) 35) in
  let st := setSelectedDate (Some "2024-03-11"%string) initialState in
  handleOrder days TransportError st = (noUpdate, []) /\
  handleOrder days (Responded true 200 (Some EmptyString)) initialState
  = (noUpdate, []).
Proof.
  intros days st. split.
  - apply (C10_handler_guard days TransportError st).
    right. right. right.
    exists "2024-03-11"%string,
      (cellOf (civil 2024 3 1) (civil 2024 3 1) ["2024-03-10"%string] []
         (civil 2024 3 11)).
    vm_compute. auto.
  - apply (C10_handler_guard days (Responded true 200 (Some EmptyString))
             initialState).
    left. reflexivity.
Defined.

(** A failed and a successful submission of 2024-03-10, which has an
    offer. *)
Example handleOrder_march_10 :
  let days := map (cellOf (civil 2024 3 1) (civil 2024 3 1) ["2024-03-10"%string] [])
                (gridDates (civil 2024 2 26) 35) in
  let st := setSelectedDate (Some "2024-03-10"%string) initialState in
  handleOrder days (Responded false 500 None) st =
    (showPopup msgOrderFailed error,
     [FetchPost orderUrl "2024-03-10"; ConsoleError logOrderFailed]) /\
  handleOrder days TransportError st =
    (showPopup msgConnection error,
     [FetchPost orderUrl "2024-03-10"; ConsoleError logNetwork]) /\
  handleOrder days (Responded true 200 (Some EmptyString)) st =
    (showPopup msgOrderPlaced success,
     [FetchPost orderUrl "2024-03-10"; ConsoleLog logOrderSent]).
Proof. cbv zeta. repeat split. Qed.

End ComponentClaims.

(** ** More on the grid: layout, today, rows *)

Module GridExtras.
Import ES ESFacts DateFns DateFnsFacts Calendar Vocabulary GridFacts KeyFacts
  MonthFacts GridClaims.

Lemma map_flag_const from now offerDays orderDays first n b :
  (forall i, (i < n)%nat ->
     isSameMonth (addDays first (Z.of_nat i)) from = b) ->
  map isCurrentMonth
    (map (cellOf from now offerDays orderDays) (gridDates first n)) = repeat b n.
Proof.
  intros H. rewrite map_map. unfold gridDates. rewrite map_map.
  cbn [isCurrentMonth cellOf].
  assert (G : forall m s, (s + m <= n)%nat ->
            map (fun x => isSameMonth (addDays first (Z.of_nat x)) from) (seq s m)
            = repeat b m).
  { induction m as [| m IH]; intros s Hs; [reflexivity |].
    cbn [seq map repeat]. rewrite H by lia. f_equal. apply IH. lia. }
  apply G. lia.
Qed.

(** The weekday of the 1st fixes the number of leading cells, the
    weekday of the last day the number of trailing cells. *)
Lemma lead_trail_weekdays from lead trail :
  (lead <= 6)%nat -> (trail <= 6)%nat ->
  ((lead + List.length (monthDates from) + trail) mod 7 = 0)%nat ->
  addDays (firstMonday from) (Z.of_nat lead) = startOfMonth from ->
  (Day (firstMonday from) + 4) mod 7 = 1 ->
  Z.of_nat lead = (getDay (startOfMonth from) + 6) mod 7 /\
  Z.of_nat trail = (7 - getDay (endOfMonth from)) mod 7.
Proof.
  intros Hl Ht Hn E W.
  pose proof (DaysInMonth_range (getFullYear from) (getMonth from)
                (MonthFromTime_range from)) as Hdim.
  assert (Hlen : Z.of_nat (List.length (monthDates from))
                 = DaysInMonth (getFullYear from) (getMonth from)).
  { unfold monthDates. rewrite gridDates_length. lia. }
  assert (D0 : Day (startOfMonth from) = Day (firstMonday from) + Z.of_nat lead).
  { rewrite <- E. apply Day_addDays. }
  assert (D1 : Day (endOfMonth from)
               = Day (startOfMonth from)
                 + (DaysInMonth (getFullYear from) (getMonth from) - 1)).
  { rewrite endOfMonth_eq, startOfMonth_eq.
    rewrite !Day_MakeDate by (unfold msPerDay; lia).
    rewrite MakeDay_last by apply MonthFromTime_range.
    apply MakeDay_first. }
  apply (f_equal Z.of_nat) in Hn. rewrite Nat2Z.inj_mod in Hn.
  rewrite !Nat2Z.inj_add, Hlen in Hn. cbn [Z.of_nat] in Hn.
  unfold getDay, WeekDay. rewrite D1, D0. clear D0 D1 E Hlen.
  set (dim := DaysInMonth (getFullYear from) (getMonth from)) in *.
  set (f := Day (firstMonday from)) in *. clearbody dim f.
  split; Z.to_euclidean_division_equations; lia.
Qed.

(** On local time values: the run of cells before the month, the cells
    of the month and the run after it. *)
Lemma grid_layout_local (from now : Date) (offerDays orderDays : list string) :
  exists days : list MonthDay,
    buildDays from now offerDays orderDays = Some days /\
    map isCurrentMonth days =
      (repeat false (Z.to_nat ((getDay (startOfMonth from) + 6) mod 7)) ++
       repeat true (Z.to_nat (DaysInMonth (getFullYear from) (getMonth from))) ++
       repeat false (Z.to_nat ((7 - getDay (endOfMonth from)) mod 7)))%list /\
    Z.of_nat (List.length days) =
      (getDay (startOfMonth from) + 6) mod 7 +
      DaysInMonth (getFullYear from) (getMonth from) +
      (7 - getDay (endOfMonth from)) mod 7 /\
    (28 <= List.length days <= 42)%nat.
Proof.
  destruct (buildDays_parts from now offerDays orderDays)
    as (lead & trail & Hl & Ht & Hn & Hdim & E & T1 & W1 & HB).
  destruct (lead_trail_weekdays from lead trail Hl Ht Hn E W1) as [El Et].
  assert (Hlen : List.length (monthDates from)
                 = Z.to_nat (DaysInMonth (getFullYear from) (getMonth from)))
    by (unfold monthDates; apply gridDates_length).
  assert (D0 : Day (startOfMonth from)
               = MakeDay (getFullYear from) (getMonth from) 1).
  { rewrite startOfMonth_eq. apply Day_MakeDate. unfold msPerDay. lia. }
  eexists. split; [exact HB |].
  rewrite <- El, <- Et, !Nat2Z.id, <- Hlen.
  split; [| split].
  - assert (DE : Day (startOfMonth from) = Day (firstMonday from) + Z.of_nat lead)
      by (rewrite <- E; apply Day_addDays).
    rewrite !gridDates_app, !map_app, E, <- app_assoc. f_equal; [| f_equal].
    + apply map_flag_const. intros i Hi. rewrite isSameMonth_days.
      apply andb_false_iff. left. apply Z.leb_gt.
      rewrite <- D0, !Day_addDays. lia.
    + apply map_flag_const. intros i Hi. apply monthDates_in_month.
      unfold monthDates, gridDates.
      apply (in_map (fun k => addDays (startOfMonth from) (Z.of_nat k))).
      apply in_seq. lia.
    + apply map_flag_const. intros i Hi. rewrite isSameMonth_days.
      apply andb_false_iff. right. apply Z.leb_gt.
      rewrite !Day_addDays, <- D0. lia.
  - rewrite length_map, gridDates_length. lia.
  - rewrite length_map, gridDates_length.
    apply Nat.Div0.div_exact in Hn. lia.
Qed.

Lemma isSameDay_days d now : isSameDay d now = (Day d =? Day now).
Proof.
  unfold isSameDay, getTime. rewrite !startOfDay_eq. unfold MakeDate, msPerDay.
  destruct (Z.eqb_spec (Day d) (Day now)) as [-> | Hne].
  - apply Z.eqb_refl.
  - apply Z.eqb_neq. lia.
Qed.

(** Among consecutive dates, the ones on a given day. *)
Lemma filter_day first t : forall n,
  filter (fun d => Day d =? t) (gridDates first n) =
  if (Day first <=? t) && (t <? Day first + Z.of_nat n)
  then [addDays first (t - Day first)] else [].
Proof.
  intros n. revert first. induction n as [| n IH]; intros first.
  - cbn [gridDates seq map filter].
    destruct (Z.leb_spec (Day first) t), (Z.ltb_spec t (Day first + Z.of_nat 0));
      try reflexivity; lia.
  - rewrite gridDates_S. cbn [filter]. rewrite IH, Day_addDays.
    destruct (Z.eqb_spec (Day first) t), (Z.leb_spec (Day first + 1) t),
      (Z.leb_spec (Day first) t),
      (Z.ltb_spec t (Day first + 1 + Z.of_nat n)),
      (Z.ltb_spec t (Day first + Z.of_nat (S n)));
      try lia; cbn [andb]; try reflexivity;
      f_equal; rewrite ?addDays_eq; lia.
Qed.

Lemma filter_map_comm {A B} (f : A -> B) (p : B -> bool) l :
  filter p (map f l) = map f (filter (fun x => p (f x)) l).
Proof.
  induction l as [| x l IH]; [reflexivity |]. cbn.
  destruct (p (f x)); cbn; rewrite IH; reflexivity.
Qed.

(** On local time values, with one reading of the clock: the cells
    flagged [today]. *)
Lemma today_cell_local (from now : Date) (offerDays orderDays : list string) :
  exists days : list MonthDay,
    buildDays from now offerDays orderDays = Some days /\
    filter today days =
      (if (firstMonday from <=? now) && (now <=? lastSunday from)
       then [cellOf from now offerDays orderDays now] else []) /\
    (isSameMonth now from = true ->
     filter today days = [cellOf from now offerDays orderDays now] /\
     filter (fun c => today c && isCurrentMonth c) days =
       [cellOf from now offerDays orderDays now]).
Proof.
  destruct (buildDays_parts from now offerDays orderDays)
    as (lead & trail & Hl & Ht & Hn & Hdim & E & T1 & W1 & HB).
  set (n := (lead + List.length (monthDates from) + trail)%nat) in *.
  destruct (grid_corners from) as (lead' & trail' & Hl' & Ht' & E1 & E2 & _ & W2).
  cbv zeta in *.
  assert (Hlen : Z.of_nat (List.length (monthDates from))
                 = DaysInMonth (getFullYear from) (getMonth from)).
  { unfold monthDates. rewrite gridDates_length.
    pose proof (DaysInMonth_range (getFullYear from) (getMonth from)
                  (MonthFromTime_range from)). lia. }
  assert (DF : Day (firstMonday from)
               = MakeDay (getFullYear from) (getMonth from) 1 - lead').
  { rewrite E1. apply Day_MakeDate. unfold msPerDay. lia. }
  assert (DS : Day (startOfMonth from)
               = MakeDay (getFullYear from) (getMonth from) 1).
  { rewrite startOfMonth_eq. apply Day_MakeDate. unfold msPerDay. lia. }
  assert (DE : Day (startOfMonth from) = Day (firstMonday from) + Z.of_nat lead)
    by (rewrite <- E; apply Day_addDays).
  assert (DL : Day (lastSunday from) = Day (firstMonday from) + Z.of_nat n - 1).
  { rewrite E2, Day_MakeDate by (unfold msPerDay; lia).
    rewrite (MakeDay_first _ _ (DaysInMonth _ _)).
    apply (f_equal Z.of_nat) in Hn. rewrite Nat2Z.inj_mod in Hn.
    unfold n in *. rewrite !Nat2Z.inj_add, Hlen in *. cbn [Z.of_nat] in Hn.
    rewrite (MakeDay_first _ _ (DaysInMonth _ _)) in W2.
    rewrite <- DS, DE in *. clear E1 E2 DF DS E HB.
    set (dim := DaysInMonth (getFullYear from) (getMonth from)) in *.
    set (f := Day (firstMonday from)) in *. clearbody dim f.
    Z.to_euclidean_division_equations. lia. }
  assert (L1 : forall x, (firstMonday from <=? x) = (Day (firstMonday from) <=? Day x)).
  { intros x. pose proof (MakeDate_Day (firstMonday from)) as M. rewrite T1 in M.
    rewrite <- leb_MakeDate_l, M. reflexivity. }
  assert (L2 : forall x, (x <=? lastSunday from) = (Day x <=? Day (lastSunday from))).
  { intros x.
    assert (M : lastSunday from = MakeDate (Day (lastSunday from)) 86399999).
    { rewrite E2, Day_MakeDate by (unfold msPerDay; lia). reflexivity. }
    rewrite <- leb_MakeDate_r, <- M. reflexivity. }
  assert (F : filter today
                (map (cellOf from now offerDays orderDays)
                   (gridDates (firstMonday from) n)) =
              if (firstMonday from <=? now) && (now <=? lastSunday from)
              then [cellOf from now offerDays orderDays now] else []).
  { rewrite filter_map_comm.
    rewrite (filter_ext _ (fun d => Day d =? Day now))
      by (intros d; cbn [today cellOf]; apply isSameDay_days).
    rewrite filter_day, L1, L2, DL.
    destruct (Z.leb_spec (Day (firstMonday from)) (Day now)),
      (Z.ltb_spec (Day now) (Day (firstMonday from) + Z.of_nat n)),
      (Z.leb_spec (Day now) (Day (firstMonday from) + Z.of_nat n - 1));
      try lia; cbn [andb map]; try reflexivity.
    f_equal. apply cellOf_same_day. rewrite Day_addDays. lia. }
  eexists. split; [exact HB |]. split; [exact F |].
  intros Hin. rewrite F.
  assert (R : (firstMonday from <=? now) && (now <=? lastSunday from) = true).
  { rewrite isSameMonth_days in Hin. apply andb_true_iff in Hin.
    destruct Hin as [H1 H2]. apply Z.leb_le in H1, H2.
    rewrite L1, L2, DL.
    apply andb_true_iff. split; apply Z.leb_le; unfold n; lia. }
  split; [rewrite R; reflexivity |].
  rewrite (filter_ext_in _ today).
  - rewrite F, R. reflexivity.
  - intros c Hc. apply in_map_iff in Hc. destruct Hc as (d & <- & Hd).
    cbn [today isCurrentMonth cellOf].
    destruct (isSameDay d now) eqn:Hs; [| reflexivity]. cbn [andb].
    rewrite isSameDay_days in Hs. apply Z.eqb_eq in Hs.
    destruct (fields_same_day _ _ Hs) as (EY & EM & _).
    unfold isSameMonth in *. rewrite EY, EM. exact Hin.
Qed.

Lemma rows_of_concat {A} (cell : Date -> A) : forall rows first,
  Forall (fun w => List.length w = 7%nat) rows ->
  List.concat rows = map cell (gridDates first (7 * List.length rows)) ->
  rows = map (fun j => map cell
                         (gridDates (addDays first (7 * Z.of_nat j)) 7))
           (seq 0 (List.length rows)).
Proof.
  induction rows as [| row rows IH]; intros first HF HC; [reflexivity |].
  inversion HF as [| ? ? Hrow HF']; subst.
  cbn [List.concat List.length] in *.
  replace (7 * S (List.length rows))%nat with (7 + 7 * List.length rows)%nat in HC
    by lia.
  rewrite gridDates_app, map_app in HC.
  assert (E1 : row = map cell (gridDates first 7)).
  { apply (f_equal (firstn 7)) in HC.
    rewrite !firstn_app, !firstn_all2 in HC
      by (rewrite ?length_map, ?gridDates_length; lia).
    rewrite Hrow, length_map, gridDates_length in HC. cbn [Nat.sub firstn] in HC.
    rewrite !app_nil_r in HC. exact HC. }
  assert (E2 : List.concat rows
               = map cell (gridDates (addDays first 7) (7 * List.length rows))).
  { rewrite E1 in HC. apply app_inv_head in HC. exact HC. }
  cbn [seq map]. f_equal.
  - rewrite E1. reflexivity.
  - rewrite (IH (addDays first 7) HF' E2) at 1.
    rewrite <- seq_shift, map_map. apply map_ext. intros j.
    do 2 f_equal. rewrite !addDays_eq. lia.
Qed.

(** On local time values: the rows are calendar weeks. *)
Lemma rows_are_weeks_local (from now : Date) (offerDays orderDays : list string) :
  exists (days : list MonthDay) (weeks : list (list MonthDay)),
    buildDays from now offerDays orderDays = Some days /\
    buildWeeks days = Some weeks /\
    (4 <= List.length weeks <= 6)%nat /\
    weeks = map (fun j => map (cellOf from now offerDays orderDays)
                            (gridDates (addDays (firstMonday from)
                                          (7 * Z.of_nat j)) 7))
              (seq 0 (List.length weeks)) /\
    (forall j i : nat,
        (i < 7)%nat ->
        getDay (addDays (firstMonday from) (7 * Z.of_nat j + Z.of_nat i))
        = (Z.of_nat i + 1) mod 7).
Proof.
  destruct (buildDays_parts from now offerDays orderDays)
    as (lead & trail & Hl & Ht & Hn & Hdim & _ & _ & W1 & HB).
  set (n := (lead + List.length (monthDates from) + trail)%nat) in *.
  set (days := map (cellOf from now offerDays orderDays)
                 (gridDates (firstMonday from) n)) in *.
  assert (Hlen : List.length days = n)
    by (unfold days; rewrite length_map; apply gridDates_length).
  apply Nat.Div0.div_exact in Hn.
  destruct (RowFacts.weeksLoop_spec days (n / 7) (S (List.length days)) 0 [])
    as (rows & E & C & F & L); [lia | lia |].
  cbn [app skipn] in *.
  exists days, rows. split; [exact HB |]. split; [exact E |].
  split; [lia |]. split.
  - apply rows_of_concat; [exact F |]. rewrite C, L, <- Hn. reflexivity.
  - intros j i Hi. unfold getDay, WeekDay. rewrite Day_addDays.
    Z.to_euclidean_division_equations. lia.
Qed.

(** *** The offer and order lists *)

Lemma daysLoop_ext from now off1 ord1 off2 ord2 :
  (forall d, cellOf from now off1 ord1 d = cellOf from now off2 ord2 d) ->
  forall fuel d last days,
    daysLoop from now off1 ord1 fuel d last days =
    daysLoop from now off2 ord2 fuel d last days.
Proof.
  intros H. induction fuel as [| fuel IH]; intros d last days; cbn [daysLoop].
  - reflexivity.
  - rewrite IH, H. reflexivity.
Qed.

Lemma includes_ext l1 l2 s :
  (forall k, In k l1 <-> In k l2) -> includes l1 s = includes l2 s.
Proof.
  intros H. unfold includes.
  destruct (existsb (String.eqb s) l1) eqn:E1, (existsb (String.eqb s) l2) eqn:E2;
    try reflexivity.
  - apply existsb_exists in E1. destruct E1 as (x & Hx & Ex).
    apply String.eqb_eq in Ex. subst x. apply H in Hx.
    assert (existsb (String.eqb s) l2 = true)
      by (apply existsb_exists; exists s; split; [assumption | apply String.eqb_refl]).
    congruence.
  - apply existsb_exists in E2. destruct E2 as (x & Hx & Ex).
    apply String.eqb_eq in Ex. subst x. apply H in Hx.
    assert (existsb (String.eqb s) l1 = true)
      by (apply existsb_exists; exists s; split; [assumption | apply String.eqb_refl]).
    congruence.
Qed.

(** X4: the offer and order lists are used as sets: two lists with the
    same members, in any order and with any repetitions, give the same
    grid. *)
Theorem offers_as_sets (from now : Date) (off1 off2 ord1 ord2 : list string)
    (Hoff : forall k, In k off1 <-> In k off2)
    (Hord : forall k, In k ord1 <-> In k ord2) :
  buildDays from now off1 ord1 = buildDays from now off2 ord2.
Proof.
  unfold buildDays, daysWithFuel. apply daysLoop_ext. intros d. unfold cellOf.
  rewrite (includes_ext off1 off2 _ Hoff), (includes_ext ord1 ord2 _ Hord).
  reflexivity.
Qed.

(** X4, for a list given twice over and reversed. *)
Lemma offers_as_sets_witness :
  buildDays (civil 2024 3 1) (civil 2024 3 5)
    ["2024-03-10"; "2024-03-12"; "2024-03-10"]%string []
  = buildDays (civil 2024 3 1) (civil 2024 3 5)
      ["2024-03-12"; "2024-03-10"]%string [].
Proof.
  apply (offers_as_sets (civil 2024 3 1) (civil 2024 3 5)).
  - intros k. cbn [In]. tauto.
  - intros k. tauto.
Defined.

Lemma repeatChar_length c n : String.length (repeatChar c n) = n.
Proof. induction n as [| n IH]; cbn; [reflexivity | rewrite IH; reflexivity]. Qed.

Lemma addLeadingZeros_length n len :
  (len <= String.length (addLeadingZeros n len))%nat.
Proof.
  unfold addLeadingZeros, padStart.
  rewrite !string_length_app, repeatChar_length. lia.
Qed.

(** A date key has at least 10 characters. *)
Lemma dateKey_length d : (10 <= String.length (format d DayFormat))%nat.
Proof.
  rewrite format_DayFormat. rewrite !string_length_app. cbn [String.length].
  pose proof (addLeadingZeros_length (printedYear d) 4).
  pose proof (addLeadingZeros_length (getMonth d + 1) 2).
  pose proof (addLeadingZeros_length (getDate d) 2).
  lia.
Qed.

(** X5: a key that is not in the [yyyy-MM-dd] form is ignored without
    any error: an entry shorter than 10 characters (say a month or a day
    without its leading zero) in [offerDays] or in [orderDays] leaves
    every grid as it is. *)
Theorem short_keys_ignored (from now : Date) (offerDays orderDays : list string)
    (k : string) (Hk : (String.length k < 10)%nat) :
  buildDays from now (k :: offerDays) orderDays =
    buildDays from now offerDays orderDays /\
  buildDays from now offerDays (k :: orderDays) =
    buildDays from now offerDays orderDays.
Proof.
  assert (N : forall d, String.eqb (format d DayFormat) k = false).
  { intros d. apply String.eqb_neq. intros E.
    pose proof (dateKey_length d). rewrite E in *. lia. }
  split; unfold buildDays, daysWithFuel; apply daysLoop_ext; intros d;
    unfold cellOf, includes; cbn [existsb]; rewrite N; reflexivity.
Qed.

(** X5, for 10 March 2024 written without the leading zero. *)
Lemma short_keys_ignored_witness :
  buildDays (civil 2024 3 1) (civil 2024 3 5) ["2024-3-10"%string] [] =
  buildDays (civil 2024 3 1) (civil 2024 3 5) [] [].
Proof.
  apply (short_keys_ignored (civil 2024 3 1) (civil 2024 3 5) [] []
           "2024-3-10"%string).
  cbn. lia.
Defined.

End GridExtras.

(** ** Date keys: reading back and uniqueness *)

Module KeyExtras.
Import ES ESFacts DateFns DateFnsFacts Calendar Vocabulary GridFacts KeyFacts
  KeyCodec.

Lemma uint_of_zeros k s :
  NilEmpty.uint_of_string (repeatChar "0" k ++ s) =
  option_map (Nat.iter k Decimal.D0) (NilEmpty.uint_of_string s).
Proof.
  induction k as [| k IH]; cbn [repeatChar append Nat.iter nat_rect].
  - destruct (NilEmpty.uint_of_string s); reflexivity.
  - cbn [NilEmpty.uint_of_string]. rewrite IH.
    destruct (NilEmpty.uint_of_string s); reflexivity.
Qed.

Lemma of_uint_zeros k u : N.of_uint (Nat.iter k Decimal.D0 u) = N.of_uint u.
Proof. induction k as [| k IH]; [reflexivity | exact IH]. Qed.

Lemma uint_of_printed d :
  exists u, NilEmpty.uint_of_string (NilZero.string_of_uint d) = Some u /\
            N.of_uint u = N.of_uint d.
Proof.
  destruct d;
    [exists (Decimal.D0 Decimal.Nil); split; reflexivity | ..];
    (eexists; split; [apply NilEmpty.usu | reflexivity]).
Qed.

(** The digits of a padded non-negative number read back as the number. *)
Lemma uint_of_padded n len :
  0 <= n ->
  exists u, NilEmpty.uint_of_string (addLeadingZeros n len) = Some u /\
            Z.of_N (N.of_uint u) = n.
Proof.
  intros Hn. unfold addLeadingZeros, padStart, toString.
  destruct (Z.ltb_spec n 0); [lia |]. cbn [append].
  rewrite Z.abs_eq by assumption. rewrite uint_of_zeros.
  destruct (uint_of_printed (N.to_uint (Z.to_N n))) as (u & E & Eu).
  rewrite E. cbn [option_map]. eexists. split; [reflexivity |].
  rewrite of_uint_zeros, Eu, DecimalN.Unsigned.of_to. lia.
Qed.

Lemma addLeadingZeros_nonempty n len : addLeadingZeros n len <> EmptyString.
Proof.
  unfold addLeadingZeros, padStart, toString. 
  intros E. apply (f_equal String.length) in E.
  rewrite !string_length_app in E. cbn [String.length] in E.
  destruct (N.to_uint (Z.to_N (Z.abs n))) eqn:Ed; cbn in E; lia.
Qed.

Lemma decodeNat_padded n len : 0 <= n -> decodeNat (addLeadingZeros n len) = Some n.
Proof.
  intros Hn. destruct (uint_of_padded n len Hn) as (u & E & Eu).
  unfold decodeNat. pose proof (addLeadingZeros_nonempty n len).
  destruct (addLeadingZeros n len); [contradiction |].
  rewrite E. cbn [option_map]. rewrite Eu. reflexivity.
Qed.

Lemma splitDash_digits s : forall u r,
  NilEmpty.uint_of_string s = Some u ->
  splitDash (s ++ String "-" r) = Some (s, r).
Proof.
  induction s as [| c s IH]; intros u r H; cbn [append splitDash].
  - reflexivity.
  - cbn [NilEmpty.uint_of_string] in H.
    destruct (NilEmpty.uint_of_string s) as [u' |] eqn:Es; [| discriminate].
    assert (Hc : Ascii.eqb c "-" = false).
    { apply DecimalString.uint_of_char_spec in H.
      decompose [or and] H; subst; reflexivity. }
    rewrite Hc, (IH u' r eq_refl). reflexivity.
Qed.

Lemma parse_format (d : Date) :
  parseDateKey (format d DayFormat) =
  Some (printedYear d, getMonth d + 1, getDate d).
Proof.
  pose proof (MonthFromTime_range d) as Hm.
  pose proof (DateFromTime_range d) as Hd.
  pose proof (DaysInMonth_range (YearFromTime d) _ Hm) as Hdim.
  assert (Hy : 1 <= printedYear d).
  { unfold printedYear. destruct (Z.gtb_spec (getFullYear d) 0); lia. }
  rewrite format_DayFormat. unfold parseDateKey, getMonth, getDate.
  destruct (uint_of_padded (printedYear d) 4 ltac:(lia)) as (uy & Ey & _).
  destruct (uint_of_padded (MonthFromTime d + 1) 2 ltac:(lia)) as (um & Em & _).
  cbn [append].
  rewrite (splitDash_digits _ uy _ Ey), (splitDash_digits _ um _ Em).
  rewrite !decodeNat_padded by lia. reflexivity.
Qed.

(** X6: a date key reads back as the year it prints, the month number
    (1 to 12) and the day of the month of its date. *)
Theorem dateKey_round_trip (d : Date) :
  parseDateKey (format d DayFormat) =
  Some (printedYear d, getMonth d + 1, getDate d) /\
  1 <= printedYear d /\ 1 <= getMonth d + 1 <= 12 /\ 1 <= getDate d <= 31.
Proof.
  pose proof (MonthFromTime_range d) as Hm.
  pose proof (DateFromTime_range d) as Hd.
  pose proof (DaysInMonth_range (YearFromTime d) _ Hm) as Hdim.
  assert (Hy : 1 <= printedYear d).
  { unfold printedYear. destruct (Z.gtb_spec (getFullYear d) 0); lia. }
  unfold getMonth, getDate in *.
  split; [apply parse_format | lia].
Qed.

(** X7: for dates of the years 1 and later, two dates have the same key
    exactly when they are the same day. *)
Theorem dateKey_identifies_day (d1 d2 : Date)
    (H1 : 0 < getFullYear d1) (H2 : 0 < getFullYear d2) :
  format d1 DayFormat = format d2 DayFormat <-> Day d1 = Day d2.
Proof.
  split; [| apply format_same_day].
  intros E.
  pose proof (parse_format d1) as R1.
  pose proof (parse_format d2) as R2.
  rewrite E, R2 in R1. injection R1 as Ey Em Ed.
  unfold printedYear in Ey.
  destruct (Z.gtb_spec (getFullYear d1) 0); [| lia].
  destruct (Z.gtb_spec (getFullYear d2) 0); [| lia].
  rewrite <- (MakeDay_fields d1), <- (MakeDay_fields d2).
  unfold getFullYear, getMonth, getDate in *.
  replace (MonthFromTime d1) with (MonthFromTime d2) by lia.
  rewrite Ey, Ed. reflexivity.
Qed.

(** X7, for the midnight and the noon of 2024-03-10. *)
Lemma dateKey_identifies_day_witness :
  format (civil 2024 3 10) DayFormat = format (civil 2024 3 10 + 43200000) DayFormat
  <-> Day (civil 2024 3 10) = Day (civil 2024 3 10 + 43200000).
Proof.
  apply (dateKey_identifies_day (civil 2024 3 10) (civil 2024 3 10 + 43200000));
    vm_compute; reflexivity.
Defined.

Lemma format_of_fields d d' :
  printedYear d' = printedYear d -> getMonth d' = getMonth d ->
  getDate d' = getDate d ->
  format d' DayFormat = format d DayFormat.
Proof.
  intros EY EM ED. rewrite !format_DayFormat, EY, EM, ED. reflexivity.
Qed.

(** X8: the key does not tell the era: a date of a year [y <= 0], on a
    day of the month up to the 28th, has the key of the same month and
    day of the year [1 - y], another day. *)
Theorem dateKey_era_collision (d : Date)
    (Hy : getFullYear d <= 0) (Hd : getDate d <= 28) :
  format (MakeDate (MakeDay (1 - getFullYear d) (getMonth d) (getDate d))
            (TimeWithinDay d)) DayFormat
  = format d DayFormat /\
  Day (MakeDate (MakeDay (1 - getFullYear d) (getMonth d) (getDate d))
         (TimeWithinDay d)) <> Day d /\
  getFullYear (MakeDate (MakeDay (1 - getFullYear d) (getMonth d) (getDate d))
                 (TimeWithinDay d)) = 1 - getFullYear d.
Proof.
  pose proof (MonthFromTime_range d) as Hm.
  pose proof (DateFromTime_range d) as Hdd.
  pose proof (DaysInMonth_range (1 - getFullYear d) _ Hm) as Hdim.
  assert (F : YearFromTime
                (MakeDate (MakeDay (1 - getFullYear d) (getMonth d) (getDate d))
                   (TimeWithinDay d)) = 1 - getFullYear d /\
              MonthFromTime
                (MakeDate (MakeDay (1 - getFullYear d) (getMonth d) (getDate d))
                   (TimeWithinDay d)) = getMonth d /\
              DateFromTime
                (MakeDate (MakeDay (1 - getFullYear d) (getMonth d) (getDate d))
                   (TimeWithinDay d)) = getDate d).
  { apply fields_MakeDay; [exact Hm | | apply TimeWithinDay_range].
    change (getDate d) with (DateFromTime d) in *.
    change (getMonth d) with (MonthFromTime d) in *. lia. }
  revert F.
  generalize (MakeDate (MakeDay (1 - getFullYear d) (getMonth d) (getDate d))
                (TimeWithinDay d)).
  intros d' (EY & EM & ED).
  split; [| split].
  - apply format_of_fields; [| exact EM | exact ED].
    unfold printedYear. change (getFullYear d') with (YearFromTime d').
    rewrite EY.
    destruct (Z.gtb_spec (1 - getFullYear d) 0); [| lia].
    destruct (Z.gtb_spec (getFullYear d) 0); [lia |]. reflexivity.
  - intros E. destruct (fields_same_day _ _ E) as (EY' & _).
    change (getFullYear d') with (YearFromTime d') in EY'. lia.
  - exact EY.
Qed.

(** X8, for 1 March of the year 0 (1 BC) and of the year 1. *)
Lemma dateKey_era_collision_witness :
  format (civil 1 3 1) DayFormat = format (civil 0 3 1) DayFormat /\
  Day (civil 1 3 1) <> Day (civil 0 3 1).
Proof.
  destruct (dateKey_era_collision (civil 0 3 1)) as (E & N & _).
  - vm_compute. discriminate.
  - vm_compute. discriminate.
  - split; [exact E | exact N].
Defined.

End KeyExtras.

(** ** Ordering and rendering *)

Module ComponentExtras.
Import ES ESFacts DateFns DateFnsFacts Calendar Vocabulary GridFacts KeyFacts
  MonthFacts GridClaims ComponentClaims Render.

Section Guards.

Variable describeDate : string -> string.

(** X9: the guard of the order button and the guard inside
    [handleOrder] agree, on any list of cells: when the button is
    enabled the handler sends one request, for the selected key; when it
    is disabled (or absent) the handler, if called, does nothing. *)
Theorem guards_agree (days : list MonthDay) (net : FetchOutcome) (st : State) :
  (isOrderable describeDate days st = true ->
   exists k, selectedDate st = Some k /\
     filter isFetch (snd (handleOrder days net st)) = [FetchPost orderUrl k]) /\
  (isOrderable describeDate days st = false ->
   handleOrder days net st = (noUpdate, [])).
Proof.
  unfold isOrderable, getSelectedDayInfo, handleOrder.
  destruct (selectedDate st) as [[| a k] |]; cbn [truthy negb strictEq isAvailable];
    try (split; [discriminate | reflexivity]).
  rewrite orb_false_r.
  destruct (find days _) as [c |]; [| split; [discriminate | reflexivity]].
  destruct (offer c); [| split; [discriminate | reflexivity]].
  split; [| discriminate].
  intros _. exists (String a k). split; [reflexivity |].
  destruct net as [[|] status [json |] |]; reflexivity.
Qed.

Lemma NoDup_map_eq {A B} (f : A -> B) (l : list A) x y :
  NoDup (map f l) -> In x l -> In y l -> f x = f y -> x = y.
Proof.
  induction l as [| a l IH]; intros ND Hx Hy E; [contradiction |].
  cbn [map] in ND. inversion ND as [| ? ? Hnot ND']; subst.
  destruct Hx as [-> | Hx], Hy as [-> | Hy]; auto.
  - exfalso. apply Hnot. rewrite E. apply in_map. assumption.
  - exfalso. apply Hnot. rewrite <- E. apply in_map. assumption.
Qed.

(** The keys of a grid are pairwise distinct. *)
Lemma buildDays_keys_NoDup from now offerDays orderDays days :
  buildDays from now offerDays orderDays = Some days -> NoDup (map date days).
Proof.
  destruct (buildDays_parts from now offerDays orderDays)
    as (lead & trail & Hl & Ht & Hn & Hdim & _ & _ & _ & HB).
  rewrite HB. intros [= <-]. rewrite map_map.
  rewrite (map_ext _ (fun d => format d DayFormat))
    by (intros; apply date_cellOf).
  apply gridDates_keys_NoDup. apply Nat.Div0.div_exact in Hn. lia.
Qed.

(** X10: in a grid, ordering is enabled exactly when the selected key is
    on the offer list and is the key of a cell of the grid on display,
    of the reference month or not. *)
Theorem orderable_criterion (from now : Date) (offerDays orderDays : list string)
    (st : State) :
  exists days : list MonthDay,
    buildDays from now offerDays orderDays = Some days /\
    (isOrderable describeDate days st = true <->
     exists k, selectedDate st = Some k /\
       In k offerDays /\ In k (map date days)).
Proof.
  destruct (buildDays_total from now offerDays orderDays) as (days & HB).
  pose proof (buildDays_cells _ _ _ _ _ HB) as HC. rewrite Forall_forall in HC.
  exists days. split; [assumption |].
  rewrite isOrderable_find. split.
  - intros (k & c & Es & _ & Ef & Ho). apply find_some in Ef.
    destruct Ef as [Hin Ek]. apply String.eqb_eq in Ek.
    exists k. split; [assumption |].
    destruct (HC c Hin) as (d & ->). cbn [date offer cellOf] in *.
    split.
    + rewrite <- Ek. apply includes_In. assumption.
    + rewrite <- Ek. rewrite <- (date_cellOf from now offerDays orderDays).
      apply in_map. assumption.
  - intros (k & Es & Hoff & Hk). apply in_map_iff in Hk.
    destruct Hk as (c & Ek & Hin). exists k.
    destruct (List.find (fun d => String.eqb (date d) k) days) as [c' |] eqn:Ef.
    + exists c'. destruct (find_some _ _ Ef) as [Hin' Ek'].
      apply String.eqb_eq in Ek'.
      destruct (HC c' Hin') as (d' & Ec').
      split; [assumption |]. split; [| split; [exact Ef |]].
      * rewrite <- Ek'. rewrite Ec'. apply dateKey_nonempty.
      * rewrite Ec' in Ek' |- *. cbn [date offer cellOf] in Ek' |- *.
        rewrite Ek'. apply includes_In. assumption.
    + exfalso. apply (find_none _ _ Ef) in Hin.
      rewrite Ek, String.eqb_refl in Hin. discriminate.
Qed.

End Guards.

(** *** Styles *)

Lemma colours_differ :
  String.eqb backgroundLight primary = false /\
  String.eqb backgroundLighter primary = false.
Proof. split; reflexivity. Qed.

Lemma isHighlighted_eq (d : MonthDay) (selectedDate : option string) :
  isHighlighted d selectedDate =
  strictEq (date d) selectedDate && isCurrentMonth d.
Proof.
  unfold isHighlighted, pressableStyle.
  destruct d as [dy dt td off ord cur]. cbn [offer isCurrentMonth today date].
  destruct (strictEq dt selectedDate), off, cur, td; reflexivity.
Qed.

(** X11: the style of the box of a day, after all the spreads.  The box
    is dimmed (opacity 0.4) unless the day is of the reference month and
    has an offer; its background is the primary colour when the day is
    the selected one and of the reference month, else the lighter grey
    outside the month and the light grey inside; its border is the
    primary colour for the selected day and for today, when of the
    reference month. *)
Theorem pressable_style (d : MonthDay) (selectedDate : option string) :
  getProp "opacity" (pressableStyle d selectedDate) =
    (if offer d && isCurrentMonth d then None else Some (Num 4 1)) /\
  getProp "backgroundColor" (pressableStyle d selectedDate) =
    Some (Str (if isCurrentMonth d
               then if strictEq (date d) selectedDate then primary
                    else backgroundLight
               else backgroundLighter)) /\
  getProp "borderColor" (pressableStyle d selectedDate) =
    Some (Str (if isCurrentMonth d
               then if strictEq (date d) selectedDate || today d then primary
                    else borderLight
               else borderLighter)) /\
  isHighlighted d selectedDate =
    strictEq (date d) selectedDate && isCurrentMonth d.
Proof.
  unfold isHighlighted, pressableStyle.
  destruct d as [dy dt td off ord cur]. cbn [offer isCurrentMonth today date].
  destruct (strictEq dt selectedDate), off, cur, td; repeat split; reflexivity.
Qed.

(** X12: the label of a day.  Days outside the reference month have no
    label at all; inside, the label is the two-digit day, white for the
    selected day, else in the primary colour for today, else black, and
    bold for both; the greyed text style is never in effect. *)
Theorem day_label (d : MonthDay) (selectedDate : option string) :
  (isCurrentMonth d = false -> dayLabel d selectedDate = None) /\
  (isCurrentMonth d = true ->
   exists style,
     dayLabel d selectedDate = Some (day d, style) /\
     getProp "color" style =
       Some (Str (if strictEq (date d) selectedDate then textWhite
                  else if today d then primary else textPrimary)) /\
     getProp "fontWeight" style =
       (if strictEq (date d) selectedDate || today d
        then Some (Str "bold") else None) /\
     getProp "color" style <> Some (Str textDisabled)).
Proof.
  unfold dayLabel, dayTextStyle.
  destruct d as [dy dt td off ord cur]. cbn [offer isCurrentMonth today date day].
  split; intros ->; [reflexivity |].
  eexists. split; [reflexivity |].
  destruct (strictEq dt selectedDate), td; repeat split; try reflexivity;
    discriminate.
Qed.

(** *** The selected day in the grid *)

Lemma find_hd_filter {A} (p : A -> bool) l : List.find p l = hd_error (filter p l).
Proof.
  induction l as [| x l IH]; [reflexivity |]. cbn. destruct (p x); auto.
Qed.

Lemma filter_andb {A} (p q : A -> bool) l :
  filter (fun x => p x && q x) l = filter q (filter p l).
Proof.
  induction l as [| x l IH]; [reflexivity |]. cbn.
  destruct (p x); cbn; [destruct (q x) |]; rewrite IH; reflexivity.
Qed.

Lemma filter_key_le1 {A} (key : A -> string) (l : list A) k :
  NoDup (map key l) ->
  (List.length (filter (fun y => String.eqb (key y) k) l) <= 1)%nat.
Proof.
  induction l as [| a l IH]; intros ND; [cbn; lia |].
  cbn [map] in ND. inversion ND as [| ? ? Hnot ND']; subst. cbn [filter].
  destruct (String.eqb_spec (key a) k) as [E | _]; [| auto].
  rewrite filter_none; [cbn; lia |].
  intros y Hy. apply String.eqb_neq. intros E'. apply Hnot.
  rewrite E, <- E'. apply in_map. assumption.
Qed.

(** X13: in a grid at most one box carries the mark of the selected
    day: the cell with the selected key, when it is a cell of the
    reference month; no box when nothing is selected, when the selected
    key is not in the grid, or when its cell is of another month. *)
Theorem one_highlight (from now : Date) (offerDays orderDays : list string)
    (selectedDate : option string) :
  exists days : list MonthDay,
    buildDays from now offerDays orderDays = Some days /\
    filter (fun c => isHighlighted c selectedDate) days =
      match find days (fun c => strictEq (date c) selectedDate) with
      | Some c => if isCurrentMonth c then [c] else []
      | None => []
      end /\
    (List.length (filter (fun c => isHighlighted c selectedDate) days) <= 1)%nat.
Proof.
  destruct (buildDays_total from now offerDays orderDays) as (days & HB).
  pose proof (buildDays_keys_NoDup _ _ _ _ _ HB) as ND.
  exists days. split; [assumption |].
  rewrite (filter_ext _ (fun c => strictEq (date c) selectedDate && isCurrentMonth c))
    by (intros; apply isHighlighted_eq).
  unfold find. rewrite find_hd_filter, filter_andb.
  destruct selectedDate as [k |]; cbn [strictEq].
  - pose proof (filter_key_le1 date days k ND) as L.
    destruct (filter (fun y => String.eqb (date y) k) days) as [| c [| c' F]];
      cbn [List.length] in L; [| | lia]; cbn [hd_error filter].
    + split; [reflexivity | cbn; lia].
    + destruct (isCurrentMonth c); split; try reflexivity; cbn; lia.
  - rewrite (filter_none (fun _ : MonthDay => false)) by reflexivity.
    cbn. split; [reflexivity | lia].
Qed.

(** The span of a grid: its dates run from the first Monday, a
    midnight, over a multiple of 7 days up to 42, to the last Sunday. *)
Lemma grid_span from :
  exists n : nat,
    (n <= 42)%nat /\
    TimeWithinDay (firstMonday from) = 0 /\
    Day (lastSunday from) = Day (firstMonday from) + Z.of_nat n - 1 /\
    TimeWithinDay (lastSunday from) = 86399999 /\
    forall now offerDays orderDays,
      buildDays from now offerDays orderDays =
      Some (map (cellOf from now offerDays orderDays)
              (gridDates (firstMonday from) n)).
Proof.
  destruct (buildDays_eq from (from) [] [])
    as (lead & trail & Hl & Ht & Hn & D1 & T1 & _).
  cbv zeta in *.
  destruct (grid_corners from) as (lead' & trail' & Hl' & Ht' & E1 & E2 & _ & W2).
  cbv zeta in *.
  pose proof (DaysInMonth_range (getFullYear from) (getMonth from)
                (MonthFromTime_range from)) as Hdim.
  assert (lead' = lead).
  { assert (D1' : Day (firstMonday from)
                  = MakeDay (getFullYear from) (getMonth from) 1 - lead').
    { rewrite E1. apply Day_MakeDate. unfold msPerDay. lia. }
    lia. }
  subst lead'.
  set (dim := DaysInMonth (getFullYear from) (getMonth from)) in *.
  assert (trail' = trail).
  { rewrite (MakeDay_first _ _ dim) in W2.
    assert (W1 : (Day (firstMonday from) + 4) mod 7 = 1).
    { destruct (grid_corners from) as (l2 & _ & ? & _ & E1' & _ & W1' & _).
      cbv zeta in *. rewrite E1', Day_MakeDate by (unfold msPerDay; lia).
      exact W1'. }
    rewrite D1 in W1. clear E1 E2 D1.
    set (a := MakeDay (getFullYear from) (getMonth from) 1) in *.
    clearbody a dim. Z.to_euclidean_division_equations. lia. }
  subst trail'.
  exists (Z.to_nat (dim + lead + trail)).
  assert (dim + lead + trail <= 42) by (Z.to_euclidean_division_equations; lia).
  split; [lia |]. split; [assumption |]. split; [| split].
  - rewrite D1, E2, Day_MakeDate by (unfold msPerDay; lia).
    rewrite (MakeDay_first _ _ dim). lia.
  - rewrite E2. apply TimeWithinDay_MakeDate. unfold msPerDay. lia.
  - intros now offerDays orderDays.
    destruct (buildDays_eq from now offerDays orderDays)
      as (l2 & t2 & Hl2 & Ht2 & Hn2 & D2 & _ & HB).
    cbv zeta in *. fold dim in Hn2, HB.
    assert (l2 = lead) by lia. subst l2.
    assert (t2 = trail) by (clear HB; Z.to_euclidean_division_equations; lia).
    subst t2. exact HB.
Qed.

(** The cell of a date between the first Monday and the last Sunday is
    in the grid. *)
Lemma cell_in_grid from now offerDays orderDays d :
  firstMonday from <= d <= lastSunday from ->
  exists days,
    buildDays from now offerDays orderDays = Some days /\
    In (cellOf from now offerDays orderDays d) days.
Proof.
  intros [H1 H2].
  destruct (grid_span from) as (n & Hn & T1 & DL & T2 & HB).
  eexists. split; [apply HB |].
  assert (R1 : Day (firstMonday from) <= Day d).
  { unfold Day, msPerDay. apply Z.div_le_mono; lia. }
  assert (R2 : Day d <= Day (lastSunday from)).
  { unfold Day, msPerDay. apply Z.div_le_mono; lia. }
  rewrite <- (cellOf_same_day from now offerDays orderDays
                (addDays (firstMonday from)
                   (Z.of_nat (Z.to_nat (Day d - Day (firstMonday from))))) d)
    by (rewrite Day_addDays; lia).
  apply in_map. unfold gridDates.
  apply (in_map (fun k => addDays (firstMonday from) (Z.of_nat k))).
  apply in_seq. lia.
Qed.

Section Stale.

Variable describeDate : string -> string.

(** X14: a selection outlives the month it was made in.  When the
    selected key belongs to a day that the grid on display shows as a
    day of another month, and the key is on the offer list, no box is
    marked as selected and the cell of the day has no label, yet the
    order button is enabled and [handleOrder] sends the request for that
    day. *)
Theorem orderable_outside_month (from now : Date)
    (offerDays orderDays : list string) (st : State) (d : Date)
    (Hsel : selectedDate st = Some (format d DayFormat))
    (Hgrid : firstMonday from <= d <= lastSunday from)
    (Hout : isSameMonth d from = false)
    (Hoff : In (format d DayFormat) offerDays) :
  exists days : list MonthDay,
    buildDays from now offerDays orderDays = Some days /\
    In (cellOf from now offerDays orderDays d) days /\
    filter (fun c => isHighlighted c (selectedDate st)) days = [] /\
    dayLabel (cellOf from now offerDays orderDays d) (selectedDate st) = None /\
    isOrderable describeDate days st = true /\
    (forall net,
        filter isFetch (snd (handleOrder days net st)) =
        [FetchPost orderUrl (format d DayFormat)]).
Proof.
  destruct (cell_in_grid from now offerDays orderDays d Hgrid)
    as (days & HB & Hin).
  pose proof (buildDays_keys_NoDup _ _ _ _ _ HB) as ND.
  set (c := cellOf from now offerDays orderDays d) in *.
  assert (F : filter (fun y => String.eqb (date y) (date c)) days = [c])
    by (apply filter_key_unique; assumption).
  assert (Ef : find days (fun y => strictEq (date y) (selectedDate st)) = Some c).
  { unfold find. rewrite find_hd_filter, Hsel. cbn [strictEq].
    change (format d DayFormat) with (date c). rewrite F. reflexivity. }
  assert (Ho : offer c = true) by (apply includes_In; exact Hoff).
  exists days. split; [assumption |]. split; [assumption |].
  split; [| split; [| split]].
  - rewrite (filter_ext _ (fun y => strictEq (date y) (selectedDate st)
                                    && isCurrentMonth y))
      by (intros; apply isHighlighted_eq).
    rewrite filter_andb, Hsel. cbn [strictEq].
    change (format d DayFormat) with (date c). rewrite F. cbn [filter].
    change (isCurrentMonth c) with (isSameMonth d from). rewrite Hout. reflexivity.
  - unfold dayLabel. change (isCurrentMonth c) with (isSameMonth d from).
    rewrite Hout. reflexivity.
  - unfold isOrderable, getSelectedDayInfo. rewrite Ef, Hsel.
    pose proof (dateKey_nonempty d) as Hne.
    destruct (format d DayFormat); [contradiction |].
    cbn [truthy negb isAvailable]. rewrite Ho. reflexivity.
  - intros net. unfold handleOrder. rewrite Ef, Hsel.
    pose proof (dateKey_nonempty d) as Hne.
    destruct (format d DayFormat); [contradiction |].
    cbn [truthy]. rewrite Ho.
    destruct net as [[|] status [json |] |]; reflexivity.
Qed.

End Stale.

(** X14, for 2024-02-29 selected and the grid of March 2024 on
    display. *)
Lemma orderable_outside_month_witness :
  exists days : list MonthDay,
    buildDays (civil 2024 3 1) (civil 2024 3 5) ["2024-02-29"%string] []
    = Some days /\
    filter (fun c => isHighlighted c (Some "2024-02-29"%string)) days = [] /\
    isOrderable (fun key => key) days
      (setSelectedDate (Some "2024-02-29"%string) initialState) = true.
Proof.
  destruct (orderable_outside_month (fun key => key) (civil 2024 3 1) (civil 2024 3 5)
              ["2024-02-29"%string] []
              (setSelectedDate (Some "2024-02-29"%string) initialState)
              (civil 2024 2 29))
    as (days & HB & _ & HF & _ & HO & _).
  - reflexivity.
  - vm_compute. split; discriminate.
  - vm_compute. reflexivity.
  - left. reflexivity.
  - exists days. auto.
Defined.


(** *** React keys *)

Lemma weeks_structure from now offerDays orderDays :
  exists (days : list MonthDay) (weeks : list (list MonthDay)),
    buildDays from now offerDays orderDays = Some days /\
    buildWeeks days = Some weeks /\
    (4 <= List.length weeks <= 6)%nat /\
    weeks = map (fun j => map (cellOf from now offerDays orderDays)
                            (gridDates (addDays (firstMonday from)
                                          (7 * Z.of_nat j)) 7))
              (seq 0 (List.length weeks)).
Proof.
  destruct (buildDays_parts from now offerDays orderDays)
    as (lead & trail & Hl & Ht & Hn & Hdim & _ & _ & W1 & HB).
  set (n := (lead + List.length (monthDates from) + trail)%nat) in *.
  set (days := map (cellOf from now offerDays orderDays)
                 (gridDates (firstMonday from) n)) in *.
  assert (Hlen : List.length days = n)
    by (unfold days; rewrite length_map; apply gridDates_length).
  apply Nat.Div0.div_exact in Hn.
  destruct (RowFacts.weeksLoop_spec days (n / 7) (S (List.length days)) 0 [])
    as (rows & E & C & F & L); [lia | lia |].
  cbn [app skipn] in *.
  exists days, rows. split; [exact HB |]. split; [exact E |].
  split; [lia |].
  apply GridExtras.rows_of_concat; [exact F |]. rewrite C, L, <- Hn. reflexivity.
Qed.

Lemma combine_seq_map {A} (g : nat -> A) : forall len s,
  combine (seq s len) (map g (seq s len)) = map (fun j => (j, g j)) (seq s len).
Proof.
  induction len as [| len IH]; intros s; [reflexivity |].
  cbn [seq map combine]. rewrite IH. reflexivity.
Qed.

Lemma string_app_inv_head (a x y : string) :
  (a ++ x)%string = (a ++ y)%string -> x = y.
Proof.
  induction a as [| c a IH]; cbn [append]; intros E; [exact E |].
  injection E as E. apply IH. exact E.
Qed.

(** On local time values: the keys of the rows and of the cells. *)
Lemma react_keys_local (from now : Date) (offerDays orderDays : list string) :
  exists (days : list MonthDay) (weeks : list (list MonthDay)),
    buildDays from now offerDays orderDays = Some days /\
    buildWeeks days = Some weeks /\
    rowKeys weeks =
      map (fun j => ("week-" ++
                     format (addDays (firstMonday from) (7 * Z.of_nat j))
                       DayFormat)%string)
        (seq 0 (List.length weeks)) /\
    NoDup (rowKeys weeks) /\
    NoDup (map date days).
Proof.
  destruct (weeks_structure from now offerDays orderDays)
    as (days & weeks & HB & HW & Hlen & E).
  exists days, weeks. split; [assumption |]. split; [assumption |].
  assert (K : rowKeys weeks =
              map (fun j => ("week-" ++
                             format (addDays (firstMonday from) (7 * Z.of_nat j))
                               DayFormat)%string)
                (seq 0 (List.length weeks))).
  { unfold rowKeys. rewrite E at 2. rewrite combine_seq_map, map_map.
    apply map_ext. intros j. cbn [fst snd]. rewrite gridDates_S. cbn [map].
    unfold rowKey. cbn [date cellOf].
    pose proof (dateKey_nonempty (addDays (firstMonday from) (7 * Z.of_nat j))).
    destruct (format _ DayFormat); [contradiction | reflexivity]. }
  split; [exact K |]. split.
  - rewrite K. apply NoDup_map_NoDup_ForallPairs; [| apply seq_NoDup].
    intros i j Hi Hj Eij. apply in_seq in Hi, Hj.
    apply string_app_inv_head in Eij.
    apply dateKey_fields in Eij. destruct Eij as [Em Ed].
    destruct (same_fields_far _ _ Em Ed) as [H | H];
      rewrite !Day_addDays in H; lia.
  - apply (buildDays_keys_NoDup _ _ _ _ _ HB).
Qed.

End ComponentExtras.

(** ** Navigation between months *)

Module NavigationExtras.
Import ES ESFacts DateFns DateFnsFacts Calendar Vocabulary GridFacts KeyFacts
  MonthFacts GridClaims NavigationFacts.

Lemma fields_of_monthIndex d1 d2 :
  monthIndex d1 = monthIndex d2 ->
  getFullYear d1 = getFullYear d2 /\ getMonth d1 = getMonth d2.
Proof.
  unfold monthIndex, getFullYear, getMonth. intros E.
  pose proof (MonthFromTime_range d1). pose proof (MonthFromTime_range d2).
  split; lia.
Qed.

Lemma date_of_fields d1 d2 :
  getFullYear d1 = getFullYear d2 -> getMonth d1 = getMonth d2 ->
  getDate d1 = getDate d2 -> TimeWithinDay d1 = TimeWithinDay d2 ->
  d1 = d2.
Proof.
  unfold getFullYear, getMonth, getDate. intros EY EM ED ET.
  rewrite <- (MakeDate_Day d1), <- (MakeDate_Day d2).
  rewrite <- (MakeDay_fields d1), <- (MakeDay_fields d2), EY, EM, ED, ET.
  reflexivity.
Qed.

Lemma monthIndex_iter from k :
  monthIndex (Nat.iter k (fun d => addMonths d 1) from)
  = monthIndex from + Z.of_nat k.
Proof.
  induction k as [| k IH]; [cbn; lia |].
  cbn [Nat.iter nat_rect].
  destruct (addMonths_spec (Nat.iter k (fun d => addMonths d 1) from) 1) as (I & _).
  unfold Nat.iter in *. rewrite I, IH. lia.
Qed.

(** On local time values: the next month and back. *)
Lemma next_then_previous_local (from now : Date) (offerDays orderDays : list string) :
  buildDays (subMonths (addMonths from 1) 1) now offerDays orderDays
  = buildDays from now offerDays orderDays /\
  buildDays (addMonths (subMonths from 1) 1) now offerDays orderDays
  = buildDays from now offerDays orderDays /\
  monthIndex (subMonths (addMonths from 1) 1) = monthIndex from /\
  TimeWithinDay (subMonths (addMonths from 1) 1) = TimeWithinDay from /\
  getDate (subMonths (addMonths from 1) 1) <= getDate from /\
  (getDate from <= 28 ->
   subMonths (addMonths from 1) 1 = from /\
   addMonths (subMonths from 1) 1 = from).
Proof.
  unfold subMonths.
  destruct (addMonths_spec from 1) as (I1 & T1 & D1).
  destruct (addMonths_spec (addMonths from 1) (- (1))) as (I2 & T2 & D2).
  destruct (addMonths_spec from (- (1))) as (I3 & T3 & D3).
  destruct (addMonths_spec (addMonths from (- (1))) 1) as (I4 & T4 & D4).
  assert (J1 : monthIndex (addMonths (addMonths from 1) (- (1))) = monthIndex from)
    by lia.
  assert (J2 : monthIndex (addMonths (addMonths from (- (1))) 1) = monthIndex from)
    by lia.
  destruct (fields_of_monthIndex _ _ J1) as [Y1 M1].
  destruct (fields_of_monthIndex _ _ J2) as [Y2 M2].
  split; [apply buildDays_same_month; assumption |].
  split; [apply buildDays_same_month; assumption |].
  split; [exact J1 |]. split; [congruence |]. split; [lia |].
  intros H28.
  pose proof (DaysInMonth_range (getFullYear (addMonths from 1))
                (getMonth (addMonths from 1)) (MonthFromTime_range _)) as B1.
  pose proof (DaysInMonth_range (getFullYear (addMonths from (- (1))))
                (getMonth (addMonths from (- (1)))) (MonthFromTime_range _)) as B3.
  pose proof (DaysInMonth_range (getFullYear from) (getMonth from)
                (MonthFromTime_range _)) as B0.
  rewrite Y1, M1 in D2. rewrite Y2, M2 in D4.
  split; apply date_of_fields; try assumption; try congruence; lia.
Qed.

(** On local time values: [k] steps to the next month. *)
Lemma repeated_next_local (from now : Date) (offerDays orderDays : list string)
    (k : nat) :
  monthIndex (Nat.iter k (fun d => addMonths d 1) from)
  = monthIndex from + Z.of_nat k /\
  buildDays (Nat.iter k (fun d => addMonths d 1) from) now offerDays orderDays
  = buildDays (addMonths from (Z.of_nat k)) now offerDays orderDays.
Proof.
  pose proof (monthIndex_iter from k) as I.
  destruct (addMonths_spec from (Z.of_nat k)) as (J & _).
  split; [exact I |].
  apply buildDays_same_month; apply fields_of_monthIndex; lia.
Qed.

(** On local time values: where the grid of the next month starts. *)
Lemma next_grid_start_local (from : Date) :
  Day (firstMonday (addMonths from 1)) =
  (if getDay (endOfMonth from) =? 0 then Day (lastSunday from) + 1
   else Day (lastSunday from) - 6).
Proof.
  destruct (addMonths_spec from 1) as (I & _).
  unfold firstMonday, lastSunday, monthStart, monthEnd.
  destruct (startOfWeek_monday (startOfMonth (addMonths from 1)))
    as (lead & Hl & E1 & W1).
  destruct (endOfWeek_sunday (endOfMonth from)) as (trail & Ht & E2 & W2).
  rewrite E1, E2, !Day_MakeDate by (unfold msPerDay; lia).
  assert (S : Day (startOfMonth (addMonths from 1)) = Day (endOfMonth from) + 1).
  { rewrite startOfMonth_eq, endOfMonth_eq.
    rewrite !Day_MakeDate by (unfold msPerDay; lia).
    rewrite (MakeDay_first _ _ 0). 
    rewrite (MakeDay_norm (YearFromTime from) (MonthFromTime from + 1) 1).
    pose proof (MonthFromTime_range (addMonths from 1)) as R1.
    pose proof (MonthFromTime_range from) as R0.
    unfold monthIndex, getFullYear, getMonth in I.
    assert (EY : YearFromTime (addMonths from 1)
                 = YearFromTime from + (MonthFromTime from + 1) / 12)
      by (Z.to_euclidean_division_equations; lia).
    assert (EM : MonthFromTime (addMonths from 1) = (MonthFromTime from + 1) mod 12)
      by (Z.to_euclidean_division_equations; lia).
    rewrite EY, EM. lia. }
  unfold getDay, WeekDay. rewrite S in *.
  set (e := Day (endOfMonth from)) in *. clearbody e.
  destruct (Z.eqb_spec ((e + 4) mod 7) 0);
    Z.to_euclidean_division_equations; lia.
Qed.

End NavigationExtras.

(** ** Runs of the component *)

Module MachineExtras.
Import ES ESFacts DateFns DateFnsFacts Calendar Vocabulary GridFacts KeyFacts
  MonthFacts GridClaims ComponentClaims Machine.

Lemma renderDays_cells p now :
  Forall (fun c => exists d,
            c = cellOf (from p) now (offerDays p) (orderDays p) d)
    (renderDays p now).
Proof.
  unfold renderDays.
  destruct (buildDays (from p) now (offerDays p) (orderDays p)) as [days |] eqn:HB.
  - apply (buildDays_cells _ _ _ _ _ HB).
  - constructor.
Qed.

Lemma offer_cellOf from now offerDays orderDays d :
  offer (cellOf from now offerDays orderDays d)
  = includes offerDays (format d DayFormat).
Proof. reflexivity. Qed.

Lemma filter_fetch_rest l :
  filter isFetchEffect (filter (fun e => negb (isFetchEffect e)) l) = [].
Proof.
  induction l as [| e l IH]; [reflexivity |]. cbn [filter].
  destruct (isFetchEffect e) eqn:E; cbn [negb filter]; [exact IH |].
  rewrite E. exact IH.
Qed.

(** What [handleOrder] does when its guard passes. *)
Lemma handleOrder_enabled days st k c :
  selectedDate st = Some k -> k <> EmptyString ->
  find days (fun d => String.eqb (date d) k) = Some c -> offer c = true ->
  forall net,
    fst (handleOrder days net st) = setPopup (outcomePopup net) /\
    filter isFetchEffect (snd (handleOrder days net st)) = [FetchPost orderUrl k].
Proof.
  intros Es Hk Ef Ho net. unfold handleOrder. rewrite Es.
  destruct k as [| a k]; [contradiction |]. cbn [truthy strictEq].
  rewrite Ef, Ho. destruct net as [[|] status [json |] |]; split; reflexivity.
Qed.

Lemma filter_map_swap {A B} (f : A -> B) (q : B -> bool) l :
  filter q (map f l) = map f (filter (fun x => q (f x)) l).
Proof.
  induction l as [| x l IH]; [reflexivity |]. cbn.
  destruct (q (f x)); cbn; rewrite IH; reflexivity.
Qed.

Section Runs.

Variable describeDate : string -> string.

Let step := Machine.step describeDate.
Let run := Machine.run describeDate.

(** The button is enabled: the facts behind it. *)
Lemma enabled_facts days st info :
  getSelectedDayInfo describeDate days st = Some info ->
  isAvailable info = true ->
  exists k c, selectedDate st = Some k /\ k <> EmptyString /\
    find days (fun d => String.eqb (date d) k) = Some c /\ offer c = true.
Proof.
  intros Hi Ha. apply (isOrderable_find describeDate).
  unfold isOrderable. rewrite Hi. exact Ha.
Qed.

Lemma Forall_removeNth {A} (P : A -> Prop) i l :
  Forall P l -> Forall P (removeNth i l).
Proof.
  revert i. induction l as [| x l IH]; intros i H; [destruct i; constructor |].
  inversion H; subst. destruct i; cbn; [assumption |].
  constructor; [assumption | apply IH; assumption].
Qed.

Lemma length_removeNth {A} i (l : list A) x :
  nth_error l i = Some x -> S (List.length (removeNth i l)) = List.length l.
Proof.
  revert i. induction l as [| y l IH]; intros i H; [destruct i; discriminate |].
  destruct i; cbn in *; [reflexivity |]. rewrite (IH i H). reflexivity.
Qed.

Lemma keeps_quiet p c st' :
  Inv c ->
  selectedDate st' = selectedDate (state c) -> popup st' = popup (state c) ->
  StepKeeps p c {| state := st'; pending := pending c |} [].
Proof.
  intros (IK & IP & IC) E1 E2. unfold StepKeeps, Inv. cbn [state pending map].
  rewrite E1, E2. repeat split; auto. cbn. lia.
Qed.

Lemma keeps_same p c : Inv c -> StepKeeps p c c [].
Proof.
  intros (IK & IP & IC). unfold StepKeeps, Inv. cbn [map].
  repeat split; auto. cbn. lia.
Qed.

Lemma keeps_navigation p c (b : bool) d :
  Inv c -> StepKeeps p c c (if b then [OnMonthChange d] else []).
Proof.
  intros (IK & IP & IC). unfold StepKeeps, Inv.
  destruct b; cbn [map]; repeat split; auto; try (cbn; lia).
  repeat constructor.
Qed.

Lemma keeps_press_day p now days c d :
  Forall (fun c => exists d,
            c = cellOf (from p) now (offerDays p) (orderDays p) d) days ->
  Inv c -> In d days ->
  StepKeeps p c {| state := handleDayPress d (state c); pending := pending c |} [].
Proof.
  intros HC HI Hin. rewrite Forall_forall in HC.
  destruct (HC d Hin) as (dd & ->).
  unfold handleDayPress. rewrite isCurrentMonth_cellOf, date_cellOf.
  destruct (isSameMonth dd (from p)).
  - destruct HI as (IK & IP & IC). unfold StepKeeps, Inv.
    cbn [state pending setSelectedDate selectedDate popup map].
    assert (K : KeyOrNone (Some (format dd DayFormat)))
      by (right; exists dd; reflexivity).
    revert K. generalize (format dd DayFormat). intros key K.
    split; [split; [exact K | split; assumption] |].
    split; [constructor |]. split; [intros _ H; discriminate H |].
    split; [cbn; lia |]. left. reflexivity.
  - apply keeps_quiet; [assumption | reflexivity | reflexivity].
Qed.

Lemma found_cell_offered p now days k cl :
  Forall (fun c => exists d,
            c = cellOf (from p) now (offerDays p) (orderDays p) d) days ->
  find days (fun d => String.eqb (date d) k) = Some cl ->
  offer cl = true ->
  In k (offerDays p) /\ exists d, k = format d DayFormat.
Proof.
  intros HC Ef Ho. unfold find in Ef. apply find_some in Ef.
  destruct Ef as [Hin Ek]. apply String.eqb_eq in Ek.
  rewrite Forall_forall in HC.
  destruct (HC cl Hin) as (dd & Ecl). subst cl.
  rewrite date_cellOf in Ek. rewrite offer_cellOf in Ho.
  apply includes_In in Ho. rewrite Ek in Ho.
  split; [exact Ho |]. exists dd. symmetry. exact Ek.
Qed.

Lemma keeps_press_order p now days c k cl :
  Forall (fun c => exists d,
            c = cellOf (from p) now (offerDays p) (orderDays p) d) days ->
  Inv c ->
  selectedDate (state c) = Some k -> k <> EmptyString ->
  find days (fun d => String.eqb (date d) k) = Some cl ->
  offer cl = true ->
  forall kont : Continuation,
    (forall net,
        kont net =
        (fst (handleOrder days net (state c)),
         filter (fun e => negb (isFetchEffect e))
           (snd (handleOrder days net (state c))))) ->
    StepKeeps p c {| state := state c; pending := pending c ++ [kont] |}
      [FetchPost orderUrl k].
Proof.
  intros HC (IK & IP & IC) Es Hk Ef Ho kont Hkont.
  pose proof (handleOrder_enabled _ _ _ _ Es Hk Ef Ho) as HO.
  unfold StepKeeps, Inv. cbn [state pending map].
  split; [| split; [| split; [| split]]].
  - split; [assumption |]. split; [assumption |].
    apply Forall_app. split; [assumption |]. constructor; [| constructor].
    intros net. rewrite Hkont. cbn [fst snd].
    split; [apply HO | apply filter_fetch_rest].
  - constructor; [| constructor].
    destruct (found_cell_offered p now days k cl HC Ef Ho) as [Hoff Hkey].
    unfold OfferedRequest. cbn [fst snd]. auto.
  - auto.
  - rewrite length_app. cbn. lia.
  - left. reflexivity.
Qed.

Lemma keeps_press_ok p c :
  Inv c -> visible (popup (state c)) = true ->
  StepKeeps p c {| state := closePopup (state c); pending := pending c |} [].
Proof.
  intros (IK & IP & IC) Hv. unfold StepKeeps, Inv.
  cbn [state pending map closePopup setPopup popup selectedDate].
  split; [| split; [| split; [| split]]].
  - split; [assumption |]. split; [| assumption].
    destruct IP as [E | (net & Em & Et)].
    + rewrite E in Hv. discriminate.
    + right. exists net. auto.
  - constructor.
  - auto.
  - cbn. lia.
  - right. left. split; [assumption | reflexivity].
Qed.

Lemma keeps_settle p c i k net :
  Inv c -> nth_error (pending c) i = Some k ->
  StepKeeps p c
    {| state := fst (k net) (state c); pending := removeNth i (pending c) |}
    (snd (k net)).
Proof.
  intros (IK & IP & IC) En.
  pose proof IC as IC'. rewrite Forall_forall in IC'.
  destruct (IC' k (nth_error_In _ _ En) net) as [Eu Ee].
  unfold StepKeeps, Inv. cbn [state pending]. rewrite Eu.
  cbn [setPopup selectedDate popup].
  split; [| split; [| split; [| split]]].
  - split; [assumption |]. split.
    + right. exists net. auto.
    + apply Forall_removeNth. exact IC.
  - apply Forall_forall. intros pe Hpe. apply in_map_iff in Hpe.
    destruct Hpe as (e & <- & He). unfold OfferedRequest. cbn [fst snd].
    destruct e; try exact I. exfalso.
    assert (Hf : In (FetchPost url bodyDate) (filter isFetchEffect (snd (k net))))
      by (apply filter_In; split; [assumption | reflexivity]).
    rewrite Ee in Hf. contradiction.
  - auto.
  - pose proof (length_removeNth _ _ _ En).
    assert (R : requests (map (fun x => (p, x)) (snd (k net))) = 0%nat).
    { unfold requests. rewrite filter_map_swap, length_map.
      rewrite (filter_ext _ isFetchEffect) by reflexivity.
      rewrite Ee. reflexivity. }
    lia.
  - right. right. split.
    + intros E. rewrite E in En. destruct i; discriminate.
    + exists net. reflexivity.
Qed.

(** One event: what it keeps and what it may send. *)
Lemma step_keeps p now e c :
  Inv c -> StepKeeps p c (fst (step p now e c)) (snd (step p now e c)).
Proof.
  intros HI. unfold step, Machine.step.
  pose proof (renderDays_cells p now) as HC. revert HC.
  generalize (renderDays p now). intros days HC.
  destruct e as [w | | | i | | | i net].
  - apply (keeps_quiet p c (setWidth w (state c))); [assumption | |]; reflexivity.
  - cbn [handlePreviousMonth fst snd noUpdate].
    destruct c as [st pend]. apply keeps_navigation. assumption.
  - cbn [handleNextMonth fst snd noUpdate].
    destruct c as [st pend]. apply keeps_navigation. assumption.
  - destruct (nth_error days i) as [d |] eqn:En; cbn [fst snd].
    + apply (keeps_press_day p now days); [assumption | assumption |].
      apply (nth_error_In _ _ En).
    + apply keeps_same. assumption.
  - destruct (getSelectedDayInfo describeDate days (state c))
      as [info |] eqn:Hi; [| apply keeps_same; assumption].
    destruct (isAvailable info) eqn:Ha; [| apply keeps_same; assumption].
    destruct (enabled_facts _ _ _ Hi Ha) as (k & cl & Es & Hk & Ef & Ho).
    destruct (handleOrder_enabled _ _ _ _ Es Hk Ef Ho TransportError) as [_ E].
    cbn [fst snd]. rewrite E.
    apply (keeps_press_order p now days c k cl); try assumption.
    intros net. reflexivity.
  - destruct (visible (popup (state c))) eqn:Hv; cbn [fst snd].
    + apply keeps_press_ok; assumption.
    + apply keeps_same. assumption.
  - destruct (nth_error (pending c) i) as [k |] eqn:En; cbn [fst snd].
    + apply keeps_settle; assumption.
    + apply keeps_same. assumption.
Qed.

Lemma requests_app t1 t2 : requests (t1 ++ t2) = (requests t1 + requests t2)%nat.
Proof. unfold requests. rewrite filter_app, length_app. reflexivity. Qed.

(** A run: what it keeps and what it may send. *)
Lemma run_keeps evs : forall c,
  Inv c ->
  Inv (fst (run evs c)) /\
  Forall OfferedRequest (snd (run evs c)) /\
  (selectedDate (state c) <> None ->
   selectedDate (state (fst (run evs c))) <> None) /\
  (List.length (pending (fst (run evs c))) <=
   List.length (pending c) + requests (snd (run evs c)))%nat /\
  (requests (snd (run evs c)) = 0%nat ->
   visible (popup (state c)) = false -> pending c = [] ->
   visible (popup (state (fst (run evs c)))) = false).
Proof.
  induction evs as [| [[p now] e] evs IH]; intros c HI.
  - unfold run. cbn [Machine.run fst snd].
    split; [assumption |]. split; [constructor |]. split; [auto |].
    split; [unfold requests; cbn [filter List.length]; lia | auto].
  - unfold run. cbn [Machine.run]. fold run. fold (step p now e c).
    destruct (step_keeps p now e c HI) as (S1 & S2 & S3 & S4 & S5).
    destruct (IH (fst (step p now e c)) S1) as (R1 & R2 & R3 & R4 & R5).
    cbn [fst snd]. rewrite requests_app.
    split; [exact R1 |]. split; [apply Forall_app; auto |].
    split; [auto |]. split; [lia |].
    intros Hz Hv Hp.
    assert (Z1 : requests (map (fun x => (p, x)) (snd (step p now e c))) = 0%nat)
      by lia.
    apply R5; [lia | |].
    + destruct S5 as [E | [[Hv' _] | [Hp' _]]]; [| congruence | contradiction].
      rewrite E. exact Hv.
    + rewrite Hp, Z1 in S4. cbn in S4.
      destruct (pending (fst (step p now e c))); [reflexivity | cbn in S4; lia].
Qed.

Lemma Inv_initial : Inv initialConfig.
Proof.
  unfold Inv. cbn. split; [left; reflexivity |].
  split; [left; reflexivity | constructor].
Qed.

(** X19: the component never orders a day without an offer.  Along
    every run from the initial state, whatever the events, the props and
    the answers of the network, each request goes to the order endpoint
    and carries a date key that is on the offer list of the render in
    which the order button was pressed. *)
Theorem requests_only_for_offers (evs : list (WeekViewProps * Date * Event)) :
  Forall OfferedRequest (snd (Machine.run describeDate evs initialConfig)).
Proof. apply (run_keeps evs initialConfig Inv_initial). Qed.

Lemma run_app evs1 : forall evs2 c,
  run (evs1 ++ evs2) c =
  (fst (run evs2 (fst (run evs1 c))),
   snd (run evs1 c) ++ snd (run evs2 (fst (run evs1 c))))%list.
Proof.
  induction evs1 as [| [[p now] e] evs1 IH]; intros evs2 c.
  - cbn. destruct (run evs2 c); reflexivity.
  - unfold run in *. cbn [app Machine.run fst snd]. rewrite IH. cbn [fst snd].
    rewrite app_assoc. reflexivity.
Qed.

(** X20: the selection along a run.  After any run from the initial
    state the selected date is either absent or the key of a date, never
    an empty or foreign string, so the panel with the order button is
    shown exactly when a date is selected; and no event clears a
    selection: once a date is selected, some date stays selected. *)
Theorem selection_along_runs (evs more : list (WeekViewProps * Date * Event))
    (days : list MonthDay) :
  KeyOrNone (selectedDate (state (fst (Machine.run describeDate evs initialConfig)))) /\
  (getSelectedDayInfo describeDate days
     (state (fst (Machine.run describeDate evs initialConfig))) = None <->
   selectedDate (state (fst (Machine.run describeDate evs initialConfig))) = None) /\
  (selectedDate (state (fst (Machine.run describeDate evs initialConfig))) <> None ->
   selectedDate
     (state (fst (Machine.run describeDate (evs ++ more) initialConfig))) <> None).
Proof.
  fold run.
  destruct (run_keeps evs initialConfig Inv_initial) as (I1 & _).
  destruct I1 as (K & _).
  split; [exact K |]. split.
  - unfold getSelectedDayInfo.
    destruct K as [E | (d & E)]; rewrite E.
    + split; reflexivity.
    + pose proof (dateKey_nonempty d) as Hne.
      destruct (format d DayFormat); [contradiction |].
      cbn [truthy negb]. split; discriminate.
  - rewrite run_app. cbn [fst].
    apply run_keeps. apply (run_keeps evs initialConfig Inv_initial).
Qed.

(** X21: popups follow requests.  After any run from the initial state
    there are no more requests outstanding than were sent; if none was
    sent the popup has never opened; and an open popup is always one of
    the three popups of [handleOrder], with the success style exactly
    for the success message. *)
Theorem popups_follow_requests (evs : list (WeekViewProps * Date * Event)) :
  (List.length (pending (fst (Machine.run describeDate evs initialConfig))) <=
   requests (snd (Machine.run describeDate evs initialConfig)))%nat /\
  (requests (snd (Machine.run describeDate evs initialConfig)) = 0%nat ->
   visible (popup (state (fst (Machine.run describeDate evs initialConfig))))
   = false) /\
  (visible (popup (state (fst (Machine.run describeDate evs initialConfig))))
   = true ->
   (exists net,
       popup (state (fst (Machine.run describeDate evs initialConfig)))
       = outcomePopup net) /\
   (type (popup (state (fst (Machine.run describeDate evs initialConfig))))
    = success <->
    message (popup (state (fst (Machine.run describeDate evs initialConfig))))
    = msgOrderPlaced)).
Proof.
  fold run.
  destruct (run_keeps evs initialConfig Inv_initial)
    as ((_ & KP & _) & _ & _ & L & V).
  split; [exact L |]. split; [intros Hz; apply V; auto |].
  intros Hv.
  destruct KP as [E | (net & Em & Et)]; [rewrite E in Hv; discriminate |].
  assert (Eq : popup (state (fst (run evs initialConfig))) = outcomePopup net).
  { destruct (popup (state (fst (run evs initialConfig)))) as [v m t].
    cbn [visible message type] in *. subst v.
    destruct net as [[|] status [json |] |]; cbn in *; subst; reflexivity. }
  split; [exists net; exact Eq |].
  rewrite Eq.
  destruct net as [[|] status [json |] |]; cbn; split; intros H;
    try reflexivity; discriminate.
Qed.

(** X22: there is no single-flight guard.  With the order button
    enabled, pressing it twice sends two requests for the same date and
    leaves both outstanding, the state being untouched; when nothing
    else is outstanding and both settle, the popup shows the outcome of
    the one that settles last. *)
Theorem no_single_flight (p : WeekViewProps) (now : Date) (c : Config)
    (Ho : isOrderable describeDate (renderDays p now) (state c) = true) :
  exists k,
    selectedDate (state c) = Some k /\
    snd (Machine.run describeDate
           [(p, now, PressOrder); (p, now, PressOrder)] c) =
      [(p, FetchPost orderUrl k); (p, FetchPost orderUrl k)] /\
    List.length
      (pending (fst (Machine.run describeDate
                       [(p, now, PressOrder); (p, now, PressOrder)] c)))
    = (List.length (pending c) + 2)%nat /\
    state (fst (Machine.run describeDate
                  [(p, now, PressOrder); (p, now, PressOrder)] c)) = state c /\
    (pending c = [] ->
     forall net1 net2,
       popup (state (fst (Machine.run describeDate
                            [(p, now, PressOrder); (p, now, PressOrder);
                             (p, now, Settle 0 net1); (p, now, Settle 0 net2)] c)))
       = outcomePopup net2).
Proof.
  cbn [Machine.run]. unfold Machine.step.
  revert Ho. generalize (renderDays p now). intros days Ho.
  unfold isOrderable in Ho.
  destruct (getSelectedDayInfo describeDate days (state c)) as [info |] eqn:Hi;
    [| discriminate].
  destruct (enabled_facts _ _ _ Hi Ho) as (k & cl & Es & Hk & Ef & Hoff).
  pose proof (handleOrder_enabled _ _ _ _ Es Hk Ef Hoff) as HO.
  destruct (HO TransportError) as [_ E].
  exists k. split; [exact Es |].
  rewrite Ho. cbn [fst snd state pending]. rewrite Hi, Ho.
  cbn [fst snd state pending]. rewrite E. cbn [map app].
  split; [reflexivity |]. split; [rewrite !length_app; cbn; lia |].
  split; [reflexivity |].
  intros Hp net1 net2. rewrite Hp.
  repeat (cbn [app nth_error removeNth fst snd state pending]).
  destruct (HO net2) as [E2 _]. rewrite E2. reflexivity.
Qed.

End Runs.

(** X22, with 2024-03-10 selected and offered in the grid of March
    2024. *)
Lemma no_single_flight_witness :
  let p := {| from := civil 2024 3 1; offerDays := ["2024-03-10"%string];
              orderDays := []; onMonthChange := true |} in
  let c := {| state := setSelectedDate (Some "2024-03-10"%string) initialState;
              pending := [] |} in
  exists k,
    snd (Machine.run (fun key => key)
           [(p, civil 2024 3 5, PressOrder); (p, civil 2024 3 5, PressOrder)] c) =
      [(p, FetchPost orderUrl k); (p, FetchPost orderUrl k)].
Proof.
  intros p c.
  destruct (no_single_flight (fun key => key) p (civil 2024 3 5) c)
    as (k & _ & E & _).
  - vm_compute. reflexivity.
  - exists k. exact E.
Defined.

End MachineExtras.

(** ** Submissions and the text of the selected date *)

Module PanelExtras.
Import ES ESFacts DateFns DateFnsFacts Calendar Vocabulary GridFacts KeyFacts
  KeyCodec ComponentClaims Machine SelectedText.

(** X23: what a submission ends in.  When the order button is enabled,
    [handleOrder] sends one request for the selected key and then makes
    one setter call, which opens the popup of the outcome: the success
    popup exactly for an ok response with a JSON body, an error popup
    otherwise.  Applied to the state current at that time, the update
    keeps the selected date and the width. *)
Theorem submission_outcome (describeDate : string -> string)
    (days : list MonthDay) (st : State) (net : FetchOutcome) (s : State)
    (Ho : isOrderable describeDate days st = true) :
  exists k,
    selectedDate st = Some k /\
    filter isFetch (snd (handleOrder days net st)) = [FetchPost orderUrl k] /\
    List.length (snd (handleOrder days net st)) = 2%nat /\
    fst (handleOrder days net st) s = setPopup (outcomePopup net) s /\
    selectedDate (fst (handleOrder days net st) s) = selectedDate s /\
    width (fst (handleOrder days net st) s) = width s /\
    visible (popup (fst (handleOrder days net st) s)) = true /\
    (type (popup (fst (handleOrder days net st) s)) = success <->
     exists status body, net = Responded true status (Some body)).
Proof.
  apply isOrderable_find in Ho. destruct Ho as (k & c & Es & Hk & Ef & Hoff).
  exists k. split; [exact Es |].
  unfold handleOrder. rewrite Es.
  destruct k as [| a k]; [contradiction |]. cbn [truthy strictEq].
  rewrite Ef, Hoff.
  destruct net as [[|] status [json |] |]; cbn;
    repeat split; try reflexivity; try discriminate;
    try (intros (st' & b & H); discriminate).
  intros _. eauto.
Qed.

(** X23, for 2024-03-10, selected and offered, and an ok response. *)
Lemma submission_outcome_witness :
  let days := map (cellOf (civil 2024 3 1) (civil 2024 3 1) ["2024-03-10"%string] [])
                (gridDates (civil 2024 2 26) 35) in
  let st := setSelectedDate (Some "2024-03-10"%string) initialState in
  exists k,
    selectedDate st = Some k /\
    filter isFetch
      (snd (handleOrder days (Responded true 200 (Some EmptyString)) st))
    = [FetchPost orderUrl k].
Proof.
  intros days st.
  destruct (submission_outcome (fun key => key) days st
              (Responded true 200 (Some EmptyString)) st)
    as (k & Es & E & _).
  - vm_compute. reflexivity.
  - exists k. auto.
Defined.

(** *** The text of the selected date *)

Lemma year4_table :
  forallb (fun n => Nat.eqb (String.length (addLeadingZeros n 4)) 4)
    (map Z.of_nat (seq 0 (Z.to_nat 10000))) = true.
Proof. vm_compute. reflexivity. Qed.

Lemma year4_length n :
  0 <= n <= 9999 -> String.length (addLeadingZeros n 4) = 4%nat.
Proof.
  intros Hn. pose proof year4_table as T.
  rewrite forallb_forall in T. apply Nat.eqb_eq. apply T.
  rewrite <- (Z2Nat.id n) by lia. apply in_map, in_seq. lia.
Qed.

Lemma dateKey_length10 d :
  1 <= getFullYear d <= 9999 -> String.length (format d DayFormat) = 10%nat.
Proof.
  intros Hy. rewrite format_DayFormat, !string_length_app.
  cbn [String.length].
  pose proof (MonthFromTime_range d) as Hm.
  pose proof (DateFromTime_range d) as Hd.
  pose proof (DaysInMonth_range (YearFromTime d) _ Hm) as Hdim.
  unfold getMonth, getDate.
  rewrite !pad2_length by lia.
  rewrite year4_length; [reflexivity |].
  unfold printedYear. destruct (Z.gtb_spec (getFullYear d) 0); lia.
Qed.

Lemma Day_shifted a offset :
  - msPerDay <= offset < msPerDay ->
  Day (MakeDate a 0 + offset) = (if offset <? 0 then a - 1 else a).
Proof.
  intros H. unfold Day, MakeDate, msPerDay in *.
  destruct (Z.ltb_spec offset 0); Z.to_euclidean_division_equations; lia.
Qed.

Lemma formatLong_same_day monthName t1 t2 :
  Day t1 = Day t2 -> formatLong monthName t1 = formatLong monthName t2.
Proof.
  intros E. destruct (fields_same_day t1 t2 E) as (EY & EM & ED).
  unfold formatLong. rewrite EY, EM, ED. reflexivity.
Qed.

(** X24: the date shown under the calendar depends on the time zone.
    For the key of a date of the years 1 to 9999, [new Date(key)] is the
    UTC midnight of that date, and the text is printed from its local
    fields: east of Greenwich (an offset from 0 up to a day) the text
    shows the selected date, west of it (a negative offset) it shows the
    day before. *)
Theorem selected_text_zone (offset : Z) (monthName : Z -> string) (d : Date)
    (Hy : 1 <= getFullYear d <= 9999)
    (Hoff : - msPerDay <= offset < msPerDay) :
  newDate offset (format d DayFormat) = Some (MakeDate (Day d) 0 + offset) /\
  Day (MakeDate (Day d) 0 + offset) = (if offset <? 0 then Day d - 1 else Day d) /\
  (0 <= offset ->
   selectedText offset monthName (format d DayFormat)
   = Some (formatLong monthName d)) /\
  (offset < 0 ->
   selectedText offset monthName (format d DayFormat)
   = Some (formatLong monthName (addDays d (-1)))).
Proof.
  pose proof (MonthFromTime_range d) as Hm.
  pose proof (DateFromTime_range d) as Hd.
  assert (N : newDate offset (format d DayFormat)
              = Some (MakeDate (Day d) 0 + offset)).
  { unfold newDate. rewrite dateKey_length10 by assumption. cbn [Nat.eqb].
    rewrite KeyExtras.parse_format.
    assert (Ep : printedYear d = getFullYear d).
    { unfold printedYear. destruct (Z.gtb_spec (getFullYear d) 0); lia. }
    rewrite Ep. unfold getFullYear, getMonth, getDate in *.
    replace (MonthFromTime d + 1 - 1) with (MonthFromTime d) by lia.
    rewrite MakeDay_fields.
    destruct (Z.leb_spec 1 (MonthFromTime d + 1)); [| lia].
    destruct (Z.leb_spec (MonthFromTime d + 1) 12); [| lia].
    destruct (Z.leb_spec 1 (DateFromTime d)); [| lia].
    destruct (Z.leb_spec (DateFromTime d)
                (DaysInMonth (YearFromTime d) (MonthFromTime d))); [| lia].
    reflexivity. }
  pose proof (Day_shifted (Day d) offset Hoff) as DS.
  split; [exact N |]. split; [exact DS |].
  unfold selectedText. rewrite N. cbn [option_map].
  split; intros Ho; f_equal; apply formatLong_same_day; rewrite DS.
  - destruct (Z.ltb_spec offset 0); [lia | reflexivity].
  - destruct (Z.ltb_spec offset 0); [| lia]. rewrite Day_addDays. lia.
Qed.

(** X24, for 2024-03-10 five hours west of Greenwich: the text is
    that of 2024-03-09. *)
Lemma selected_text_zone_witness :
  selectedText (-18000000) (fun m => toString (m + 1)) "2024-03-10"
  = Some "9 3 2024"%string.
Proof.
  destruct (selected_text_zone (-18000000) (fun m => toString (m + 1))
              (civil 2024 3 10)) as (_ & _ & _ & H).
  - vm_compute. split; discriminate.
  - vm_compute. split; [discriminate | reflexivity].
  - exact (H eq_refl).
Defined.

End PanelExtras.

(** ** The engine's dates in a regular zone

    In a zone with a regular calendar, and away from the ends of the
    range of time values, every function on [Date] objects returns the
    UTC time of what the function of [DateFns] computes on the local time
    value. *)

Module HostFacts.
Import ES ESFacts DateFns DateFnsFacts Calendar Vocabulary HostVocabulary.

Lemma Day_abs_bound t : Z.abs t <= (Z.abs (Day t) + 1) * msPerDay.
Proof. unfold Day, msPerDay. Z.to_euclidean_division_equations. lia. Qed.

Lemma abs_Day_bound t k :
  Z.abs t <= k * msPerDay -> Z.abs (Day t) <= k.
Proof. unfold Day, msPerDay. Z.to_euclidean_division_equations. lia. Qed.

Lemma Day_startOfMonth t :
  Day (startOfMonth t) = Day t - (DateFromTime t - 1).
Proof.
  rewrite startOfMonth_eq, Day_MakeDate by (unfold msPerDay; lia).
  rewrite <- (MakeDay_fields t), (MakeDay_first _ _ (DateFromTime t)). lia.
Qed.

Lemma Day_endOfMonth t :
  Day (endOfMonth t) =
  Day t + (DaysInMonth (YearFromTime t) (MonthFromTime t) - DateFromTime t).
Proof.
  rewrite endOfMonth_eq, Day_MakeDate by (unfold msPerDay; lia).
  rewrite MakeDay_last by apply MonthFromTime_range.
  rewrite <- (MakeDay_fields t), (MakeDay_first _ _ (DateFromTime t)),
    (MakeDay_first _ _ (DaysInMonth _ _)). lia.
Qed.

Lemma startOfWeek_Day t w :
  startOfWeek t w =
  MakeDate (Day t - ((if WeekDay t <? w then 7 else 0) + WeekDay t - w)) 0.
Proof.
  unfold startOfWeek, getDay, getDate, setHours. rewrite Day_setDate.
  unfold MakeTime. f_equal. lia.
Qed.

Lemma endOfWeek_Day t w :
  endOfWeek t w =
  MakeDate (Day t + ((if WeekDay t <? w then -7 else 0) + 6 - (WeekDay t - w)))
    86399999.
Proof.
  unfold endOfWeek, getDay, getDate, setHours. rewrite Day_setDate.
  unfold MakeTime. f_equal. lia.
Qed.

Lemma startOfWeek_same_day a b w :
  Day a = Day b -> startOfWeek a w = startOfWeek b w.
Proof. intros E. rewrite !startOfWeek_Day. unfold WeekDay. rewrite E. reflexivity. Qed.

Lemma endOfWeek_same_day a b w :
  Day a = Day b -> endOfWeek a w = endOfWeek b w.
Proof. intros E. rewrite !endOfWeek_Day. unfold WeekDay. rewrite E. reflexivity. Qed.

Section Regular.

Variable z : Host.Zone.
Hypothesis Hz : Regular z.

Let L := Host.LocalTime z.
Let U := Host.UTC z.

Lemma LocalTime_near t : Z.abs (L t - t) <= msPerDay.
Proof.
  unfold L, Host.LocalTime. pose proof (offset_bound z Hz t true). lia.
Qed.

Lemma UTC_near t : Z.abs (U t - t) <= msPerDay.
Proof.
  unfold U, Host.UTC. pose proof (offset_bound z Hz t false). lia.
Qed.

Lemma InsideRange_Day t k :
  InsideRange t k -> Z.abs (Day (L t)) + k <= maxDay + 1.
Proof.
  unfold InsideRange, Host.maxTime, maxDay. intros H.
  pose proof (LocalTime_near t) as HL.
  assert (B : Z.abs (L t) <= (maxDay + 1 - k) * msPerDay)
    by (unfold maxDay, msPerDay in *; lia).
  apply abs_Day_bound in B. unfold maxDay in B. lia.
Qed.

(** Converting a local time back to UTC stays inside the range and
    keeps the local day. *)
Lemma clip_UTC t :
  Z.abs (Day t) + 2 <= maxDay ->
  Host.TimeClip (U t) = Some (U t).
Proof.
  intros H. unfold Host.TimeClip.
  pose proof (UTC_near t) as Hu. pose proof (Day_abs_bound t) as Ht.
  destruct (Z.leb_spec (Z.abs (U t)) Host.maxTime) as [_ | Hbad]; [reflexivity |].
  unfold Host.maxTime, maxDay, msPerDay in *. lia.
Qed.

Lemma Day_LU t : Day (L (U t)) = Day t.
Proof. apply (day_kept z Hz). Qed.

Lemma setDate_regular u dt :
  Z.abs (Day (L u) + (dt - DateFromTime (L u))) + 2 <= maxDay ->
  Host.setDate z u dt = Some (U (ES.setDate (L u) dt)).
Proof.
  intros H. unfold Host.setDate. apply clip_UTC. rewrite Day_setDate. exact H.
Qed.

Lemma setHours_regular u h m s ms :
  0 <= MakeTime h m s ms < msPerDay ->
  Z.abs (Day (L u)) + 2 <= maxDay ->
  Host.setHours z u h m s ms = Some (U (ES.setHours (L u) h m s ms)).
Proof.
  intros Ht H. unfold Host.setHours. apply clip_UTC.
  destruct (setHours_eq (L u) h m s ms Ht) as [-> _]. exact H.
Qed.

Lemma setHours_same_day a b h m s ms :
  Day a = Day b -> ES.setHours a h m s ms = ES.setHours b h m s ms.
Proof. intros E. unfold ES.setHours. rewrite E. reflexivity. Qed.

Lemma startOfDay_regular u :
  Z.abs (Day (L u)) + 2 <= maxDay ->
  Host.startOfDay z (Some u) = Some (U (startOfDay (L u))).
Proof.
  intros H. unfold Host.startOfDay, Host.onValid.
  apply setHours_regular; [unfold MakeTime, msPerDay; lia | exact H].
Qed.

Lemma startOfMonth_regular u :
  Z.abs (Day (L u)) + 33 <= maxDay ->
  Host.startOfMonth z (Some u) = Some (U (startOfMonth (L u))).
Proof.
  intros H. pose proof (DateFromTime_range (L u)) as Hd.
  pose proof (DaysInMonth_range (YearFromTime (L u)) _ (MonthFromTime_range (L u))) as Hm.
  unfold Host.startOfMonth, Host.onValid.
  rewrite setDate_regular by lia.
  rewrite setHours_regular.
  - unfold startOfMonth.
    rewrite (setHours_same_day _ (ES.setDate (L u) 1)) by apply Day_LU.
    reflexivity.
  - unfold MakeTime, msPerDay; lia.
  - fold L U. rewrite Day_LU, Day_setDate. lia.
Qed.

Lemma Day_setFullYear t y m dt : Day (ES.setFullYear t y m dt) = MakeDay y m dt.
Proof. unfold ES.setFullYear. apply Day_MakeDate, TimeWithinDay_range. Qed.

Lemma Day_setMonth t m dt : Day (ES.setMonth t m dt) = MakeDay (YearFromTime t) m dt.
Proof. unfold ES.setMonth. apply Day_MakeDate, TimeWithinDay_range. Qed.

Lemma endOfMonth_regular u :
  Z.abs (Day (L u)) + 33 <= maxDay ->
  Host.endOfMonth z (Some u) = Some (U (endOfMonth (L u))).
Proof.
  intros H. pose proof (DateFromTime_range (L u)) as Hd.
  pose proof (DaysInMonth_range (YearFromTime (L u)) _ (MonthFromTime_range (L u))) as Hm.
  pose proof (Day_endOfMonth (L u)) as De.
  rewrite endOfMonth_eq, Day_MakeDate in De by (unfold msPerDay; lia).
  unfold Host.endOfMonth, Host.onValid, Host.setFullYear.
  rewrite clip_UTC by (rewrite Day_setFullYear; unfold Host.getFullYear,
    Host.getMonth, ES.getFullYear, ES.getMonth; fold L; lia).
  rewrite setHours_regular.
  - unfold endOfMonth, Host.getFullYear, Host.getMonth. fold L U.
    rewrite (setHours_same_day _
               (ES.setFullYear (L u) (ES.getFullYear (L u)) (ES.getMonth (L u) + 1) 0))
      by apply Day_LU.
    reflexivity.
  - unfold MakeTime, msPerDay; lia.
  - fold L U. rewrite Day_LU, Day_setFullYear.
    unfold Host.getFullYear, Host.getMonth, ES.getFullYear, ES.getMonth. fold L. lia.
Qed.

Lemma startOfWeek_regular u :
  Z.abs (Day (L u)) + 9 <= maxDay ->
  Host.startOfWeek z (Some u) 1 = Some (U (startOfWeek (L u) 1)).
Proof.
  intros H. pose proof (WeekDay_range (L u)) as Hw.
  unfold Host.startOfWeek, Host.onValid, Host.getDay, Host.getDate,
    ES.getDay, ES.getDate. fold L.
  assert (Hdiff : 0 <= (if WeekDay (L u) <? 1 then 7 else 0) + WeekDay (L u) - 1 <= 6)
    by (destruct (Z.ltb_spec (WeekDay (L u)) 1); lia).
  rewrite setDate_regular by lia.
  rewrite setHours_regular.
  - unfold startOfWeek, ES.getDay, ES.getDate. fold L U.
    rewrite (setHours_same_day _ _ 0 0 0 0 (Day_LU _)). reflexivity.
  - unfold MakeTime, msPerDay; lia.
  - fold L U. rewrite Day_LU, Day_setDate. lia.
Qed.

Lemma endOfWeek_regular u :
  Z.abs (Day (L u)) + 9 <= maxDay ->
  Host.endOfWeek z (Some u) 1 = Some (U (endOfWeek (L u) 1)).
Proof.
  intros H. pose proof (WeekDay_range (L u)) as Hw.
  unfold Host.endOfWeek, Host.onValid, Host.getDay, Host.getDate,
    ES.getDay, ES.getDate. fold L.
  assert (Hdiff : 0 <= (if WeekDay (L u) <? 1 then -7 else 0) + 6 - (WeekDay (L u) - 1) <= 6)
    by (destruct (Z.ltb_spec (WeekDay (L u)) 1); lia).
  rewrite setDate_regular by lia.
  rewrite setHours_regular.
  - unfold endOfWeek, ES.getDay, ES.getDate. fold L U.
    rewrite (setHours_same_day _ _ 23 59 59 999 (Day_LU _)). reflexivity.
  - unfold MakeTime, msPerDay; lia.
  - fold L U. rewrite Day_LU, Day_setDate. lia.
Qed.

Lemma addDays_regular u n :
  Z.abs (Day (L u) + n) + 2 <= maxDay ->
  exists u', Host.addDays z (Some u) n = Some u' /\ Day (L u') = Day (L u) + n.
Proof.
  intros H. unfold Host.addDays.
  destruct (Z.eqb_spec n 0) as [-> | Hn].
  - exists u. split; [reflexivity | lia].
  - unfold Host.onValid, Host.getDate, ES.getDate. fold L.
    rewrite setDate_regular by lia.
    eexists. split; [reflexivity |]. fold L U.
    rewrite Day_LU, Day_setDate. lia.
Qed.

(** The corners of the grid. *)
Lemma firstMonday_regular u :
  Z.abs (Day (L u)) + 40 <= maxDay ->
  Host.firstMonday z (Some u) = Some (U (firstMonday (L u))).
Proof.
  intros H. pose proof (DateFromTime_range (L u)) as Hd.
  pose proof (DaysInMonth_range (YearFromTime (L u)) _ (MonthFromTime_range (L u))) as Hm.
  unfold Host.firstMonday, Host.monthStart.
  rewrite startOfMonth_regular by lia. fold L U.
  rewrite startOfWeek_regular by (fold L U; rewrite Day_LU, Day_startOfMonth; lia).
  fold L U. unfold firstMonday, monthStart.
  rewrite (startOfWeek_same_day _ _ 1 (Day_LU _)). reflexivity.
Qed.

Lemma lastSunday_regular u :
  Z.abs (Day (L u)) + 40 <= maxDay ->
  Host.lastSunday z (Some u) = Some (U (lastSunday (L u))).
Proof.
  intros H. pose proof (DateFromTime_range (L u)) as Hd.
  pose proof (DaysInMonth_range (YearFromTime (L u)) _ (MonthFromTime_range (L u))) as Hm.
  unfold Host.lastSunday, Host.monthEnd.
  rewrite endOfMonth_regular by lia. fold L U.
  rewrite endOfWeek_regular by (fold L U; rewrite Day_LU, Day_endOfMonth; lia).
  fold L U. unfold lastSunday, monthEnd.
  rewrite (endOfWeek_same_day _ _ 1 (Day_LU _)). reflexivity.
Qed.

End Regular.

End HostFacts.

(** ** The grid of the engine's dates *)

Module HostGrid.
Import ES ESFacts DateFns DateFnsFacts Calendar Vocabulary HostVocabulary
  GridFacts KeyFacts HostFacts.

Lemma cellsAt_length from nowAt offerDays orderDays first n :
  List.length (cellsAt from nowAt offerDays orderDays first n) = n.
Proof. unfold cellsAt. rewrite length_map, length_seq. reflexivity. Qed.

Lemma cellsAt_S from nowAt offerDays orderDays first n :
  cellsAt from nowAt offerDays orderDays first (S n) =
  cellOf from (nowAt 0%nat) offerDays orderDays first ::
  cellsAt from (fun i => nowAt (S i)) offerDays orderDays (addDays first 1) n.
Proof.
  unfold cellsAt. cbn [seq map]. change (Z.of_nat 0) with 0.
  assert (E0 : addDays first 0 = first) by (rewrite addDays_eq; lia).
  rewrite E0. apply f_equal.
  rewrite <- seq_shift, map_map. apply map_ext. intros i.
  apply f_equal. rewrite !addDays_eq. lia.
Qed.

Lemma cellsAt_ext from nowAt nowAt' offerDays orderDays first n :
  (forall i, (i < n)%nat -> nowAt i = nowAt' i) ->
  cellsAt from nowAt offerDays orderDays first n =
  cellsAt from nowAt' offerDays orderDays first n.
Proof.
  intros H. unfold cellsAt. apply map_ext_in. intros i Hi.
  apply in_seq in Hi. rewrite H by lia. reflexivity.
Qed.

(** With one reading of the clock the cells are those of [cellOf]. *)
Lemma cellsAt_const from now offerDays orderDays first n :
  cellsAt from (fun _ => now) offerDays orderDays first n =
  map (cellOf from now offerDays orderDays) (gridDates first n).
Proof. unfold cellsAt, gridDates. rewrite map_map. reflexivity. Qed.

(** Apart from [today], the cells do not depend on the clock. *)
Lemma cellsAt_withoutToday from nowAt now offerDays orderDays first n :
  map withoutToday (cellsAt from nowAt offerDays orderDays first n) =
  map withoutToday (map (cellOf from now offerDays orderDays) (gridDates first n)).
Proof.
  unfold cellsAt, gridDates. rewrite !map_map. reflexivity.
Qed.

Lemma map_date_withoutToday l : map date (map withoutToday l) = map date l.
Proof. rewrite map_map. reflexivity. Qed.

Lemma map_isCurrentMonth_withoutToday l :
  map isCurrentMonth (map withoutToday l) = map isCurrentMonth l.
Proof. rewrite map_map. reflexivity. Qed.

Lemma isSameDay_local a b : DateFns.isSameDay a b = (Day a =? Day b).
Proof.
  unfold DateFns.isSameDay, ES.getTime. rewrite !startOfDay_eq.
  unfold MakeDate, msPerDay.
  destruct (Z.eqb_spec (Day a) (Day b)) as [-> | Hne].
  - apply Z.eqb_refl.
  - apply Z.eqb_neq. lia.
Qed.

Section Regular.

Variable z : Host.Zone.
Hypothesis Hz : Regular z.

Let L := Host.LocalTime z.
Let U := Host.UTC z.

(** [isSameDay] compares local days; the second date may be anywhere
    in the range of time values. *)
Lemma isSameDay_regular a b :
  Z.abs (Day (L a)) + 2 <= maxDay ->
  Host.isSameDay z (Some a) (Some b) = (Day (L a) =? Day (L b)).
Proof.
  intros Ha. unfold Host.isSameDay.
  rewrite (startOfDay_regular z Hz a Ha). fold L U.
  unfold Host.startOfDay, Host.onValid, Host.setHours, Host.TimeClip. fold L U.
  destruct (Z.eqb_spec (Day (L a)) (Day (L b))) as [E | Hne].
  - rewrite <- (setHours_same_day (L a) (L b) 0 0 0 0 E).
    pose proof (clip_UTC z Hz (ES.setHours (L a) 0 0 0 0)) as C.
    unfold Host.TimeClip in C. fold U in C.
    destruct (setHours_eq (L a) 0 0 0 0) as [Dh _];
      [unfold MakeTime, msPerDay; lia |].
    rewrite Dh in C. specialize (C Ha).
    destruct (Z.abs (U (ES.setHours (L a) 0 0 0 0)) <=? Host.maxTime);
      [| discriminate].
    cbn [Host.sameNumber]. apply Z.eqb_refl.
  - destruct (Z.abs (U (ES.setHours (L b) 0 0 0 0)) <=? Host.maxTime);
      [| reflexivity].
    cbn [Host.sameNumber]. apply Z.eqb_neq. intros E. apply Hne.
    pose proof (Day_LU z Hz (startOfDay (L a))) as Da.
    pose proof (Day_LU z Hz (ES.setHours (L b) 0 0 0 0)) as Db.
    fold L U in Da, Db. rewrite E in Da. rewrite Da in Db.
    destruct (setHours_eq (L a) 0 0 0 0) as [Dh _];
      [unfold MakeTime, msPerDay; lia |].
    destruct (setHours_eq (L b) 0 0 0 0) as [Dh' _];
      [unfold MakeTime, msPerDay; lia |].
    unfold startOfDay in Db. lia.
Qed.

(** The test of the loop compares local days. *)
Lemma loop_condition_regular d last :
  Z.abs (Day (L d)) + 2 <= maxDay ->
  Host.leDate (Some d) (Some last) || Host.isSameDay z (Some d) (Some last)
  = (Day (L d) <=? Day (L last)).
Proof.
  intros Hd. rewrite (isSameDay_regular d last Hd). cbn [Host.leDate].
  pose proof (day_monotone z Hz d last) as M1.
  pose proof (day_monotone z Hz last d) as M2. fold L in M1, M2.
  destruct (Z.leb_spec d last), (Z.eqb_spec (Day (L d)) (Day (L last))),
    (Z.leb_spec (Day (L d)) (Day (L last))); cbn [orb]; try reflexivity; lia.
Qed.

Lemma isSameMonth_regular a b :
  Host.isSameMonth z (Some a) (Some b) = DateFns.isSameMonth (L a) (L b).
Proof. reflexivity. Qed.

Section Loop.

Variable from : Z.
Variable clock : nat -> Z.
Variables offerDays orderDays : list string.

(** A cell of the loop is the cell of the local time of [d]. *)
Lemma cellOf_regular i d :
  Z.abs (Day (L d)) + 2 <= maxDay ->
  Host.cellOf z (Some from) clock offerDays orderDays i (Some d) =
  Some (cellOf (L from) (L (clock i)) offerDays orderDays (L d)).
Proof.
  intros Hd. unfold Host.cellOf, Host.format, cellOf. cbn [option_map]. fold L.
  rewrite (isSameDay_regular d (clock i) Hd), isSameMonth_regular,
    isSameDay_local.
  reflexivity.
Qed.

(** With enough fuel the loop appends the cells of the [n] local days
    from that of [d] to that of [last]. *)
Lemma daysLoop_regular n : forall fuel d last days,
  Z.abs (Day (L d)) + 2 <= maxDay ->
  Z.abs (Day (L d) + Z.of_nat n) + 2 <= maxDay ->
  Day (L last) = Day (L d) + Z.of_nat n - 1 ->
  (n < fuel)%nat ->
  Host.daysLoop z (Some from) clock offerDays orderDays fuel (Some d) (Some last) days
  = Some (days ++
          cellsAt (L from) (fun i => L (clock (List.length days + i)%nat))
            offerDays orderDays (L d) n)%list.
Proof.
  induction n as [| n IH]; intros fuel d last days Hd Hn Hl Hf;
    (destruct fuel as [| fuel]; [lia |]); cbn [Host.daysLoop];
    rewrite (loop_condition_regular d last) by lia.
  - destruct (Z.leb_spec (Day (L d)) (Day (L last))); [lia |].
    cbn. rewrite app_nil_r. reflexivity.
  - destruct (Z.leb_spec (Day (L d)) (Day (L last))); [| lia].
    rewrite cellOf_regular by lia.
    destruct (addDays_regular z Hz d 1) as (d' & -> & Dd'); [fold L; lia |].
    fold L in Dd'.
    rewrite (IH fuel d' last) by lia.
    rewrite cellsAt_S, <- app_assoc. cbn [app]. rewrite Nat.add_0_r.
    apply f_equal. apply f_equal. apply f_equal.
    rewrite length_app. cbn [List.length].
    transitivity (cellsAt (L from)
                    (fun i => L (clock (List.length days + S i)%nat))
                    offerDays orderDays (L d') n).
    + apply cellsAt_ext. intros i _. apply f_equal. apply f_equal. lia.
    + unfold cellsAt. apply map_ext. intros i.
      apply cellOf_same_day. rewrite !Day_addDays. lia.
Qed.

End Loop.

(** The grid in a regular zone: the cells of the consecutive local days
    from the Monday on or before the 1st to the Sunday on or after the
    last day of the month of the local time of [from]; the number of
    cells is that of the grid of [Calendar.buildDays]. *)
Lemma buildDays_regular u clock offerDays orderDays :
  Z.abs (Day (L u)) + 41 <= maxDay ->
  exists n : nat,
    (forall now,
        buildDays (L u) now offerDays orderDays =
        Some (map (cellOf (L u) now offerDays orderDays)
                (gridDates (firstMonday (L u)) n))) /\
    Host.buildDays z (Some u) clock offerDays orderDays =
    Some (cellsAt (L u) (fun i => L (clock i)) offerDays orderDays
            (firstMonday (L u)) n).
Proof.
  intros Hr.
  destruct (grid_corners (L u)) as (lead & trail & Hl & Ht & E1 & E2 & W1 & W2).
  cbv zeta in *.
  set (y := ES.getFullYear (L u)) in *. set (m := ES.getMonth (L u)) in *.
  pose proof (DaysInMonth_range y m (MonthFromTime_range (L u))) as Hdim.
  assert (Hdate : 1 <= DateFromTime (L u) <= DaysInMonth y m)
    by apply DateFromTime_range.
  set (n := DaysInMonth y m + lead + trail).
  assert (D0 : MakeDay y m 1 = Day (L u) - (DateFromTime (L u) - 1)).
  { unfold y, m, ES.getFullYear, ES.getMonth.
    rewrite <- (MakeDay_fields (L u)), (MakeDay_first _ _ (DateFromTime (L u))).
    lia. }
  assert (D1 : Day (firstMonday (L u)) = MakeDay y m 1 - lead).
  { rewrite E1. apply Day_MakeDate. unfold msPerDay. lia. }
  assert (D2 : Day (lastSunday (L u)) = MakeDay y m 1 - lead + n - 1).
  { rewrite E2, Day_MakeDate by (unfold msPerDay; lia).
    rewrite (MakeDay_first y m (DaysInMonth y m)). unfold n. lia. }
  assert (T1 : TimeWithinDay (firstMonday (L u)) = 0).
  { rewrite E1. apply TimeWithinDay_MakeDate. unfold msPerDay. lia. }
  exists (Z.to_nat n). split.
  - intros now. unfold buildDays, daysWithFuel.
    apply (daysLoop_spec (L u) now offerDays orderDays (Z.to_nat n)).
    + exact T1.
    + rewrite D1, D2. lia.
    + unfold loopFuel. lia.
  - unfold Host.buildDays.
    rewrite (firstMonday_regular z Hz u), (lastSunday_regular z Hz u)
      by (fold L; unfold maxDay in *; lia).
    fold L U.
    unfold ES.getFullYear, ES.getMonth in y, m.
    rewrite (daysLoop_regular u clock offerDays orderDays (Z.to_nat n)).
    + cbn [app List.length Nat.add]. apply f_equal.
      unfold cellsAt. apply map_ext. intros i.
      apply cellOf_same_day. rewrite !Day_addDays.
      pose proof (Day_LU z Hz (firstMonday (L u))) as K. fold L U in K. lia.
    + pose proof (Day_LU z Hz (firstMonday (L u))) as K. fold L U in K.
      rewrite K, D1. unfold maxDay in *. lia.
    + pose proof (Day_LU z Hz (firstMonday (L u))) as K. fold L U in K.
      rewrite K, D1. unfold maxDay, n in *. lia.
    + pose proof (Day_LU z Hz (firstMonday (L u))) as K.
      pose proof (Day_LU z Hz (lastSunday (L u))) as K'. fold L U in K, K'.
      rewrite K, K', D1, D2. lia.
    + unfold loopFuel. lia.
Qed.

(** The grid in the two layers: same cells, apart from the [today]
    flags when the clock moves during the loop. *)
Lemma grid_host_local u clock offerDays orderDays now :
  Z.abs (Day (L u)) + 41 <= maxDay ->
  exists (daysH daysL : list MonthDay) (n : nat),
    Host.buildDays z (Some u) clock offerDays orderDays = Some daysH /\
    buildDays (L u) now offerDays orderDays = Some daysL /\
    daysH = cellsAt (L u) (fun i => L (clock i)) offerDays orderDays
              (firstMonday (L u)) n /\
    daysL = map (cellOf (L u) now offerDays orderDays)
              (gridDates (firstMonday (L u)) n) /\
    List.length daysH = n /\ List.length daysL = n /\
    map withoutToday daysH = map withoutToday daysL.
Proof.
  intros Hr.
  destruct (buildDays_regular u clock offerDays orderDays Hr) as (n & HL & HH).
  eexists _, _, n. split; [exact HH |]. split; [apply HL |].
  split; [reflexivity |]. split; [reflexivity |].
  split; [apply cellsAt_length |].
  split; [rewrite length_map; apply gridDates_length |].
  apply cellsAt_withoutToday.
Qed.

(** The [today] flag depends on the local day of the clock only. *)
Lemma cellOf_same_now from now1 now2 offerDays orderDays d :
  Day now1 = Day now2 ->
  cellOf from now1 offerDays orderDays d = cellOf from now2 offerDays orderDays d.
Proof.
  intros E. unfold cellOf. rewrite !isSameDay_local, E. reflexivity.
Qed.

(** While the clock stays on one local day, the grid is the grid of
    [Calendar.buildDays] at the local times. *)
Lemma buildDays_one_day u clock offerDays orderDays now :
  Z.abs (Day (L u)) + 41 <= maxDay ->
  (forall i, Day (L (clock i)) = Day now) ->
  Host.buildDays z (Some u) clock offerDays orderDays =
  buildDays (L u) now offerDays orderDays.
Proof.
  intros Hr Hc.
  destruct (buildDays_regular u clock offerDays orderDays Hr) as (n & HL & HH).
  rewrite HH, HL. f_equal. rewrite <- cellsAt_const.
  unfold cellsAt. apply map_ext. intros i. apply cellOf_same_now, Hc.
Qed.

(** The grid depends on the local month of the reference date only. *)
Lemma buildDays_host_same_month u1 u2 clock offerDays orderDays :
  Z.abs (Day (L u1)) + 41 <= maxDay ->
  Z.abs (Day (L u2)) + 41 <= maxDay ->
  ES.getFullYear (L u1) = ES.getFullYear (L u2) ->
  ES.getMonth (L u1) = ES.getMonth (L u2) ->
  Host.buildDays z (Some u1) clock offerDays orderDays =
  Host.buildDays z (Some u2) clock offerDays orderDays.
Proof.
  intros H1 H2 EY EM.
  destruct (buildDays_regular u1 clock offerDays orderDays H1) as (n1 & HL1 & ->).
  destruct (buildDays_regular u2 clock offerDays orderDays H2) as (n2 & HL2 & ->).
  destruct (GridClaims.corners_same_month (L u1) (L u2) EY EM) as (EF & _).
  pose proof (GridClaims.buildDays_same_month (L u1) (L u2) 0 offerDays orderDays
                EY EM) as EB.
  rewrite HL1, HL2 in EB. injection EB as EB.
  apply (f_equal (@List.length _)) in EB.
  rewrite !length_map, !gridDates_length in EB. subst n2.
  rewrite EF. f_equal. unfold cellsAt. apply map_ext. intros i.
  apply GridClaims.cellOf_same_month; assumption.
Qed.

End Regular.

End HostGrid.

(** ** Month arithmetic of the engine's dates *)

Module HostMonths.
Import ES ESFacts DateFns DateFnsFacts Calendar Vocabulary HostVocabulary
  GridFacts KeyFacts NavigationFacts HostFacts.

Lemma MakeDay_index y m dt : MakeDay y m dt = MakeDay 0 (12 * y + m) dt.
Proof.
  rewrite (MakeDay_norm y m), (MakeDay_norm 0 (12 * y + m)).
  f_equal; Z.to_euclidean_division_equations; lia.
Qed.

(** A month has 28 to 31 days, whatever the month index. *)
Lemma monthStart_step i : 28 <= MakeDay 0 (i + 1) 1 - MakeDay 0 i 1 <= 31.
Proof.
  assert (Hm : 0 <= i mod 12 <= 11) by (pose proof (Z.mod_pos_bound i 12); lia).
  pose proof (DaysInMonth_range (0 + i / 12) (i mod 12) Hm) as Hdim.
  replace (MakeDay 0 (i + 1) 1) with (MakeDay 0 (i + 1) 0 + 1)
    by (unfold MakeDay; lia).
  rewrite MakeDay_last_any, (MakeDay_norm 0 i 1),
    (MakeDay_first _ _ (DaysInMonth _ _)).
  lia.
Qed.

Lemma monthStart_span i k :
  0 <= k -> 28 * k <= MakeDay 0 (i + k) 1 - MakeDay 0 i 1 <= 31 * k.
Proof.
  intros Hk. revert k Hk. apply natlike_ind.
  - rewrite Z.add_0_r. lia.
  - intros k Hk IH. pose proof (monthStart_step (i + k)) as S.
    replace (i + Z.succ k) with (i + k + 1) by lia. lia.
Qed.

Lemma monthStart_near i k :
  Z.abs (MakeDay 0 (i + k) 1 - MakeDay 0 i 1) <= 31 * Z.abs k.
Proof.
  destruct (Z.le_gt_cases 0 k) as [Hk | Hk].
  - pose proof (monthStart_span i k Hk). lia.
  - pose proof (monthStart_span (i + k) (- k) ltac:(lia)) as S.
    replace (i + k + - k) with i in S by lia. lia.
Qed.

Lemma Day_monthStart t :
  Day t = MakeDay 0 (monthIndex t) 1 + (DateFromTime t - 1).
Proof.
  unfold monthIndex, getFullYear, getMonth.
  rewrite <- (MakeDay_fields t) at 1.
  rewrite (MakeDay_first _ _ (DateFromTime t)), MakeDay_index.
  f_equal. f_equal. lia.
Qed.

(** [addMonths] moves a date by about 31 days a month. *)
Lemma Day_addMonths_near t k :
  Z.abs (Day (addMonths t k) - Day t) <= 31 * Z.abs k + 30.
Proof.
  destruct (addMonths_spec t k) as (I & _ & D).
  pose proof (DateFromTime_range t) as H1.
  pose proof (DateFromTime_range (addMonths t k)) as H2.
  pose proof (DaysInMonth_range (YearFromTime (addMonths t k)) _
                (MonthFromTime_range (addMonths t k))) as H3.
  pose proof (DaysInMonth_range (YearFromTime t) _ (MonthFromTime_range t)) as H4.
  rewrite (Day_monthStart t), (Day_monthStart (addMonths t k)), I.
  pose proof (monthStart_near (monthIndex t) k). lia.
Qed.

Lemma monthIndex_same_day a b : Day a = Day b -> monthIndex a = monthIndex b.
Proof.
  intros E. destruct (fields_same_day a b E) as (EY & EM & _).
  unfold monthIndex. rewrite EY, EM. reflexivity.
Qed.

Section Regular.

Variable z : Host.Zone.
Hypothesis Hz : Regular z.

Let L := Host.LocalTime z.
Let U := Host.UTC z.

(** [addMonths] on a [Date] is the UTC time of [addMonths] on its local
    time. *)
Lemma addMonths_regular u k :
  k <> 0 ->
  Z.abs (Day (L u)) + 31 * Z.abs k + 64 <= maxDay ->
  Host.addMonths z (Some u) k = Some (U (addMonths (L u) k)).
Proof.
  intros Hk Hb.
  pose proof (DateFromTime_range (L u)) as Hd.
  pose proof (DaysInMonth_range (YearFromTime (L u)) _ (MonthFromTime_range (L u)))
    as Hdim.
  unfold Host.addMonths, addMonths.
  destruct (Z.eqb_spec k 0) as [E | _]; [contradiction |].
  unfold Host.onValid, Host.setMonth, Host.getMonth, Host.getDate. fold L.
  set (e := ES.setMonth (L u) (ES.getMonth (L u) + k + 1) 0).
  assert (De : Day e = MakeDay 0 (monthIndex (L u) + k + 1) 1 - 1).
  { unfold e. rewrite Day_setMonth, MakeDay_index.
    unfold monthIndex, ES.getFullYear, ES.getMonth, MakeDay.
    replace (12 * YearFromTime (L u) + (MonthFromTime (L u) + k + 1))
      with (YearFromTime (L u) * 12 + MonthFromTime (L u) + k + 1) by lia.
    lia. }
  pose proof (monthStart_near (monthIndex (L u)) (k + 1)) as Sp.
  rewrite Z.add_assoc in Sp.
  pose proof (Day_monthStart (L u)) as Dt.
  rewrite (clip_UTC z Hz e) by (unfold maxDay in *; lia).
  fold U.
  destruct (fields_same_day (L (U e)) e (Day_LU z Hz e)) as (EY & EM & ED).
  unfold Host.getFullYear, Host.getMonth. fold L.
  rewrite EY, EM, ED.
  destruct (ES.getDate (L u) >=? ES.getDate e); [reflexivity |].
  unfold Host.setFullYear. fold L.
  apply (clip_UTC z Hz).
  rewrite Day_setFullYear.
  pose proof (DateFromTime_range e) as Hde.
  pose proof (DaysInMonth_range (YearFromTime e) _ (MonthFromTime_range e)) as Hdime.
  unfold ES.getFullYear, ES.getMonth, ES.getDate.
  rewrite (MakeDay_first _ _ (DateFromTime (L u))).
  pose proof (MakeDay_fields e) as Fe.
  rewrite (MakeDay_first _ _ (DateFromTime e)) in Fe.
  unfold maxDay in *. lia.
Qed.

(** The month index of the result, and its time of day when the target
    local time exists in the zone. *)
Lemma addMonths_regular_spec u k :
  k <> 0 ->
  Z.abs (Day (L u)) + 31 * Z.abs k + 64 <= maxDay ->
  exists v,
    Host.addMonths z (Some u) k = Some v /\
    v = U (addMonths (L u) k) /\
    Day (L v) = Day (addMonths (L u) k) /\
    monthIndex (L v) = monthIndex (L u) + k /\
    ES.getDate (L v) =
      Z.min (ES.getDate (L u))
        (DaysInMonth (ES.getFullYear (L v)) (ES.getMonth (L v))) /\
    (LocalExists z (addMonths (L u) k) ->
     L v = addMonths (L u) k /\ TimeWithinDay (L v) = TimeWithinDay (L u)).
Proof.
  intros Hk Hb. exists (U (addMonths (L u) k)).
  destruct (addMonths_spec (L u) k) as (I & T & D).
  pose proof (Day_LU z Hz (addMonths (L u) k)) as K. fold L U in K.
  destruct (fields_same_day _ _ K) as (EY & EM & ED).
  split; [apply addMonths_regular; assumption |].
  split; [reflexivity |]. split; [exact K |].
  split; [rewrite (monthIndex_same_day _ _ K); exact I |].
  split; [rewrite EY, EM, ED; exact D |].
  intros Hx. unfold LocalExists in Hx. fold L U in Hx.
  rewrite Hx. split; [reflexivity | exact T].
Qed.

End Regular.

End HostMonths.

(** ** Zones with a regular calendar *)

Module HostZones.
Import ES HostVocabulary.

Ltac zone_cases :=
  repeat (match goal with
          | |- context [?a <? ?b] => destruct (Z.ltb_spec a b)
          end; cbn [orb] in * );
  try lia; Z.to_euclidean_division_equations; lia.

Lemma Regular_utc : Regular Host.utc.
Proof.
  split.
  - intros t b. destruct b; cbn; unfold msPerDay; lia.
  - intros t. unfold Host.LocalTime, Host.UTC, Host.utc, Host.zoneOf. cbn.
    f_equal. lia.
  - intros t1 t2 H. unfold Host.LocalTime, Host.utc, Host.zoneOf. cbn.
    unfold Day, msPerDay. Z.to_euclidean_division_equations. lia.
Qed.

(** The daylight-saving changes of New York leave the calendar
    regular: the skipped and the repeated hour are inside a day. *)
Lemma Regular_newYork : Regular Host.newYork.
Proof.
  split.
  - intros t b.
    unfold Host.newYork, Host.zoneOf, Host.offsetAtUTC, Host.offsetAtLocal,
      msPerDay.
    destruct b;
      repeat match goal with
        | |- context [if ?c then _ else _] => destruct c
        end; lia.
  - intros t.
    unfold Host.LocalTime, Host.UTC, Host.newYork, Host.zoneOf,
      Host.offsetAtUTC, Host.offsetAtLocal, Day, msPerDay.
    zone_cases.
  - intros t1 t2 H.
    unfold Host.LocalTime, Host.newYork, Host.zoneOf, Host.offsetAtUTC,
      Day, msPerDay.
    zone_cases.
Qed.

(** Apia is not regular: 30 December 2011 is skipped. *)
Lemma apia_not_regular : ~ Regular Host.apia.
Proof.
  intros [_ K _]. specialize (K 1325246400000). vm_compute in K. discriminate.
Qed.

(** In a zone of constant offset every local time exists. *)
Lemma constant_LocalExists z c t :
  (forall t' b, z t' b = c) -> LocalExists z t.
Proof.
  intros H. unfold LocalExists, Host.LocalTime, Host.UTC. rewrite !H. lia.
Qed.

End HostZones.

(** ** The grid and the navigation, for every zone with a regular
       calendar *)

Module HostClaims.
Import ES ESFacts DateFns DateFnsFacts Calendar Vocabulary HostVocabulary
  GridFacts KeyFacts MonthFacts NavigationFacts HostFacts HostGrid HostMonths
  HostZones.

Lemma same_keys daysH daysL :
  map withoutToday daysH = map withoutToday daysL ->
  map date daysH = map date daysL.
Proof.
  intros E. rewrite <- (map_date_withoutToday daysH), E.
  apply map_date_withoutToday.
Qed.

Lemma same_month_flags daysH daysL :
  map withoutToday daysH = map withoutToday daysL ->
  map isCurrentMonth daysH = map isCurrentMonth daysL.
Proof.
  intros E. rewrite <- (map_isCurrentMonth_withoutToday daysH), E.
  apply map_isCurrentMonth_withoutToday.
Qed.

Lemma same_in_month_keys : forall daysH daysL,
  map withoutToday daysH = map withoutToday daysL ->
  map date (filter isCurrentMonth daysH) = map date (filter isCurrentMonth daysL).
Proof.
  induction daysH as [| a l IH]; intros [| b l'] E; try discriminate;
    [reflexivity |].
  cbn [map] in E.
  assert (Eab : withoutToday a = withoutToday b) by congruence.
  assert (El : map withoutToday l = map withoutToday l') by congruence.
  cbn [filter].
  assert (Em : isCurrentMonth a = isCurrentMonth b)
    by (apply (f_equal isCurrentMonth) in Eab; exact Eab).
  assert (Ed : date a = date b)
    by (apply (f_equal date) in Eab; exact Eab).
  rewrite Em. destruct (isCurrentMonth b); cbn [map]; rewrite ?Ed;
    rewrite (IH l' El); reflexivity.
Qed.










End HostClaims.

(** ** Layout, rows and navigation, for every zone with a regular
       calendar *)

Module HostExtras.
Import ES ESFacts DateFns DateFnsFacts Calendar Vocabulary Render HostVocabulary
  GridFacts KeyFacts MonthFacts NavigationFacts HostFacts HostGrid HostMonths
  HostZones.

(** *** Rows of a grid with other [today] flags *)

Lemma slice_map {A B} (g : A -> B) l a b :
  slice (map g l) a b = map g (slice l a b).
Proof. unfold slice. rewrite skipn_map, firstn_map. reflexivity. Qed.

Lemma weeksLoop_map (g : MonthDay -> MonthDay) days : forall fuel i weeks,
  weeksLoop fuel i (map g days) (map (map g) weeks) =
  option_map (map (map g)) (weeksLoop fuel i days weeks).
Proof.
  induction fuel as [| fuel IH]; intros i weeks; [reflexivity |].
  cbn [weeksLoop]. rewrite length_map.
  destruct (i <? List.length days)%nat; [| reflexivity].
  rewrite <- IH, map_app, slice_map. reflexivity.
Qed.

Lemma buildWeeks_map (g : MonthDay -> MonthDay) days :
  buildWeeks (map g days) = option_map (map (map g)) (buildWeeks days).
Proof.
  unfold buildWeeks. rewrite length_map.
  apply (weeksLoop_map g days (S (List.length days)) 0%nat []).
Qed.

Lemma rowKey_withoutToday w i : rowKey (map withoutToday w) i = rowKey w i.
Proof. destruct w; reflexivity. Qed.

Lemma rowKeys_from weeks : forall s,
  map (fun iw => rowKey (snd iw) (fst iw))
    (combine (seq s (List.length (map (map withoutToday) weeks)))
       (map (map withoutToday) weeks)) =
  map (fun iw => rowKey (snd iw) (fst iw))
    (combine (seq s (List.length weeks)) weeks).
Proof.
  induction weeks as [| w weeks IH]; intros s; [reflexivity |].
  cbn [map List.length seq combine fst snd].
  rewrite rowKey_withoutToday, IH. reflexivity.
Qed.

Lemma rowKeys_withoutToday weeks :
  rowKeys (map (map withoutToday) weeks) = rowKeys weeks.
Proof. apply rowKeys_from. Qed.

Lemma map_map_date_withoutToday weeks :
  map (map date) (map (map withoutToday) weeks) = map (map date) weeks.
Proof.
  rewrite map_map. apply map_ext. intros w. apply map_date_withoutToday.
Qed.

(** The rows of two grids that differ in their [today] flags only. *)
Lemma same_rows daysH daysL weeksL :
  map withoutToday daysH = map withoutToday daysL ->
  buildWeeks daysL = Some weeksL ->
  exists weeksH,
    buildWeeks daysH = Some weeksH /\
    map (map withoutToday) weeksH = map (map withoutToday) weeksL.
Proof.
  intros EW HW.
  pose proof (buildWeeks_map withoutToday daysH) as A.
  pose proof (buildWeeks_map withoutToday daysL) as B.
  rewrite EW, B, HW in A. cbn [option_map] in A.
  destruct (buildWeeks daysH) as [weeksH |]; [| discriminate].
  exists weeksH. split; [reflexivity |].
  cbn [option_map] in A. congruence.
Qed.

Lemma Day_addMonths_same a b k :
  Day a = Day b -> Day (addMonths a k) = Day (addMonths b k).
Proof.
  intros E. destruct (fields_same_day a b E) as (EY & EM & ED).
  destruct (addMonths_spec a k) as (Ia & _ & Da).
  destruct (addMonths_spec b k) as (Ib & _ & Db).
  assert (EI : monthIndex (addMonths a k) = monthIndex (addMonths b k)).
  { rewrite Ia, Ib. unfold monthIndex. rewrite EY, EM. reflexivity. }
  destruct (NavigationExtras.fields_of_monthIndex _ _ EI) as (FY & FM).
  rewrite <- (MakeDay_fields (addMonths a k)), <- (MakeDay_fields (addMonths b k)).
  unfold getFullYear, getMonth, getDate in *.
  rewrite Da, Db, FY, FM, ED. reflexivity.
Qed.

Lemma Day_iter_near t (k : nat) :
  Z.abs (Day (Nat.iter k (fun d => addMonths d 1) t) - Day t)
  <= 31 * Z.of_nat k + 30.
Proof.
  pose proof (NavigationExtras.monthIndex_iter t k) as I.
  set (r := Nat.iter k (fun d => addMonths d 1) t) in *.
  pose proof (DateFromTime_range t) as H1.
  pose proof (DateFromTime_range r) as H2.
  pose proof (DaysInMonth_range (YearFromTime r) _ (MonthFromTime_range r)) as H3.
  pose proof (DaysInMonth_range (YearFromTime t) _ (MonthFromTime_range t)) as H4.
  rewrite (Day_monthStart t), (Day_monthStart r), I.
  pose proof (monthStart_near (monthIndex t) (Z.of_nat k)). lia.
Qed.

Section Regular.

Variable z : Host.Zone.
Hypothesis Hz : Regular z.

Let L := Host.LocalTime z.

Lemma iter_regular u : forall k : nat,
  Z.abs (Day (L u)) + 31 * Z.of_nat k + 130 <= maxDay ->
  exists v,
    Nat.iter k (fun d => Host.addMonths z d 1) (Some u) = Some v /\
    Day (L v) = Day (Nat.iter k (fun d => addMonths d 1) (L u)).
Proof.
  induction k as [| k IH]; intros Hb.
  - exists u. split; reflexivity.
  - destruct IH as (v & Ev & Dv); [lia |].
    pose proof (Day_iter_near (L u) k) as Hn.
    cbn [Nat.iter nat_rect]. unfold Nat.iter in Ev. rewrite Ev.
    destruct (addMonths_regular_spec z Hz v 1)
      as (w & Ew & _ & Dw & _); [lia | fold L; unfold maxDay in *; lia |].
    exists w. split; [exact Ew |]. fold L in Dw. rewrite Dw.
    apply Day_addMonths_same. exact Dv.
Qed.

Lemma getDay_UTC t : Host.getDay z (Host.UTC z t) = ES.getDay t.
Proof.
  unfold Host.getDay, ES.getDay, WeekDay. rewrite (Day_LU z Hz). reflexivity.
Qed.

End Regular.







(** When midnight passes between two readings of the clock, two cells
    are flagged: with the clock at 23:59:59.999 of 10 March 2024 for the
    first 14 cells and at 0:00 of 11 March from then on, in UTC. *)
Example today_twice :
  option_map (fun days => map date (filter today days))
    (Host.buildDays Host.utc (Some 1709251200000)
       (fun i => if (i <? 14)%nat then 1710115199999 else 1710115200000) [] [])
  = Some ["2024-03-10"; "2024-03-11"]%string.
Proof. vm_compute. reflexivity. Qed.











End HostExtras.
